(** * Time tracker backend: worked-minutes computation and calendar summary

    A shallow embedding of [main.py]: the duration helper
    [compute_worked_minutes], the time-entry endpoints that call it
    ([list_time_entries], [update_time_entry], [punch_stop]) and the
    calendar aggregation of [get_summary].

    Python values are modelled by the inductive type [value], documents
    (Python dicts) by [gmap string value], exceptions by the type [exn], and
    the endpoints run in a small state-and-exception monad [M] over a
    [world] made of the system clock and the document store. *)

From Stdlib Require Import ZArith Lia List String Ascii Bool Sorting.Sorted Sorting.Permutation.
From stdpp Require Import base gmap strings list.

Local Open Scope Z_scope.

(** ** Python values and exceptions *)

(** [datetime.datetime]: the seven clock fields and [tzinfo].  A fixed-offset
    [tzinfo] is represented by its [utcoffset()] in microseconds, [None] is a
    naive datetime; [timezone.utc] is [Some 0]. *)
Record datetime := mk_datetime {
  year : Z;
  month : Z;
  day : Z;
  hour : Z;
  minute : Z;
  second : Z;
  microsecond : Z;
  tzinfo : option Z
}.

(** The values that occur in time-entry documents and in JSON payloads:
    [None], [int], [str], [datetime] and [bson.ObjectId] (given by its 24
    hexadecimal digits).  Floats, booleans and containers are left out. *)
Inductive value :=
| VNone
| VInt (z : Z)
| VStr (s : string)
| VDate (d : datetime)
| VObjectId (h : string).

Inductive exn :=
| HTTPException (status_code : Z) (detail : string)
| TypeError
| AttributeError
| ValueError
| OverflowError
| DependencyUnavailable.

Inductive result (A : Type) :=
| Ok (a : A)
| Raise (e : exn).
Arguments Ok {A} a.
Arguments Raise {A} e.

#[global] Instance datetime_eq_dec : EqDecision datetime.
Proof. solve_decision. Defined.
#[global] Instance value_eq_dec : EqDecision value.
Proof. solve_decision. Defined.
#[global] Instance exn_eq_dec : EqDecision exn.
Proof. solve_decision. Defined.

(** ** The proleptic Gregorian calendar of the [datetime] module *)

Definition MAXORDINAL : Z := 3652059.

Definition is_leap (y : Z) : bool :=
  (y mod 4 =? 0) && (negb (y mod 100 =? 0) || (y mod 400 =? 0)).

Definition days_before_year (y : Z) : Z :=
  let y := y - 1 in y * 365 + y / 4 - y / 100 + y / 400.

Definition DAYS_IN_MONTH (m : Z) : Z :=
  match m with
  | 1 => 31 | 2 => 28 | 3 => 31 | 4 => 30 | 5 => 31 | 6 => 30
  | 7 => 31 | 8 => 31 | 9 => 30 | 10 => 31 | 11 => 30 | 12 => 31
  | _ => 0
  end.

Definition DAYS_BEFORE_MONTH (m : Z) : Z :=
  match m with
  | 1 => 0 | 2 => 31 | 3 => 59 | 4 => 90 | 5 => 120 | 6 => 151
  | 7 => 181 | 8 => 212 | 9 => 243 | 10 => 273 | 11 => 304 | 12 => 334
  | _ => 0
  end.

Definition days_in_month (y m : Z) : Z :=
  if (m =? 2) && is_leap y then 29 else DAYS_IN_MONTH m.

Definition days_before_month (y m : Z) : Z :=
  DAYS_BEFORE_MONTH m + (if (2 <? m) && is_leap y then 1 else 0).

Definition ymd2ord (y m d : Z) : Z :=
  days_before_year y + days_before_month y m + d.

Definition DI400Y : Z := 146097.
Definition DI100Y : Z := 36524.
Definition DI4Y : Z := 1461.

(** [_ord2ymd]: the inverse of [ymd2ord]. *)
Definition ord2ymd (n : Z) : Z * Z * Z :=
  let n := n - 1 in
  let n400 := n / DI400Y in
  let n := n mod DI400Y in
  let y := n400 * 400 + 1 in
  let n100 := n / DI100Y in
  let n := n mod DI100Y in
  let n4 := n / DI4Y in
  let n := n mod DI4Y in
  let n1 := n / 365 in
  let n := n mod 365 in
  let y := y + n100 * 100 + n4 * 4 + n1 in
  if (n1 =? 4) || (n100 =? 4) then (y - 1, 12, 31)
  else
    let leapyear := (n1 =? 3) && (negb (n4 =? 24) || (n100 =? 3)) in
    let m := Z.shiftr (n + 50) 5 in
    let preceding := DAYS_BEFORE_MONTH m + (if (2 <? m) && leapyear then 1 else 0) in
    if n <? preceding then
      let m := m - 1 in
      let preceding :=
        preceding - (DAYS_IN_MONTH m + (if (m =? 2) && leapyear then 1 else 0)) in
      (y, m, n - preceding + 1)
    else (y, m, n - preceding + 1).

Definition toordinal (d : datetime) : Z := ymd2ord (year d) (month d) (day d).

(** [weekday()]: Monday is 0, Sunday is 6. *)
Definition weekday (d : datetime) : Z := (toordinal d + 6) mod 7.

(** The checks of the [datetime] constructor ([_check_date_fields],
    [_check_time_fields], [_check_utc_offset]). *)
Definition check_fields (d : datetime) : bool :=
  (1 <=? year d) && (year d <=? 9999) &&
  (1 <=? month d) && (month d <=? 12) &&
  (1 <=? day d) && (day d <=? days_in_month (year d) (month d)) &&
  (0 <=? hour d) && (hour d <=? 23) &&
  (0 <=? minute d) && (minute d <=? 59) &&
  (0 <=? second d) && (second d <=? 59) &&
  (0 <=? microsecond d) && (microsecond d <=? 999999) &&
  match tzinfo d with
  | None => true
  | Some off => (-86400000000 <? off) && (off <? 86400000000)
  end.

(** [datetime(...)] and [replace(...)] build a datetime through the
    constructor, which raises [ValueError] on a field out of range. *)
Definition new_datetime (d : datetime) : result datetime :=
  if check_fields d then Ok d else Raise ValueError.

Definition UTC : option Z := Some 0.

(** [datetime.min]. *)
Definition datetime_min : datetime := mk_datetime 1 1 1 0 0 0 0 None.

(** A [timedelta] is represented by its total number of microseconds. *)
Definition timedelta_days (n : Z) : Z := n * 86400000000.

(** Microseconds since the start of ordinal day 0, on the datetime's own
    clock (no offset applied). *)
Definition clock_micros (d : datetime) : Z :=
  ((toordinal d * 86400 + hour d * 3600 + minute d * 60 + second d) * 1000000)
  + microsecond d.

(** [datetime.__add__(timedelta)]: [OverflowError] when the resulting date
    leaves ordinals 1..MAXORDINAL. *)
Definition datetime_add (d : datetime) (td : Z) : result datetime :=
  let total := clock_micros d + td in
  let days := total / 86400000000 in
  let rem := total mod 86400000000 in
  let secs := rem / 1000000 in
  let us := rem mod 1000000 in
  if (0 <? days) && (days <=? MAXORDINAL) then
    let '(y, m, dd) := ord2ymd days in
    Ok (mk_datetime y m dd (secs / 3600) ((secs mod 3600) / 60) ((secs mod 3600) mod 60)
          us (tzinfo d))
  else Raise OverflowError.

(** [datetime.__sub__(datetime)]: the difference of the clock readings,
    corrected by the two offsets when both are aware; mixing a naive and an
    aware operand raises [TypeError]. *)
Definition datetime_sub (a b : datetime) : result Z :=
  let base := clock_micros a - clock_micros b in
  match tzinfo a, tzinfo b with
  | None, None => Ok base
  | Some myoff, Some otoff => Ok (base + otoff - myoff)
  | _, _ => Raise TypeError
  end.

(** ** Floats: [timedelta.total_seconds()] and [// 60] *)

(** A finite binary64 number [mant * 2 ^ expo]. *)
Record float := mk_float { mant : Z; expo : Z }.

Definition round_half_even (n d : Z) : Z :=
  let q := n / d in
  match 2 * (n mod d) ?= d with
  | Lt => q
  | Gt => q + 1
  | Eq => if Z.even q then q else q + 1
  end.

(** True division [a / b] of two ints, [b > 0]: the quotient correctly
    rounded (to nearest, ties to even) to 53 significant bits.  Quotients
    at or above [2 ^ 1024], where Python raises [OverflowError], do not
    occur for the operands used here. *)
Definition int_true_divide (a b : Z) : float :=
  if a =? 0 then mk_float 0 0
  else
    let n := Z.abs a in
    let L := Z.log2 (n * 2 ^ 1074 / b) - 1074 in
    let e := Z.max (L - 52) (-1074) in
    let m := if 0 <=? e then round_half_even n (b * 2 ^ e)
             else round_half_even (n * 2 ^ (- e)) b in
    mk_float (Z.sgn a * m) e.

(** [timedelta.total_seconds()]: total microseconds divided by [10**6]. *)
Definition total_seconds (td : Z) : float := int_true_divide td 1000000.

(** [int(x // w)] for a float [x] and an int [w > 0]: the floor of the
    quotient.  Python's float floor division is exact for these operands
    ([x - fmod(x, w)] and its quotient by [w] are representable). *)
Definition float_floordiv_int (x : float) (w : Z) : Z :=
  if 0 <=? expo x then (mant x * 2 ^ expo x) / w
  else mant x / (w * 2 ^ (- expo x)).

(** ** The world: system clock and store *)

Abbreviation doc := (gmap string value).

(** A stored time entry: its [_id] (24 hexadecimal digits) and its other
    fields. *)
Record stored := mk_stored { oid : string; fields : doc }.

(** [clock] gives the successive readings of [datetime.now(timezone.utc)],
    [ticks] counts the readings made so far.  [db] is [None] when the
    database object is not initialised; only the [timeentry] collection
    is represented. *)
Record world := mk_world {
  clock : nat -> datetime;
  ticks : nat;
  db : option (list stored)
}.

Definition M (A : Type) : Type := world -> result A * world.

Definition ret {A} (a : A) : M A := fun w => (Ok a, w).
Definition raise {A} (e : exn) : M A := fun w => (Raise e, w).
Definition bind {A B} (k : A -> M B) (m : M A) : M B :=
  fun w => match m w with
           | (Ok a, w') => k a w'
           | (Raise e, w') => (Raise e, w')
           end.
Definition lift {A} (r : result A) : M A := fun w => (r, w).

#[global] Instance M_ret : MRet M := @ret.
#[global] Instance M_bind : MBind M := @bind.

(** [try: m except Exception: h]. *)
Definition try_except {A} (m : M A) (h : M A) : M A :=
  fun w => match m w with
           | (Ok a, w') => (Ok a, w')
           | (Raise _, w') => h w'
           end.

(** [datetime.now(timezone.utc)]. *)
Definition now_utc : M datetime :=
  fun w => (Ok (clock w (ticks w)), mk_world (clock w) (S (ticks w)) (db w)).

(** ** [compute_worked_minutes] *)

(** [v.tzinfo]. *)
Definition get_tzinfo (v : value) : result (option Z) :=
  match v with
  | VDate d => Ok (tzinfo d)
  | _ => Raise AttributeError
  end.

(** [v.replace(tzinfo=timezone.utc)]. *)
Definition replace_tzinfo_utc (v : value) : result value :=
  match v with
  | VDate d =>
      match new_datetime (mk_datetime (year d) (month d) (day d) (hour d) (minute d)
                            (second d) (microsecond d) UTC) with
      | Ok d' => Ok (VDate d')
      | Raise e => Raise e
      end
  | _ => Raise AttributeError
  end.

(** [a - b]. *)
Definition py_sub_dates (a b : value) : result Z :=
  match a, b with
  | VDate x, VDate y => datetime_sub x y
  | _, _ => Raise TypeError
  end.

(** Truth value of [v]. *)
Definition truthy (v : value) : bool :=
  match v with
  | VNone => false
  | VInt z => negb (z =? 0)
  | VStr s => negb (String.eqb s EmptyString)
  | VDate _ => true
  | VObjectId _ => true
  end.

(** [v or 0]. *)
Definition or_zero (v : value) : value := if truthy v then v else VInt 0.

(** [n - v] for an int [n]. *)
Definition int_minus (n : Z) (v : value) : result Z :=
  match v with
  | VInt z => Ok (n - z)
  | _ => Raise TypeError
  end.

Definition normalize_utc (v : value) : result value :=
  match get_tzinfo v with
  | Raise e => Raise e
  | Ok None => replace_tzinfo_utc v
  | Ok (Some _) => Ok v
  end.

Definition compute_worked_minutes (start end_ break_minutes : value) : M Z :=
  end_ ← (match end_ with
           | VNone => d ← now_utc; ret (VDate d)
           | _ => ret end_
           end);
  start ← lift (normalize_utc start);
  end_ ← lift (normalize_utc end_);
  td ← lift (py_sub_dates end_ start);
  let diff := float_floordiv_int (total_seconds td) 60 in
  r ← lift (int_minus diff (or_zero break_minutes));
  ret (Z.max 0 r).


(** The instant a datetime denotes, in microseconds on the UTC clock; a
    naive datetime is read as UTC (this is also how the store orders and
    compares dates). *)
Definition instant (d : datetime) : Z := clock_micros d - default 0 (tzinfo d).

(** The annotation of the specification: a naive datetime gets the UTC
    offset and keeps its clock fields, an aware one is left as it is. *)
Definition annotate_utc (d : datetime) : datetime :=
  match tzinfo d with
  | None => mk_datetime (year d) (month d) (day d) (hour d) (minute d) (second d)
              (microsecond d) UTC
  | Some _ => d
  end.

(** An optional end as the Python argument: [None] or a datetime. *)
Definition opt_date (o : option datetime) : value :=
  match o with
  | Some d => VDate d
  | None => VNone
  end.

(** The world after one reading of the clock. *)
Definition tick (w : world) : world := mk_world (clock w) (S (ticks w)) (db w).

(** Elapsed whole minutes between two instants: the floor of the duration
    in seconds over 60, the duration being a whole number of microseconds. *)
Definition elapsed_whole_minutes (s e : datetime) : Z :=
  (instant e - instant s) / 60000000.

(** The minutes computed from two resolved instants and a break value. *)
Definition worked_between (s e : datetime) (break_minutes : value) : result Z :=
  match int_minus (float_floordiv_int (total_seconds (instant e - instant s)) 60)
          (or_zero break_minutes) with
  | Ok r => Ok (Z.max 0 r)
  | Raise x => Raise x
  end.

(** Two datetimes with the same seven clock fields. *)
Definition same_clock_fields (a b : datetime) : Prop :=
  year a = year b /\ month a = month b /\ day a = day b /\
  hour a = hour b /\ minute a = minute b /\ second a = second b /\
  microsecond a = microsecond b.

(** ** The document store *)

(** The database object [db] and the helper [get_documents] come from
    [database.py], which is not among the sources.  The store is the
    external collaborator of the specification; its operations are given
    the behaviour of the MongoDB calls that [main.py] makes ([find],
    [find_one] with a sort, [update_one] with [$set]).  A date is kept as
    the Python datetime that was written: the truncation to milliseconds
    and the conversion to UTC that the driver applies are not
    represented. *)

(** [d.get(k)] and [d.get(k, default)] on the fields of a document. *)
Definition get (d : doc) (k : string) : value := default VNone (d !! k).
Definition get_default (d : doc) (k : string) (dflt : value) : value :=
  default dflt (d !! k).

(** A field as a query sees it: [_id] is the ObjectId of the document. *)
Definition lookup_field (st : stored) (k : string) : option value :=
  if String.eqb k "_id" then Some (VObjectId (oid st)) else fields st !! k.

(** Order of the store between values: first by type (null, numbers,
    strings, ObjectIds, dates), then within the type; dates by instant. *)
Definition bson_rank (v : value) : Z :=
  match v with
  | VNone => 0
  | VInt _ => 1
  | VStr _ => 2
  | VObjectId _ => 3
  | VDate _ => 4
  end.

Definition bson_compare (a b : value) : comparison :=
  match a, b with
  | VInt x, VInt y => x ?= y
  | VStr x, VStr y => String.compare x y
  | VObjectId x, VObjectId y => String.compare x y
  | VDate x, VDate y => instant x ?= instant y
  | _, _ => bson_rank a ?= bson_rank b
  end.

Definition same_type (a b : value) : bool := bson_rank a =? bson_rank b.

(** Conditions of a query document: [{k: v}] and
    [{k: {"$gte": lo, "$lt": hi}}]. *)
Inductive cond :=
| CEq (v : value)
| CRange (gte lt : value).

Abbreviation query := (list (string * cond)).

Definition is_lt (c : comparison) : bool :=
  match c with Lt => true | _ => false end.
Definition is_eq (c : comparison) : bool :=
  match c with Eq => true | _ => false end.
Definition is_gt (c : comparison) : bool :=
  match c with Gt => true | _ => false end.

(** [{k: None}] matches a null or missing field; a comparison only matches
    values of the type of its bound. *)
Definition matches_cond (c : cond) (v : option value) : bool :=
  match c with
  | CEq VNone =>
      match v with
      | None | Some VNone => true
      | _ => false
      end
  | CEq x =>
      match v with
      | Some y => same_type y x && is_eq (bson_compare y x)
      | None => false
      end
  | CRange lo hi =>
      match v with
      | Some y =>
          same_type y lo && negb (is_lt (bson_compare y lo)) &&
          same_type y hi && is_lt (bson_compare y hi)
      | None => false
      end
  end.

Definition matches (q : query) (st : stored) : bool :=
  forallb (fun kc => matches_cond (snd kc) (lookup_field st (fst kc))) q.

(** [find(q)]: the matching documents, in the order of the collection
    ([fetch(collection, filter)] in the specification). *)
Definition find (q : query) (coll : list stored) : list stored :=
  List.filter (matches q) coll.

(** The first document of [l] whose [k] is maximal in the order of the
    store (a missing field sorts as null). *)
Fixpoint first_max (k : string) (l : list stored) : option stored :=
  match l with
  | [] => None
  | d :: t =>
      match first_max k t with
      | None => Some d
      | Some m =>
          if is_gt (bson_compare (default VNone (lookup_field m k))
                      (default VNone (lookup_field d k)))
          then Some m else Some d
      end
  end.

(** [find_one(q, sort=[(k, -1)])]: the matching document with the maximal
    [k], the first one in the order of the collection among equals
    ([fetch_latest_running(collection)] in the specification). *)
Definition find_one_sorted_desc (q : query) (k : string) (coll : list stored)
  : option stored :=
  first_max k (find q coll).

(** [find_one(q)]. *)
Definition find_one (q : query) (coll : list stored) : option stored :=
  head (find q coll).

(** [update_one(q, {"$set": upd})]: the first matching document gets the
    fields of [upd] ([persist(collection, id, partial fields)] in the
    specification). *)
Fixpoint update_one (q : query) (upd : doc) (coll : list stored) : list stored :=
  match coll with
  | [] => []
  | st :: t =>
      if matches q st then mk_stored (oid st) (upd ∪ fields st) :: t
      else st :: update_one q upd t
  end.

(** [if db is None: raise HTTPException(500, ...)]. *)
Definition require_db : M unit :=
  fun w => match db w with
           | None => (Raise (HTTPException 500 "Database not available"), w)
           | Some _ => (Ok tt, w)
           end.

(** [db["timeentry"]]: subscripting [None] raises [TypeError]. *)
Definition timeentry : M (list stored) :=
  fun w => match db w with
           | None => (Raise TypeError, w)
           | Some c => (Ok c, w)
           end.

Definition set_timeentry (c : list stored) : M unit :=
  fun w => (Ok tt, mk_world (clock w) (ticks w) (Some c)).

Definition db_find (q : query) : M (list stored) :=
  c ← timeentry; ret (find q c).

Definition db_find_one (q : query) : M (option stored) :=
  c ← timeentry; ret (find_one q c).

Definition db_find_one_sorted_desc (q : query) (k : string) : M (option stored) :=
  c ← timeentry; ret (find_one_sorted_desc q k c).

Definition db_update_one (q : query) (upd : doc) : M unit :=
  c ← timeentry; set_timeentry (update_one q upd c).

(** Modelled from the spec: [get_documents("timeentry", flt)] is
    [fetch(collection, filter)], the matching records in store order; an
    unavailable store is a "dependency unavailable" failure. *)
Definition get_documents (q : query) : M (list stored) :=
  fun w => match db w with
           | None => (Raise DependencyUnavailable, w)
           | Some c => (Ok (find q c), w)
           end.

(** ** Identifiers *)

Definition is_hex_digit (c : ascii) : bool :=
  let n := N_of_ascii c in
  ((48 <=? n) && (n <=? 57) || (97 <=? n) && (n <=? 102) || (65 <=? n) && (n <=? 70))%N.

Definition lower_hex (c : ascii) : ascii :=
  let n := N_of_ascii c in
  if ((65 <=? n) && (n <=? 70))%N then ascii_of_N (n + 32) else c.

Fixpoint string_forallb (p : ascii -> bool) (s : string) : bool :=
  match s with
  | EmptyString => true
  | String c t => p c && string_forallb p t
  end.

Fixpoint string_map (f : ascii -> ascii) (s : string) : string :=
  match s with
  | EmptyString => EmptyString
  | String c t => String (f c) (string_map f t)
  end.

(** [to_object_id]: [ObjectId(id_str)] accepts 24 hexadecimal digits; any
    failure becomes a 400.  The result is the ObjectId's hexadecimal text
    (lower case, as [str(ObjectId)] prints it). *)
Definition to_object_id (id_str : string) : result string :=
  if (Nat.eqb (String.length id_str) 24) && string_forallb is_hex_digit id_str
  then Ok (string_map lower_hex id_str)
  else Raise (HTTPException 400 "Invalid id format").

(** ** Sorting with [list.sort(key=..., reverse=True)] *)

(** [a < b] between two sort keys: ints, strings and ObjectIds compare
    among themselves, datetimes when both are naive or both aware; anything
    else raises [TypeError]. *)
Definition py_lt (a b : value) : result bool :=
  match a, b with
  | VInt x, VInt y => Ok (x <? y)
  | VStr x, VStr y => Ok (is_lt (String.compare x y))
  | VObjectId x, VObjectId y => Ok (is_lt (String.compare x y))
  | VDate x, VDate y =>
      match tzinfo x, tzinfo y with
      | None, None | Some _, Some _ => Ok (instant x <? instant y)
      | _, _ => Raise TypeError
      end
  | _, _ => Raise TypeError
  end.

(** Stable descending sort: [x] goes in front of the already sorted later
    elements unless its key is strictly less than theirs; a comparison that
    raises aborts the sort. *)
Fixpoint insert_reverse {A} (key : A -> value) (x : A) (l : list A) : result (list A) :=
  match l with
  | [] => Ok [x]
  | y :: t =>
      match py_lt (key x) (key y) with
      | Raise e => Raise e
      | Ok false => Ok (x :: y :: t)
      | Ok true =>
          match insert_reverse key x t with
          | Ok t' => Ok (y :: t')
          | Raise e => Raise e
          end
      end
  end.

Fixpoint list_sort_reverse {A} (key : A -> value) (l : list A) : result (list A) :=
  match l with
  | [] => Ok []
  | x :: t =>
      match list_sort_reverse key t with
      | Ok t' => insert_reverse key x t'
      | Raise e => Raise e
      end
  end.

(** Sequencing of fallible computations. *)
Definition rbind {A B} (r : result A) (k : A -> result B) : result B :=
  match r with
  | Ok a => k a
  | Raise e => Raise e
  end.

(** ** Parsing the [month] parameter *)

Definition is_space (c : ascii) : bool :=
  let n := N_of_ascii c in ((n =? 32) || (9 <=? n) && (n <=? 13))%N.

Fixpoint lstrip (s : string) : string :=
  match s with
  | String c t => if is_space c then lstrip t else s
  | EmptyString => EmptyString
  end.

Fixpoint string_rev_onto (s acc : string) : string :=
  match s with
  | EmptyString => acc
  | String c t => string_rev_onto t (String c acc)
  end.

Definition strip (s : string) : string :=
  string_rev_onto (lstrip (string_rev_onto (lstrip s) EmptyString)) EmptyString.

Definition digit_val (c : ascii) : option Z :=
  let n := N_of_ascii c in
  if ((48 <=? n) && (n <=? 57))%N then Some (Z.of_N n - 48) else None.

(** Decimal digits, single underscores allowed between two digits. *)
Fixpoint parse_digits (s : string) (acc : Z) (after_digit : bool) : option Z :=
  match s with
  | EmptyString => if after_digit then Some acc else None
  | String c t =>
      match digit_val c with
      | Some v => parse_digits t (acc * 10 + v) true
      | None =>
          if Ascii.eqb c "_" && after_digit then
            match t with
            | String c' _ =>
                match digit_val c' with
                | Some _ => parse_digits t acc false
                | None => None
                end
            | EmptyString => None
            end
          else None
      end
  end.

(** [int(s)] on an ASCII string; [None] stands for [ValueError]. *)
Definition py_int (s : string) : option Z :=
  match strip s with
  | String "+" t => parse_digits t 0 false
  | String "-" t => option_map Z.opp (parse_digits t 0 false)
  | t => parse_digits t 0 false
  end.

(** [s.split(sep)] for a one-character separator. *)
Fixpoint split_on (sep : ascii) (s : string) : list string :=
  match s with
  | EmptyString => [EmptyString]
  | String c t =>
      if Ascii.eqb c sep then EmptyString :: split_on sep t
      else
        match split_on sep t with
        | h :: r => String c h :: r
        | [] => [String c EmptyString]
        end
  end.

Definition invalid_month : exn :=
  HTTPException 400 "Invalid month format; expected YYYY-MM".

(** The [try] block of [list_time_entries]: any exception becomes a 400. *)
Definition month_range (month : string) : result (datetime * datetime) :=
  match List.map py_int (split_on "-" month) with
  | [Some year; Some mon] =>
      match new_datetime (mk_datetime year mon 1 0 0 0 0 UTC) with
      | Ok start =>
          match new_datetime
                  (mk_datetime (year + (if mon =? 12 then 1 else 0))
                     (if mon =? 12 then 1 else mon + 1) 1 0 0 0 0 UTC) with
          | Ok end_ => Ok (start, end_)
          | Raise _ => Raise invalid_month
          end
      | Raise _ => Raise invalid_month
      end
  | _ => Raise invalid_month
  end.

(** ** The time-entry endpoints *)

Fixpoint mapM {A B} (f : A -> M B) (l : list A) : M (list B) :=
  match l with
  | [] => ret []
  | x :: t => y ← f x; ys ← mapM f t; ret (y :: ys)
  end.

(** The body of the loop of [list_time_entries] on one document. *)
Definition live_entry (st : stored) : M doc :=
  let d := <["_id" := VStr (oid st)]> (fields st) in
  let start := get d "start_time" in
  let end_ := get d "end_time" in
  let break_min := get_default d "break_minutes" (VInt 0) in
  worked ← try_except
             (r ← compute_worked_minutes start end_ break_min; ret (VInt r))
             (ret (get_default d "worked_minutes" (VInt 0)));
  ret (<["worked_minutes" := worked]> d).

Definition start_time_key (x : doc) : value :=
  get_default x "start_time" (VDate datetime_min).

(** The filter built from the query parameters. *)
Definition build_filter (month client_id : option string) : result query :=
  let flt : query :=
    match client_id with
    | Some c => if String.eqb c EmptyString then [] else [("client_id", CEq (VStr c))]
    | None => []
    end in
  match month with
  | Some m =>
      if String.eqb m EmptyString then Ok flt
      else
        rbind (month_range m) (fun r =>
        Ok (flt ++ [("start_time", CRange (VDate (fst r)) (VDate (snd r)))]))
  | None => Ok flt
  end.

Definition list_time_entries (month client_id : option string) : M (list doc) :=
  flt ← lift (build_filter month client_id);
  docs ← get_documents flt;
  docs ← mapM live_entry docs;
  lift (list_sort_reverse start_time_key docs).

Definition allowed : gset string :=
  list_to_set ["start_time"; "end_time"; "break_minutes"; "hourly_rate"; "notes";
               "client_id"; "project_id"].

Definition by_id (i : string) : query := [("_id", CEq (VObjectId i))].

Definition update_time_entry (entry_id : string) (payload : doc) : M doc :=
  require_db;;
  let update : doc := filter (fun kv => fst kv ∈ allowed) payload in
  if decide (update = ∅) then raise (HTTPException 400 "No valid fields to update")
  else
    i ← lift (to_object_id entry_id);
    db_update_one (by_id i) update;;
    i ← lift (to_object_id entry_id);
    found ← db_find_one (by_id i);
    match found with
    | None => raise (HTTPException 404 "Time entry not found")
    | Some st =>
        worked ← compute_worked_minutes (get (fields st) "start_time")
                   (get (fields st) "end_time")
                   (get_default (fields st) "break_minutes" (VInt 0));
        i ← lift (to_object_id entry_id);
        db_update_one (by_id i) {[ "worked_minutes" := VInt worked ]};;
        ret (<["worked_minutes" := VInt worked]>
               (<["_id" := VStr (oid st)]> (fields st)))
    end.

Definition punch_stop : M doc :=
  require_db;;
  found ← db_find_one_sorted_desc [("end_time", CEq VNone)] "start_time";
  match found with
  | None => raise (HTTPException 404 "No running timer")
  | Some st =>
      end_ ← now_utc;
      worked ← compute_worked_minutes (get (fields st) "start_time") (VDate end_)
                 (get_default (fields st) "break_minutes" (VInt 0));
      db_update_one (by_id (oid st))
        (<["end_time" := VDate end_]> {[ "worked_minutes" := VInt worked ]});;
      found' ← db_find_one (by_id (oid st));
      match found' with
      | None => raise TypeError
      | Some st' =>
          ret (<["worked_minutes" := VInt worked]>
                 (<["_id" := VStr (oid st')]> (fields st')))
      end
  end.

(** ** [get_summary] *)

Definition replace_time (d : datetime) (h mi s us : Z) : result datetime :=
  new_datetime (mk_datetime (year d) (month d) (day d) h mi s us (tzinfo d)).

Definition replace_day (d : datetime) (dd : Z) : result datetime :=
  new_datetime (mk_datetime (year d) (month d) dd (hour d) (minute d) (second d)
                  (microsecond d) (tzinfo d)).

Definition replace_month (d : datetime) (m : Z) : result datetime :=
  new_datetime (mk_datetime (year d) m (day d) (hour d) (minute d) (second d)
                  (microsecond d) (tzinfo d)).

Definition replace_year_month (d : datetime) (y m : Z) : result datetime :=
  new_datetime (mk_datetime y m (day d) (hour d) (minute d) (second d)
                  (microsecond d) (tzinfo d)).

(** The four ranges built from [now], in the order of the dict literal. *)
Definition summary_ranges (now : datetime)
  : result (list (string * (datetime * datetime))) :=
  rbind (replace_time now 0 0 0 0) (fun day_start =>
  rbind (datetime_add day_start (- timedelta_days (weekday day_start))) (fun week_start =>
  rbind (replace_day day_start 1) (fun month_start =>
  rbind (if month month_start =? 1
         then replace_year_month month_start (year month_start - 1) 12
         else replace_month month_start (month month_start - 1)) (fun prev_month_start =>
  rbind (if month month_start =? 12
         then replace_year_month month_start (year month_start + 1) 1
         else replace_month month_start (month month_start + 1)) (fun next_month_start =>
  rbind (datetime_add day_start (timedelta_days 1)) (fun today_end =>
  rbind (datetime_add week_start (timedelta_days 7)) (fun week_end =>
  Ok [ ("today", (day_start, today_end));
       ("week", (week_start, week_end));
       ("month", (month_start, next_month_start));
       ("prev_month", (prev_month_start, month_start)) ]))))))).

Definition start_time_in (start end_ : datetime) : query :=
  [("start_time", CRange (VDate start) (VDate end_))].

(** The inner loop: [total += compute_worked_minutes(...)]. *)
Fixpoint sum_worked (cursor : list stored) (total : Z) : M Z :=
  match cursor with
  | [] => ret total
  | d :: t =>
      m ← compute_worked_minutes (get (fields d) "start_time")
            (get (fields d) "end_time")
            (get_default (fields d) "break_minutes" (VInt 0));
      sum_worked t (total + m)
  end.

(** The outer loop over the ranges. *)
Fixpoint summary_loop (ranges : list (string * (datetime * datetime)))
  (result : gmap string Z) : M (gmap string Z) :=
  match ranges with
  | [] => ret result
  | (key, (start, end_)) :: t =>
      cursor ← db_find (start_time_in start end_);
      total ← sum_worked cursor 0;
      summary_loop t (<[key := total]> result)
  end.

Definition get_summary : M (gmap string Z) :=
  require_db;;
  now ← now_utc;
  ranges ← lift (summary_ranges now);
  summary_loop ranges ∅.

(** Sample values: a world whose clock always reads 2024-03-01 09:10 UTC
    and whose store is empty. *)
Definition sample_now : datetime := mk_datetime 2024 3 1 9 10 0 0 UTC.
Definition sample_world : world := mk_world (fun _ => sample_now) 0 (Some []).

(** Midnight of a calendar day. *)
Definition midnight (y m d : Z) (tz : option Z) : datetime :=
  mk_datetime y m d 0 0 0 0 tz.

(** [d] is a well-formed datetime at midnight, in zone [tz], on the day of
    ordinal [n]. *)
Definition midnight_of_ordinal (d : datetime) (n : Z) (tz : option Z) : Prop :=
  check_fields d = true /\
  hour d = 0 /\ minute d = 0 /\ second d = 0 /\ microsecond d = 0 /\
  tzinfo d = tz /\ toordinal d = n.

(** A start instant [t] lies in the half-open range [r]. *)
Definition in_range (r : datetime * datetime) (t : datetime) : bool :=
  (instant (fst r) <=? instant t) && (instant t <? instant (snd r)).

(** The entry's [start_time] is a date in the range [r]. *)
Definition starts_in (r : datetime * datetime) (st : stored) : bool :=
  match fields st !! "start_time" with
  | Some (VDate d) => in_range r d
  | _ => false
  end.

(** A stored time entry typed as the schema [TimeEntry] declares it: a
    start datetime, an end that is absent, null or a datetime, and break
    minutes that are absent or an int. *)
Definition well_typed (st : stored) : Prop :=
  (exists s, fields st !! "start_time" = Some (VDate s) /\ check_fields s = true) /\
  (get (fields st) "end_time" = VNone \/
   exists e, get (fields st) "end_time" = VDate e /\ check_fields e = true) /\
  (exists b, get_default (fields st) "break_minutes" (VInt 0) = VInt b).

(** [compute_worked_minutes] on the fields of an entry, as every endpoint
    calls it. *)
Definition compute_entry (st : stored) : M Z :=
  compute_worked_minutes (get (fields st) "start_time") (get (fields st) "end_time")
    (get_default (fields st) "break_minutes" (VInt 0)).

(** A world reached from [w] by reading the clock only. *)
Definition later (w w' : world) : Prop :=
  clock w' = clock w /\ db w' = db w /\ (ticks w <= ticks w')%nat.

Definition sum_list (l : list Z) : Z := fold_right Z.add 0 l.

(** No two of the ranges share an instant. *)
Definition pairwise_disjoint (rs : list (string * (datetime * datetime))) : Prop :=
  forall k1 r1 k2 r2 t,
    In (k1, r1) rs -> In (k2, r2) rs -> k1 <> k2 ->
    in_range r1 t = true -> in_range r2 t = true -> False.

(** A running entry: its [end_time] is absent (missing or null). *)
Definition is_running (st : stored) : bool :=
  match fields st !! "end_time" with
  | None | Some VNone => true
  | _ => false
  end.

(** The entry [st] once stopped at [now] with [worked] minutes. *)
Definition stopped (st : stored) (now : datetime) (worked : Z) : stored :=
  mk_stored (oid st)
    (<["end_time" := VDate now]> (<["worked_minutes" := VInt worked]> (fields st))).

(** A finished entry of 2024-03-01, 09:00 to 17:00 with a 30 minute break
    and its 450 worked minutes, and a store holding it. *)
Definition sample_entry : stored :=
  mk_stored "65f0a1b2c3d4e5f601234567"
    (<["start_time" := VDate (mk_datetime 2024 3 1 9 0 0 0 None)]>
       (<["end_time" := VDate (mk_datetime 2024 3 1 17 0 0 0 None)]>
          (<["break_minutes" := VInt 30]> {[ "worked_minutes" := VInt 450 ]}))).

Definition sample_store : world := mk_world (fun _ => sample_now) 0 (Some [sample_entry]).

(** The view of a stored entry that [list_time_entries] returns, with
    [worked] as its [worked_minutes]. *)
Definition entry_view (st : stored) (worked : value) : doc :=
  <["worked_minutes" := worked]> (<["_id" := VStr (oid st)]> (fields st)).

(** The start times that sort together.  With [aware = false]: the
    [start_time] of the entry is missing or a naive datetime, as the driver
    returns dates by default; with [aware = true]: it is an offset-aware
    datetime. *)
Definition start_class (aware : bool) (st : stored) : Prop :=
  if aware
  then exists s, fields st !! "start_time" = Some (VDate s) /\ is_Some (tzinfo s)
  else fields st !! "start_time" = None \/
       exists s, fields st !! "start_time" = Some (VDate s) /\ tzinfo s = None.

(** The sort key of [x] is a datetime, offset-aware or naive as [aware]
    says. *)
Definition key_class (aware : bool) {A} (key : A -> value) (x : A) : Prop :=
  exists d, key x = VDate d /\
            if aware then is_Some (tzinfo d) else tzinfo d = None.

(** The key of [a] is a date at or after the date that is the key of [b]. *)
Definition key_ge {A} (key : A -> value) (a b : A) : Prop :=
  exists ka kb, key a = VDate ka /\ key b = VDate kb /\ instant kb <= instant ka.

(** An entry without [start_time], holding [n] as its stored
    [worked_minutes], and a store made of it. *)
Definition orphan_entry (n : Z) : stored :=
  mk_stored "65f0a1b2c3d4e5f601234568" {[ "worked_minutes" := VInt n ]}.

Definition orphan_store (n : Z) : world :=
  mk_world (fun _ => sample_now) 0 (Some [orphan_entry n]).

(** Two running entries started at 09:00 and 09:05 on 2024-03-01. *)
Definition running_0900 : stored :=
  mk_stored "65f0a1b2c3d4e5f601234561"
    (<["start_time" := VDate (mk_datetime 2024 3 1 9 0 0 0 None)]>
       {[ "break_minutes" := VInt 0 ]}).

Definition running_0905 : stored :=
  mk_stored "65f0a1b2c3d4e5f601234562"
    (<["start_time" := VDate (mk_datetime 2024 3 1 9 5 0 0 None)]>
       (<["end_time" := VNone]> {[ "break_minutes" := VInt 0 ]})).

Definition running_store : world :=
  mk_world (fun _ => sample_now) 0 (Some [running_0900; running_0905]).

(** ** Further notions used by the properties of the endpoints *)

(** The number of running entries of a collection. *)
Definition running_count (coll : list stored) : nat :=
  List.length (List.filter is_running coll).

(** A finished entry typed as the schema declares it: start and end are
    datetimes, the break is absent or an int. *)
Definition finished (st : stored) : Prop :=
  (exists s, fields st !! "start_time" = Some (VDate s) /\ check_fields s = true) /\
  (exists e, fields st !! "end_time" = Some (VDate e) /\ check_fields e = true) /\
  (exists b, get_default (fields st) "break_minutes" (VInt 0) = VInt b).

(** The worked minutes of a finished entry, from its stored start, end and
    break; 0 for any other entry. *)
Definition finished_minutes (st : stored) : Z :=
  match fields st !! "start_time", fields st !! "end_time" with
  | Some (VDate s), Some (VDate e) =>
      match worked_between s e (get_default (fields st) "break_minutes" (VInt 0)) with
      | Ok r => r
      | Raise _ => 0
      end
  | _, _ => 0
  end.

(** The entries that the [client_id] parameter selects: all of them when
    it is absent or empty, otherwise those whose [client_id] is that
    string. *)
Definition client_selects (client_id : option string) (st : stored) : bool :=
  match client_id with
  | None => true
  | Some c =>
      if String.eqb c EmptyString then true
      else bool_decide (fields st !! "client_id" = Some (VStr c))
  end.

(** The entries that the [month] parameter selects: all of them when it is
    absent or empty, otherwise those that start in the range of the month. *)
Definition month_selects (month : option string) (st : stored) : bool :=
  match month with
  | None => true
  | Some m =>
      if String.eqb m EmptyString then true
      else match month_range m with
           | Ok r => starts_in r st
           | Raise _ => false
           end
  end.


(** The total of the minutes of the finished entries that start in the
    range [r]. *)
Definition range_total (r : datetime * datetime) (coll : list stored) : Z :=
  sum_list (List.map finished_minutes (List.filter (starts_in r) coll)).

(** ** Creating records: [create_project], [create_time_entry], [punch_start] *)

(** An optional string as the Python value: [None] or a [str]. *)
Definition opt_str (o : option string) : value :=
  match o with
  | Some s => VStr s
  | None => VNone
  end.

(** The request model [ProjectIn] and its [model_dump()]. *)
Module ProjectIn.
Record t := mk {
  name : string;
  client_id : string;
  notes : option string
}.
Definition model_dump (payload : t) : doc :=
  <["name" := VStr (name payload)]>
    (<["client_id" := VStr (client_id payload)]>
       {[ "notes" := opt_str (notes payload) ]}).
End ProjectIn.

(** The request model [TimeEntryIn] and its [model_dump()], which holds
    every field of the model, absent ones as [None].  [hourly_rate], a
    float that [value] does not represent, is taken to be absent ([None]),
    as it is in [punch_start]. *)
Module TimeEntryIn.
Record t := mk {
  client_id : string;
  project_id : option string;
  start_time : datetime;
  end_time : option datetime;
  break_minutes : Z;
  notes : option string
}.
Definition model_dump (payload : t) : doc :=
  <["client_id" := VStr (client_id payload)]>
    (<["project_id" := opt_str (project_id payload)]>
       (<["start_time" := VDate (start_time payload)]>
          (<["end_time" := opt_date (end_time payload)]>
             (<["break_minutes" := VInt (break_minutes payload)]>
                (<["hourly_rate" := VNone]>
                   {[ "notes" := opt_str (notes payload) ]}))))).
End TimeEntryIn.

(** [count_documents(q)] on a collection. *)
Definition count_documents (q : query) (coll : list stored) : Z :=
  Z.of_nat (List.length (find q coll)).

Section Create.

(** [create_document] of [database.py] is not among the sources: the
    endpoints are defined over any such function.  [client] and [project]
    are the contents of the two collections that the endpoints consult and
    never write themselves. *)
Variable create_document : string -> doc -> M string.
Variables client project : list stored.

Definition create_project (payload : ProjectIn.t) : M doc :=
  require_db;;
  i ← lift (to_object_id (ProjectIn.client_id payload));
  if count_documents (by_id i) client =? 0
  then raise (HTTPException 404 "Client not found")
  else
    new_id ← create_document "project" (ProjectIn.model_dump payload);
    ret {[ "_id" := VStr new_id ]}.

Definition create_time_entry (payload : TimeEntryIn.t) : M doc :=
  require_db;;
  i ← lift (to_object_id (TimeEntryIn.client_id payload));
  if count_documents (by_id i) client =? 0
  then raise (HTTPException 404 "Client not found")
  else
    match TimeEntryIn.project_id payload with
    | Some p =>
        if String.eqb p EmptyString then ret tt
        else
          j ← lift (to_object_id p);
          if count_documents (by_id j) project =? 0
          then raise (HTTPException 404 "Project not found")
          else ret tt
    | None => ret tt
    end;;
    let data := TimeEntryIn.model_dump payload in
    worked_minutes ← compute_worked_minutes
                       (VDate (TimeEntryIn.start_time payload))
                       (opt_date (TimeEntryIn.end_time payload))
                       (or_zero (VInt (TimeEntryIn.break_minutes payload)));
    let data := <["worked_minutes" := VInt worked_minutes]> data in
    new_id ← create_document "timeentry" data;
    ret (<["_id" := VStr new_id]> {[ "worked_minutes" := VInt worked_minutes ]}).

Definition punch_start (client_id : string) (project_id notes : option string) : M doc :=
  now ← now_utc;
  let payload := TimeEntryIn.mk client_id project_id now None 0 notes in
  create_time_entry payload.

End Create.

(** The references of a new entry resolve: [client_id] is the id of a
    stored client, and [project_id] is absent, empty or the id of a stored
    project. *)
Definition references_ok (client project : list stored)
  (client_id : string) (project_id : option string) : Prop :=
  (exists i c, to_object_id client_id = Ok i /\ In c client /\ oid c = i) /\
  match project_id with
  | None => True
  | Some p =>
      p = EmptyString \/
      exists j pr, to_object_id p = Ok j /\ In pr project /\ oid pr = j
  end.

(** What [create_time_entry] returns once [create_document] has run with
    outcome [r]: the new id and the computed minutes, or the exception of
    [create_document]. *)
Definition created_response (r : result string * world) (worked : Z) : result doc * world :=
  match r with
  | (Ok new_id, w') =>
      (Ok (<["_id" := VStr new_id]> {[ "worked_minutes" := VInt worked ]}), w')
  | (Raise e, w') => (Raise e, w')
  end.

(** ** Further sample values *)

(** A world without a database object. *)
Definition no_db_world : world := mk_world (fun _ => sample_now) 0 None.

(** A store with one finished and one running entry. *)
Definition one_running_store : world :=
  mk_world (fun _ => sample_now) 0 (Some [sample_entry; running_0905]).

(** A client, and a [create_document] that appends the document to the
    time entries under a fixed id. *)
Definition sample_client : stored :=
  mk_stored "65f0a1b2c3d4e5f601234560" {[ "name" := VStr "Acme" ]}.

Definition append_document (collection : string) (data : doc) : M string :=
  fun w =>
    (Ok "65f0a1b2c3d4e5f601234569",
     mk_world (clock w) (ticks w)
       (option_map (fun c => c ++ [mk_stored "65f0a1b2c3d4e5f601234569" data]) (db w))).

(** A request for a finished entry of [sample_client], 09:00 to 17:00 UTC
    with a 30 minute break. *)
Definition sample_payload : TimeEntryIn.t :=
  TimeEntryIn.mk "65f0a1b2c3d4e5f601234560" None
    (mk_datetime 2024 3 1 9 0 0 0 UTC) (Some (mk_datetime 2024 3 1 17 0 0 0 UTC)) 30 None.

(** The start and the end of [sample_payload], an end one hour later, and
    the same start written in the zone UTC+01:00. *)
Definition sample_start : datetime := mk_datetime 2024 3 1 9 0 0 0 UTC.
Definition sample_end : datetime := mk_datetime 2024 3 1 17 0 0 0 UTC.
Definition sample_end_later : datetime := mk_datetime 2024 3 1 18 0 0 0 UTC.
Definition sample_start_cet : datetime := mk_datetime 2024 3 1 10 0 0 0 (Some 3600000000).

(** A finished entry of [sample_client]. *)
Definition acme_entry : stored :=
  mk_stored "65f0a1b2c3d4e5f601234563"
    (<["client_id" := VStr "65f0a1b2c3d4e5f601234560"]> (fields sample_entry)).

(** A request for a project of [sample_client]. *)
Definition sample_project : ProjectIn.t :=
  ProjectIn.mk "Website" "65f0a1b2c3d4e5f601234560" None.
(** * Properties *)

(** ** Rounding of [total_seconds] *)

Lemma round_half_even_error (n d : Z) :
  0 < d -> - d <= 2 * (d * round_half_even n d - n) <= d.
Proof.
  intros Hd. unfold round_half_even.
  pose proof (Z.div_mod n d ltac:(lia)) as Hdm.
  pose proof (Z.mod_pos_bound n d Hd) as Hr.
  destruct (Z.compare_spec (2 * (n mod d)) d) as [He|Hl|Hg].
  - destruct (Z.even (n / d)); lia.
  - lia.
  - lia.
Qed.

Lemma round_half_even_nonneg (n d : Z) :
  0 <= n -> 0 < d -> 0 <= round_half_even n d.
Proof.
  intros Hn Hd. unfold round_half_even.
  assert (0 <= n / d) by (apply Z.div_pos; lia).
  destruct (2 * (n mod d) ?= d); [destruct (Z.even (n / d))| |]; lia.
Qed.

Lemma div_floor_unique (a b k : Z) :
  0 < b -> k * b <= a < (k + 1) * b -> a / b = k.
Proof.
  intros Hb H. symmetry. apply (Z.div_unique a b k (a - k * b)); lia.
Qed.

(** The exponent chosen for a quotient below [2 ^ j]. *)
Lemma int_true_divide_expo (a b j : Z) :
  a <> 0 -> 0 < b -> 0 <= j -> Z.abs a < 2 ^ j * b ->
  -1074 <= expo (int_true_divide a b) <= Z.max (j - 53) (-1074).
Proof.
  intros Ha Hb Hj Hlt. unfold int_true_divide.
  destruct (Z.eqb_spec a 0) as [|_]; [contradiction|]. simpl.
  set (x := Z.abs a * 2 ^ 1074 / b).
  assert (Hx : x < 2 ^ (j + 1074)).
  { unfold x. apply Z.div_lt_upper_bound; [lia|].
    rewrite Z.pow_add_r by lia.
    assert (0 < 2 ^ 1074) by (apply Z.pow_pos_nonneg; lia). nia. }
  assert (Hl : Z.log2 x < j + 1074).
  { destruct (Z.le_gt_cases x 0) as [Hx0|Hx0].
    - rewrite Z.log2_nonpos by lia. lia.
    - apply Z.log2_lt_pow2; lia. }
  lia.
Qed.

Lemma pow2_ge (s k : Z) : 0 <= k <= s -> 2 ^ k <= 2 ^ s.
Proof. intros H. apply Z.pow_le_mono_r; lia. Qed.

(** Shape of the rounded seconds for a duration below [2 ^ j] seconds: a
    mantissa [m] over a power of two [P], within half a unit of the exact
    quotient. *)
Lemma total_seconds_shape (td j : Z) :
  td <> 0 -> 0 <= j <= 52 -> Z.abs td < 2 ^ j * 1000000 ->
  exists P m : Z,
    2 ^ (53 - j) <= P /\ 0 <= m /\
    - 1000000 <= 2 * (1000000 * m - Z.abs td * P) <= 1000000 /\
    float_floordiv_int (total_seconds td) 60 = (Z.sgn td * m) / (60 * P).
Proof.
  intros Hne Hj Hb. unfold total_seconds.
  pose proof (int_true_divide_expo td 1000000 j Hne ltac:(lia) ltac:(lia) Hb) as He.
  rewrite Z.max_l in He by lia.
  unfold float_floordiv_int.
  destruct (Z.leb_spec 0 (expo (int_true_divide td 1000000))) as [Hc|_]; [lia|].
  revert He. unfold int_true_divide.
  destruct (Z.eqb_spec td 0) as [|_]; [contradiction|]. simpl.
  set (e := Z.max _ _). intros He.
  destruct (Z.leb_spec 0 e) as [Hc|_]; [lia|].
  exists (2 ^ (- e)), (round_half_even (Z.abs td * 2 ^ (- e)) 1000000).
  assert (0 < 2 ^ (- e)) by (apply Z.pow_pos_nonneg; lia).
  split; [apply pow2_ge; lia|].
  split; [apply round_half_even_nonneg; nia|].
  split; [exact (round_half_even_error _ 1000000 ltac:(lia))|reflexivity].
Qed.

(** Below [2 ^ 34] seconds, rounding the seconds to a float never crosses a
    whole minute. *)
Lemma float_minutes_exact (td : Z) :
  Z.abs td < 2 ^ 34 * 1000000 ->
  float_floordiv_int (total_seconds td) 60 = td / 60000000.
Proof.
  intros Hb.
  destruct (Z.eq_dec td 0) as [->|Hne]; [reflexivity|].
  destruct (total_seconds_shape td 34 Hne ltac:(lia) Hb) as (P & m & HP & Hm & Hr & ->).
  change (2 ^ (53 - 34)) with 524288 in HP.
  pose proof (Z.div_mod td 60000000 ltac:(lia)) as Hdm.
  pose proof (Z.mod_pos_bound td 60000000 ltac:(lia)) as Hmod.
  set (k := td / 60000000) in *.
  assert (HX1 : 0 <= (td - 60000000 * k) * P) by nia.
  assert (HX2 : (td - 60000000 * k) * P <= 59999999 * P) by nia.
  apply div_floor_unique; [lia|].
  destruct (Z.lt_trichotomy td 0) as [Hneg|[?|Hpos]]; [|contradiction|].
  - rewrite Z.sgn_neg by lia. rewrite Z.abs_neq in Hr by lia. nia.
  - rewrite Z.sgn_pos by lia. rewrite Z.abs_eq in Hr by lia. nia.
Qed.

(** For every duration that two datetimes can be apart, the float minutes
    are the exact whole minutes or one more. *)
Lemma float_minutes_bounds (td : Z) :
  Z.abs td < 2 ^ 52 * 1000000 ->
  td / 60000000 <= float_floordiv_int (total_seconds td) 60 <= td / 60000000 + 1.
Proof.
  intros Hb.
  destruct (Z.eq_dec td 0) as [->|Hne]; [vm_compute; split; discriminate|].
  destruct (total_seconds_shape td 52 Hne ltac:(lia) Hb) as (P & m & HP & Hm & Hr & ->).
  change (2 ^ (53 - 52)) with 2 in HP.
  pose proof (Z.div_mod td 60000000 ltac:(lia)) as Hdm.
  pose proof (Z.mod_pos_bound td 60000000 ltac:(lia)) as Hmod.
  set (k := td / 60000000) in *.
  assert (HX1 : 0 <= (td - 60000000 * k) * P) by nia.
  assert (HX2 : (td - 60000000 * k) * P <= 59999999 * P) by nia.
  assert (Hs : Z.sgn td * Z.abs td = td) by lia.
  assert (Hmant : 60 * P * k <= Z.sgn td * m <= 60 * P * (k + 1)).
  { destruct (Z.lt_trichotomy td 0) as [Hneg|[?|Hpos]]; [|contradiction|].
    - rewrite Z.sgn_neg by lia. rewrite Z.abs_neq in Hr by lia. nia.
    - rewrite Z.sgn_pos by lia. rewrite Z.abs_eq in Hr by lia. nia. }
  split.
  - apply Z.div_le_lower_bound; lia.
  - apply Z.div_le_upper_bound; lia.
Qed.

(** Above [2 ^ 34] seconds the rounding can cross a minute: 18934127999.999999
    seconds become 18934128000.0. *)
Example total_seconds_rounds_up :
  float_floordiv_int (total_seconds 18934127999999999) 60 = 315568800.
Proof. vm_compute. reflexivity. Qed.

(** ** Calendar arithmetic *)

Lemma check_fields_spec (d : datetime) :
  check_fields d = true ->
  1 <= year d <= 9999 /\ 1 <= month d <= 12 /\
  1 <= day d <= days_in_month (year d) (month d) /\
  0 <= hour d <= 23 /\ 0 <= minute d <= 59 /\ 0 <= second d <= 59 /\
  0 <= microsecond d <= 999999 /\
  (forall off, tzinfo d = Some off -> -86400000000 < off < 86400000000).
Proof.
  unfold check_fields. intros H.
  repeat (apply andb_prop in H; destruct H as [H ?]).
  repeat match goal with
         | H : (_ <=? _) = true |- _ => apply Z.leb_le in H
         end.
  repeat (split; [lia|]).
  intros off Hoff. rewrite Hoff in *.
  match goal with
  | Hb : (_ && _) = true |- _ =>
      apply andb_prop in Hb; destruct Hb as [Hlo Hhi];
      apply Z.ltb_lt in Hlo; apply Z.ltb_lt in Hhi; lia
  end.
Qed.

Lemma month_cases (m : Z) :
  1 <= m <= 12 ->
  m = 1 \/ m = 2 \/ m = 3 \/ m = 4 \/ m = 5 \/ m = 6 \/
  m = 7 \/ m = 8 \/ m = 9 \/ m = 10 \/ m = 11 \/ m = 12.
Proof. lia. Qed.

Ltac month_split m H :=
  let C := fresh "C" in
  pose proof (month_cases m H) as C;
  repeat (destruct C as [C|C]); subst.

Lemma days_before_year_bounds (y : Z) :
  1 <= y <= 9999 -> 0 <= days_before_year y <= 3651694.
Proof. unfold days_before_year. intros H. Z.div_mod_to_equations. lia. Qed.

Lemma toordinal_bounds (y m d : Z) :
  1 <= y <= 9999 -> 1 <= m <= 12 -> 1 <= d <= days_in_month y m ->
  1 <= ymd2ord y m d <= MAXORDINAL.
Proof.
  intros Hy Hm Hd. unfold ymd2ord, MAXORDINAL.
  pose proof (days_before_year_bounds y Hy).
  assert (days_before_month y m + days_in_month y m <= 366 /\ 0 <= days_before_month y m).
  { unfold days_before_month, days_in_month.
    destruct (is_leap y); month_split m Hm; simpl; lia. }
  destruct (Z.eq_dec y 9999) as [->|]; [|].
  - revert Hd H0. unfold days_before_month, days_in_month.
    change (is_leap 9999) with false. rewrite !andb_false_r.
    change (days_before_year 9999) with 3651694.
    month_split m Hm; simpl; lia.
  - assert (days_before_year y <= 3651329).
    { unfold days_before_year. Z.div_mod_to_equations. lia. }
    lia.
Qed.

Lemma clock_micros_bounds (d : datetime) :
  check_fields d = true ->
  86400000000 <= clock_micros d < 86400000000 * (MAXORDINAL + 1).
Proof.
  intros H. apply check_fields_spec in H as (Hy & Hm & Hd & Hh & Hmi & Hs & Hu & _).
  pose proof (toordinal_bounds _ _ _ Hy Hm Hd). unfold clock_micros, toordinal, MAXORDINAL in *.
  lia.
Qed.

Lemma instant_bounds (d : datetime) :
  check_fields d = true ->
  0 < instant d < 86400000000 * (MAXORDINAL + 2).
Proof.
  intros H. pose proof (clock_micros_bounds d H).
  apply check_fields_spec in H as (_ & _ & _ & _ & _ & _ & _ & Ho).
  unfold instant, MAXORDINAL in *. destruct (tzinfo d) as [off|]; simpl.
  - specialize (Ho off eq_refl). lia.
  - lia.
Qed.

Lemma instant_diff_bound (a b : datetime) :
  check_fields a = true -> check_fields b = true ->
  Z.abs (instant a - instant b) < 2 ^ 52 * 1000000.
Proof.
  intros Ha Hb. pose proof (instant_bounds a Ha). pose proof (instant_bounds b Hb).
  unfold MAXORDINAL in *. change (2 ^ 52) with 4503599627370496. lia.
Qed.

(** ** [compute_worked_minutes] *)

Ltac unfold_M :=
  unfold mbind, M_bind, bind, mret, M_ret, ret, lift, raise, try_except in *.

Lemma annotate_utc_fields (d : datetime) :
  year (annotate_utc d) = year d /\ month (annotate_utc d) = month d /\
  day (annotate_utc d) = day d /\ hour (annotate_utc d) = hour d /\
  minute (annotate_utc d) = minute d /\ second (annotate_utc d) = second d /\
  microsecond (annotate_utc d) = microsecond d /\
  tzinfo (annotate_utc d) = Some (default 0 (tzinfo d)).
Proof. unfold annotate_utc. destruct (tzinfo d) eqn:E; simpl; rewrite ?E; auto 10. Qed.

Lemma clock_micros_annotate (d : datetime) :
  clock_micros (annotate_utc d) = clock_micros d.
Proof. unfold annotate_utc. destruct (tzinfo d); reflexivity. Qed.

Lemma normalize_utc_date (d : datetime) :
  check_fields d = true -> normalize_utc (VDate d) = Ok (VDate (annotate_utc d)).
Proof.
  intros H. unfold normalize_utc, annotate_utc. simpl.
  destruct (tzinfo d) as [off|] eqn:E; [reflexivity|].
  unfold new_datetime.
  replace (check_fields _) with true; [reflexivity|].
  symmetry. revert H. unfold check_fields. simpl. rewrite E.
  rewrite !andb_true_r. auto.
Qed.

Lemma datetime_sub_annotated (a b : datetime) :
  datetime_sub (annotate_utc a) (annotate_utc b) = Ok (instant a - instant b).
Proof.
  unfold datetime_sub, instant. rewrite !clock_micros_annotate.
  destruct (annotate_utc_fields a) as (_ & _ & _ & _ & _ & _ & _ & ->).
  destruct (annotate_utc_fields b) as (_ & _ & _ & _ & _ & _ & _ & ->).
  f_equal. lia.
Qed.

Lemma compute_worked_minutes_dates (s e : datetime) (bv : value) (w : world) :
  check_fields s = true -> check_fields e = true ->
  compute_worked_minutes (VDate s) (VDate e) bv w = (worked_between s e bv, w).
Proof.
  intros Hs He. unfold compute_worked_minutes, worked_between. unfold_M.
  rewrite (normalize_utc_date s Hs), (normalize_utc_date e He). simpl.
  rewrite datetime_sub_annotated.
  destruct (int_minus _ _); reflexivity.
Qed.

Lemma compute_worked_minutes_running (s : datetime) (bv : value) (w : world) :
  check_fields s = true -> check_fields (clock w (ticks w)) = true ->
  compute_worked_minutes (VDate s) VNone bv w
  = (worked_between s (clock w (ticks w)) bv, tick w).
Proof.
  intros Hs He. unfold compute_worked_minutes, worked_between, now_utc. unfold_M.
  rewrite (normalize_utc_date s Hs), (normalize_utc_date _ He). simpl.
  rewrite datetime_sub_annotated.
  destruct (int_minus _ _); reflexivity.
Qed.

Lemma normalize_utc_aware (d : datetime) :
  is_Some (tzinfo d) -> normalize_utc (VDate d) = Ok (VDate d).
Proof. intros [off H]. unfold normalize_utc. simpl. rewrite H. reflexivity. Qed.

Lemma datetime_sub_aware (a b : datetime) :
  is_Some (tzinfo a) -> is_Some (tzinfo b) ->
  datetime_sub a b = Ok (instant a - instant b).
Proof.
  intros [oa Ha] [ob Hb]. unfold datetime_sub, instant. rewrite Ha, Hb. simpl.
  f_equal. lia.
Qed.

Lemma int_minus_or_zero (n b : Z) : int_minus n (or_zero (VInt b)) = Ok (n - b).
Proof.
  unfold or_zero. simpl. destruct (Z.eqb_spec b 0) as [->|]; simpl; f_equal; lia.
Qed.

(** C1 (as amended): for offset-aware instants with start <= end that lie
    less than 2^34 seconds (about 544 years) apart and an integer break >= 0,
    [compute_worked_minutes] returns
    max(0, floor((end - start) in seconds / 60) - break_minutes). *)
Theorem compute_worked_minutes_formula
  (s e : datetime) (b : Z) (w : world) :
  is_Some (tzinfo s) -> is_Some (tzinfo e) ->
  instant s <= instant e ->
  instant e - instant s < 2 ^ 34 * 1000000 ->
  0 <= b ->
  compute_worked_minutes (VDate s) (VDate e) (VInt b) w
  = (Ok (Z.max 0 (elapsed_whole_minutes s e - b)), w).
Proof.
  intros Hs He Hle Hspan Hb. unfold compute_worked_minutes. unfold_M.
  rewrite (normalize_utc_aware s Hs), (normalize_utc_aware e He). simpl.
  rewrite (datetime_sub_aware e s He Hs).
  rewrite float_minutes_exact by lia.
  rewrite int_minus_or_zero. reflexivity.
Qed.

Lemma compute_worked_minutes_formula_witness :
  compute_worked_minutes
    (VDate (mk_datetime 2024 3 1 9 0 0 0 UTC))
    (VDate (mk_datetime 2024 3 1 17 0 0 0 UTC)) (VInt 30) sample_world
  = (Ok 450, sample_world).
Proof.
  apply (compute_worked_minutes_formula
           (mk_datetime 2024 3 1 9 0 0 0 UTC) (mk_datetime 2024 3 1 17 0 0 0 UTC)
           30 sample_world).
  - exists 0. reflexivity.
  - exists 0. reflexivity.
  - vm_compute. discriminate.
  - vm_compute. reflexivity.
  - lia.
Defined.

(** C1 fails as stated: from 1400-01-01T00:00:00.000001Z to
    2000-01-01T00:00:00Z the exact number of whole minutes is 315568799,
    but [total_seconds()] rounds up to a whole second and
    [compute_worked_minutes] returns 315568800. *)
Lemma compute_worked_minutes_formula_counterexample :
  let s := mk_datetime 1400 1 1 0 0 0 1 UTC in
  let e := mk_datetime 2000 1 1 0 0 0 0 UTC in
  check_fields s = true /\ check_fields e = true /\
  instant s <= instant e /\
  Z.max 0 (elapsed_whole_minutes s e - 0) = 315568799 /\
  compute_worked_minutes (VDate s) (VDate e) (VInt 0) sample_world
  = (Ok 315568800, sample_world) /\
  compute_worked_minutes (VDate s) (VDate e) (VInt 0) sample_world
  <> (Ok (Z.max 0 (elapsed_whole_minutes s e - 0)), sample_world).
Proof.
  vm_compute. repeat split; discriminate.
Qed.

Lemma worked_between_int (s e : datetime) (b : Z) :
  worked_between s e (VInt b)
  = Ok (Z.max 0 (float_floordiv_int (total_seconds (instant e - instant s)) 60 - b)).
Proof. unfold worked_between. rewrite int_minus_or_zero. reflexivity. Qed.

Lemma compute_worked_minutes_resolved
  (s : datetime) (eo : option datetime) (bv : value) (w : world) :
  check_fields s = true ->
  check_fields (default (clock w (ticks w)) eo) = true ->
  compute_worked_minutes (VDate s) (opt_date eo) bv w
  = (worked_between s (default (clock w (ticks w)) eo) bv,
     match eo with Some _ => w | None => tick w end).
Proof.
  intros Hs He. destruct eo as [e|]; simpl in *.
  - apply compute_worked_minutes_dates; assumption.
  - apply compute_worked_minutes_running; assumption.
Qed.

(** C2: on resolved inputs (a start datetime, an end datetime or the clock
    reading that replaces an absent end, an integer break)
    [compute_worked_minutes] never raises and never returns a negative
    number; it returns exactly 0 when the break exceeds the elapsed whole
    minutes, and when the end precedes the start (break >= 0, as the
    contract requires). *)
Theorem compute_worked_minutes_clamped
  (s : datetime) (eo : option datetime) (b : Z) (w : world) :
  check_fields s = true ->
  check_fields (default (clock w (ticks w)) eo) = true ->
  exists r : Z,
    fst (compute_worked_minutes (VDate s) (opt_date eo) (VInt b) w) = Ok r /\
    0 <= r /\
    (elapsed_whole_minutes s (default (clock w (ticks w)) eo) < b -> r = 0) /\
    (instant (default (clock w (ticks w)) eo) < instant s -> 0 <= b -> r = 0).
Proof.
  intros Hs He.
  rewrite (compute_worked_minutes_resolved s eo (VInt b) w Hs He).
  rewrite worked_between_int. simpl.
  set (e := default (clock w (ticks w)) eo) in *.
  eexists. split; [reflexivity|].
  pose proof (float_minutes_bounds (instant e - instant s)
                (instant_diff_bound e s He Hs)) as Hf.
  unfold elapsed_whole_minutes.
  split; [lia|]. split.
  - intros Hb. lia.
  - intros Hlt Hb.
    assert ((instant e - instant s) / 60000000 < 0).
    { apply Z.div_lt_upper_bound; lia. }
    lia.
Qed.

Lemma compute_worked_minutes_clamped_witness :
  exists r : Z,
    fst (compute_worked_minutes
           (VDate (mk_datetime 2024 3 1 17 0 0 0 UTC))
           (opt_date (Some (mk_datetime 2024 3 1 9 0 0 0 None))) (VInt 15)
           sample_world) = Ok r /\
    0 <= r /\
    (elapsed_whole_minutes (mk_datetime 2024 3 1 17 0 0 0 UTC)
       (mk_datetime 2024 3 1 9 0 0 0 None) < 15 -> r = 0) /\
    (instant (mk_datetime 2024 3 1 9 0 0 0 None)
     < instant (mk_datetime 2024 3 1 17 0 0 0 UTC) -> 0 <= 15 -> r = 0).
Proof.
  apply (compute_worked_minutes_clamped
           (mk_datetime 2024 3 1 17 0 0 0 UTC)
           (Some (mk_datetime 2024 3 1 9 0 0 0 None)) 15 sample_world).
  - vm_compute. reflexivity.
  - vm_compute. reflexivity.
Defined.

(** C8: in every call on datetimes, an operand without an offset is
    replaced by the same clock fields annotated with UTC, an operand with an
    offset is left unchanged, and the subtraction is performed on the two
    resulting offset-aware datetimes, where it cannot raise. *)
Theorem compute_worked_minutes_normalizes
  (s : datetime) (eo : option datetime) (bv : value) (w : world) :
  check_fields s = true ->
  check_fields (default (clock w (ticks w)) eo) = true ->
  exists (s' e' : datetime) (td : Z),
    normalize_utc (VDate s) = Ok (VDate s') /\
    normalize_utc (VDate (default (clock w (ticks w)) eo)) = Ok (VDate e') /\
    same_clock_fields s s' /\
    same_clock_fields (default (clock w (ticks w)) eo) e' /\
    (tzinfo s = None -> tzinfo s' = UTC) /\
    (tzinfo (default (clock w (ticks w)) eo) = None -> tzinfo e' = UTC) /\
    (is_Some (tzinfo s) -> s' = s) /\
    (is_Some (tzinfo (default (clock w (ticks w)) eo)) ->
     e' = default (clock w (ticks w)) eo) /\
    is_Some (tzinfo s') /\ is_Some (tzinfo e') /\
    datetime_sub e' s' = Ok td /\
    fst (compute_worked_minutes (VDate s) (opt_date eo) bv w)
    = match int_minus (float_floordiv_int (total_seconds td) 60) (or_zero bv) with
      | Ok r => Ok (Z.max 0 r)
      | Raise x => Raise x
      end.
Proof.
  intros Hs He.
  set (e := default (clock w (ticks w)) eo) in *.
  exists (annotate_utc s), (annotate_utc e), (instant e - instant s).
  pose proof (annotate_utc_fields s) as (Hs1 & Hs2 & Hs3 & Hs4 & Hs5 & Hs6 & Hs7 & Hs8).
  pose proof (annotate_utc_fields e) as (He1 & He2 & He3 & He4 & He5 & He6 & He7 & He8).
  split; [apply normalize_utc_date; assumption|].
  split; [apply normalize_utc_date; assumption|].
  split; [unfold same_clock_fields; auto 10|].
  split; [unfold same_clock_fields; auto 10|].
  split; [intros Hn; rewrite Hs8, Hn; reflexivity|].
  split; [intros Hn; rewrite He8, Hn; reflexivity|].
  split; [intros [o Ho]; unfold annotate_utc; rewrite Ho; reflexivity|].
  split; [intros [o Ho]; unfold annotate_utc; rewrite Ho; reflexivity|].
  split; [rewrite Hs8; eauto|].
  split; [rewrite He8; eauto|].
  split; [apply datetime_sub_annotated|].
  rewrite (compute_worked_minutes_resolved s eo bv w Hs He). reflexivity.
Qed.

(** *** [ord2ymd] inverts [ymd2ord] *)

Lemma is_leap_decomp (a b c d : Z) :
  0 <= b <= 3 -> 0 <= c <= 24 -> 0 <= d <= 3 ->
  is_leap (400 * a + 100 * b + 4 * c + d + 1)
  = (d =? 3) && (negb (c =? 24) || (b =? 3)).
Proof.
  intros Hb Hc Hd. unfold is_leap.
  destruct (Z.eqb_spec d 3), (Z.eqb_spec c 24), (Z.eqb_spec b 3); simpl;
    repeat match goal with
           | |- context [?x mod ?k =? 0] =>
               let E := fresh "E" in destruct (Z.eqb_spec (x mod k) 0) as [E|E]; simpl
           end;
    try reflexivity; exfalso; Z.div_mod_to_equations; lia.
Qed.

Lemma days_before_year_decomp (a b c d : Z) :
  0 <= b <= 3 -> 0 <= c <= 24 -> 0 <= d <= 3 ->
  days_before_year (400 * a + 100 * b + 4 * c + d + 1)
  = 146097 * a + 36524 * b + 1461 * c + 365 * d.
Proof.
  intros Hb Hc Hd. unfold days_before_year. Z.div_mod_to_equations. lia.
Qed.

Ltac calc_tables :=
  repeat match goal with
         | |- context [DAYS_IN_MONTH ?x] =>
             let v := eval vm_compute in (DAYS_IN_MONTH x) in
             progress change (DAYS_IN_MONTH x) with v
         | |- context [DAYS_BEFORE_MONTH ?x] =>
             let v := eval vm_compute in (DAYS_BEFORE_MONTH x) in
             progress change (DAYS_BEFORE_MONTH x) with v
         | |- context [if ?b then 1 else 0] =>
             let v := eval vm_compute in (if b then 1 else 0) in
             progress change (if b then 1 else 0) with v
         end.

(** Month and day from the zero-based day of the year, as in the second
    half of [ord2ymd]. *)
Lemma month_day_of_year (leap : bool) (r : Z) :
  0 <= r < 365 + (if leap then 1 else 0) ->
  let m := Z.shiftr (r + 50) 5 in
  let preceding := DAYS_BEFORE_MONTH m + (if (2 <? m) && leap then 1 else 0) in
  let md :=
    if r <? preceding then
      (m - 1,
       r - (preceding - (DAYS_IN_MONTH (m - 1)
                         + (if (m - 1 =? 2) && leap then 1 else 0))) + 1)
    else (m, r - preceding + 1) in
  1 <= fst md <= 12 /\
  1 <= snd md <= DAYS_IN_MONTH (fst md) + (if (fst md =? 2) && leap then 1 else 0) /\
  DAYS_BEFORE_MONTH (fst md) + (if (2 <? fst md) && leap then 1 else 0) + snd md = r + 1.
Proof.
  intros Hr. cbv zeta. rewrite Z.shiftr_div_pow2 by lia. change (2 ^ 5) with 32.
  assert (Hm : 1 <= (r + 50) / 32 <= 12).
  { destruct leap; Z.div_mod_to_equations; lia. }
  pose proof (Z.div_mod (r + 50) 32 ltac:(lia)) as Hdm.
  pose proof (Z.mod_pos_bound (r + 50) 32 ltac:(lia)) as Hmod.
  set (m := (r + 50) / 32) in *. clearbody m.
  month_split m Hm; destruct leap;
    match goal with
    | |- context [r <? ?k] =>
        let v := eval vm_compute in k in
        change k with v; destruct (Z.ltb_spec r v)
    end; cbn [fst snd]; calc_tables; lia.
Qed.

Lemma ord2ymd_spec (n : Z) :
  1 <= n <= MAXORDINAL ->
  exists y m d : Z,
    ord2ymd n = (y, m, d) /\
    1 <= y <= 9999 /\ 1 <= m <= 12 /\ 1 <= d <= days_in_month y m /\
    ymd2ord y m d = n.
Proof.
  unfold MAXORDINAL. intros Hn.
  unfold ord2ymd, DI400Y, DI100Y, DI4Y. cbv zeta.
  pose proof (Z.div_mod (n - 1) 146097 ltac:(lia)) as E400.
  pose proof (Z.mod_pos_bound (n - 1) 146097 ltac:(lia)) as B400.
  set (a := (n - 1) / 146097) in *. set (r400 := (n - 1) mod 146097) in *.
  pose proof (Z.div_mod r400 36524 ltac:(lia)) as E100.
  pose proof (Z.mod_pos_bound r400 36524 ltac:(lia)) as B100.
  set (b := r400 / 36524) in *. set (r100 := r400 mod 36524) in *.
  pose proof (Z.div_mod r100 1461 ltac:(lia)) as E4.
  pose proof (Z.mod_pos_bound r100 1461 ltac:(lia)) as B4.
  set (c := r100 / 1461) in *. set (r4 := r100 mod 1461) in *.
  pose proof (Z.div_mod r4 365 ltac:(lia)) as E1.
  pose proof (Z.mod_pos_bound r4 365 ltac:(lia)) as B1.
  set (dd := r4 / 365) in *. set (r := r4 mod 365) in *.
  clearbody a r400 b r100 c r4 dd r.
  assert (Ha : 0 <= a <= 24) by lia.
  assert (Hb : 0 <= b <= 4) by lia.
  assert (Hc : 0 <= c <= 24) by lia.
  assert (Hd : 0 <= dd <= 4) by lia.
  destruct (Z.eqb_spec dd 4) as [Hd4|Hd4]; [|destruct (Z.eqb_spec b 4) as [Hb4|Hb4]];
    cbn [orb].
  - (* last day of a leap year that ends a 4-year cycle *)
    assert (Hc' : c <= 23) by lia.
    assert (Hb' : b <= 3) by lia.
    exists (400 * a + 100 * b + 4 * c + 3 + 1), 12, 31.
    split; [f_equal; f_equal; lia|].
    unfold ymd2ord, days_in_month, days_before_month.
    rewrite is_leap_decomp, days_before_year_decomp by lia.
    destruct (Z.eqb_spec c 24) as [?|_]; [lia|]. cbn. lia.
  - (* last day of a 400-year cycle *)
    exists (400 * a + 100 * 3 + 4 * 24 + 3 + 1), 12, 31.
    split; [f_equal; f_equal; lia|].
    unfold ymd2ord, days_in_month, days_before_month.
    rewrite is_leap_decomp, days_before_year_decomp by lia.
    cbn. lia.
  - set (leapyear := (dd =? 3) && (negb (c =? 24) || (b =? 3))).
    assert (Hr : 0 <= r < 365 + (if leapyear then 1 else 0)) by (destruct leapyear; lia).
    pose proof (month_day_of_year leapyear r Hr) as Hmd. cbv zeta in Hmd.
    set (m := Z.shiftr (r + 50) 5) in *.
    set (preceding := DAYS_BEFORE_MONTH m + (if (2 <? m) && leapyear then 1 else 0)) in *.
    assert (Hleap : is_leap (400 * a + 100 * b + 4 * c + dd + 1) = leapyear)
      by (apply is_leap_decomp; lia).
    assert (Hdby : days_before_year (400 * a + 100 * b + 4 * c + dd + 1)
                   = 146097 * a + 36524 * b + 1461 * c + 365 * dd)
      by (apply days_before_year_decomp; lia).
    replace (a * 400 + 1 + b * 100 + c * 4 + dd)
      with (400 * a + 100 * b + 4 * c + dd + 1) by lia.
    set (y := 400 * a + 100 * b + 4 * c + dd + 1) in *.
    assert (Hy : 1 <= y <= 9999) by (unfold y; lia).
    destruct (r <? preceding);
      cbn [fst snd] in Hmd; destruct Hmd as (Hm1 & Hd1 & Hsum);
      eexists _, _, _; (split; [reflexivity|]);
      unfold ymd2ord, days_in_month, days_before_month;
      rewrite Hleap, Hdby; (split; [lia|]); (split; [lia|]);
      match goal with
      | |- context [(?x =? 2) && leapyear] =>
          destruct (Z.eqb_spec x 2) as [E2|E2];
          [rewrite ?E2 in *; change (DAYS_IN_MONTH 2) with 28 in *;
           change (DAYS_BEFORE_MONTH 2) with 31 in *;
           change (2 <? 2) with false in *
          |]
      end; destruct leapyear; cbn [andb] in *; lia.
Qed.

(** ** The ranges of [get_summary] *)

Lemma check_fields_intro (d : datetime) :
  1 <= year d <= 9999 -> 1 <= month d <= 12 ->
  1 <= day d <= days_in_month (year d) (month d) ->
  0 <= hour d <= 23 -> 0 <= minute d <= 59 -> 0 <= second d <= 59 ->
  0 <= microsecond d <= 999999 ->
  (forall off, tzinfo d = Some off -> -86400000000 < off < 86400000000) ->
  check_fields d = true.
Proof.
  intros Hy Hm Hd Hh Hmi Hs Hu Ho. unfold check_fields.
  repeat (apply andb_true_intro; split); try (apply Z.leb_le; lia).
  destruct (tzinfo d) as [off|]; [|reflexivity].
  specialize (Ho off eq_refl).
  apply andb_true_intro; split; apply Z.ltb_lt; lia.
Qed.

Lemma days_in_month_ge (y m : Z) : 1 <= m <= 12 -> 28 <= days_in_month y m <= 31.
Proof.
  intros Hm. unfold days_in_month.
  destruct ((m =? 2) && is_leap y); [lia|]. month_split m Hm; simpl; lia.
Qed.

Lemma clock_micros_midnight (d : datetime) :
  hour d = 0 -> minute d = 0 -> second d = 0 -> microsecond d = 0 ->
  clock_micros d = toordinal d * 86400000000.
Proof. intros Hh Hm Hs Hu. unfold clock_micros. rewrite Hh, Hm, Hs, Hu. lia. Qed.

(** Adding whole days to a midnight gives the midnight of the shifted
    ordinal, as long as it stays in the calendar. *)
Lemma datetime_add_days (d : datetime) (k : Z) :
  hour d = 0 -> minute d = 0 -> second d = 0 -> microsecond d = 0 ->
  (forall off, tzinfo d = Some off -> -86400000000 < off < 86400000000) ->
  1 <= toordinal d + k <= MAXORDINAL ->
  exists d',
    datetime_add d (timedelta_days k) = Ok d' /\
    midnight_of_ordinal d' (toordinal d + k) (tzinfo d).
Proof.
  intros Hh Hm Hs Hu Ho Hr. unfold datetime_add, timedelta_days.
  rewrite (clock_micros_midnight d Hh Hm Hs Hu).
  replace (toordinal d * 86400000000 + k * 86400000000)
    with ((toordinal d + k) * 86400000000) by lia.
  rewrite Z.div_mul, Z.mod_mul by lia.
  destruct (Z.ltb_spec 0 (toordinal d + k)); [|lia].
  destruct (Z.leb_spec (toordinal d + k) MAXORDINAL); [|lia].
  cbn [andb].
  destruct (ord2ymd_spec (toordinal d + k) Hr) as (y & m & dd & -> & Hy & Hmo & Hd & Hord).
  eexists. split; [reflexivity|].
  unfold midnight_of_ordinal. cbn [hour minute second microsecond tzinfo].
  change (0 / 1000000) with 0. change (0 mod 1000000) with 0.
  change (0 / 3600) with 0. change (0 mod 3600) with 0.
  change (0 / 60) with 0. change (0 mod 60) with 0.
  split; [apply check_fields_intro; cbn; try lia; assumption|].
  repeat (split; [reflexivity|]). exact Hord.
Qed.

Ltac calc_closed :=
  repeat match goal with
         | |- context [DAYS_IN_MONTH ?x] =>
             let v := eval vm_compute in (DAYS_IN_MONTH x) in
             progress change (DAYS_IN_MONTH x) with v
         | |- context [DAYS_BEFORE_MONTH ?x] =>
             let v := eval vm_compute in (DAYS_BEFORE_MONTH x) in
             progress change (DAYS_BEFORE_MONTH x) with v
         | |- context [if ?b then _ else _] =>
             let v := eval vm_compute in b in
             lazymatch v with
             | true => progress change b with true
             | false => progress change b with false
             end
         end;
  cbv iota.

Lemma ymd2ord_month_start (y m : Z) :
  1 <= m <= 11 ->
  ymd2ord y (m + 1) 1 = ymd2ord y m 1 + days_in_month y m.
Proof.
  intros Hm. unfold ymd2ord, days_before_month, days_in_month.
  assert (C : m = 1 \/ m = 2 \/ m = 3 \/ m = 4 \/ m = 5 \/ m = 6 \/
              m = 7 \/ m = 8 \/ m = 9 \/ m = 10 \/ m = 11) by lia.
  generalize (days_before_year y). intros dby.
  repeat (destruct C as [C|C]); subst; destruct (is_leap y); calc_closed; lia.
Qed.

Lemma days_before_year_succ (y : Z) :
  days_before_year (y + 1) = days_before_year y + 365 + (if is_leap y then 1 else 0).
Proof.
  unfold days_before_year, is_leap.
  repeat match goal with
         | |- context [?x mod ?k =? 0] =>
             let E := fresh "E" in destruct (Z.eqb_spec (x mod k) 0) as [E|E]
         end; cbn [andb orb negb]; Z.div_mod_to_equations; lia.
Qed.

Lemma ymd2ord_year_start (y : Z) :
  ymd2ord (y + 1) 1 1 = ymd2ord y 12 1 + 31.
Proof.
  unfold ymd2ord, days_before_month. rewrite days_before_year_succ.
  change (2 <? 1) with false. change (2 <? 12) with true.
  generalize (days_before_year y). intros dby.
  destruct (is_leap y), (is_leap (y + 1)); calc_closed; lia.
Qed.

Lemma ymd2ord_day (y m d : Z) : ymd2ord y m d = ymd2ord y m 1 + (d - 1).
Proof. unfold ymd2ord. lia. Qed.

Lemma new_datetime_ok (d : datetime) :
  check_fields d = true -> new_datetime d = Ok d.
Proof. intros H. unfold new_datetime. rewrite H. reflexivity. Qed.

Lemma check_fields_midnight (y m d : Z) (tz : option Z) :
  1 <= y <= 9999 -> 1 <= m <= 12 -> 1 <= d <= days_in_month y m ->
  (forall off, tz = Some off -> -86400000000 < off < 86400000000) ->
  check_fields (midnight y m d tz) = true.
Proof. intros. apply check_fields_intro; cbn; try lia; assumption. Qed.

Lemma weekday_bounds (d : datetime) : 0 <= weekday d <= 6.
Proof. unfold weekday. pose proof (Z.mod_pos_bound (toordinal d + 6) 7). lia. Qed.

(** Outside December 9999 there is room for eight more days. *)
Lemma toordinal_not_last_month (y m d : Z) :
  1 <= y <= 9999 -> 1 <= m <= 12 -> 1 <= d <= days_in_month y m ->
  ~ (y = 9999 /\ m = 12) ->
  ymd2ord y m d <= MAXORDINAL - 31.
Proof.
  intros Hy Hm Hd Hn. unfold MAXORDINAL.
  destruct (Z.eq_dec y 9999) as [->|Hy'].
  - assert (Hm' : 1 <= m <= 11) by lia.
    pose proof (ymd2ord_month_start 9999 m Hm') as E.
    rewrite (ymd2ord_day 9999 m d).
    assert (ymd2ord 9999 (m + 1) 1 <= ymd2ord 9999 12 1).
    { unfold ymd2ord, days_before_month. change (is_leap 9999) with false.
      rewrite !andb_false_r.
      assert (C : m = 1 \/ m = 2 \/ m = 3 \/ m = 4 \/ m = 5 \/ m = 6 \/
                  m = 7 \/ m = 8 \/ m = 9 \/ m = 10 \/ m = 11) by lia.
      repeat (destruct C as [C|C]); subst; vm_compute; discriminate. }
    change (ymd2ord 9999 12 1) with 3652029 in *. lia.
  - pose proof (toordinal_bounds y m d Hy Hm Hd) as Hb.
    assert (days_before_year y <= 3651329).
    { unfold days_before_year. Z.div_mod_to_equations. lia. }
    assert (days_before_month y m + days_in_month y m <= 366).
    { unfold days_before_month, days_in_month.
      destruct (is_leap y); month_split m Hm; calc_closed; lia. }
    unfold ymd2ord. lia.
Qed.

(** The ranges that [get_summary] builds from a clock reading [now]
    outside January of year 1 and December of year 9999. *)
Lemma summary_ranges_shape (now : datetime) :
  check_fields now = true ->
  ~ (year now = 1 /\ month now = 1) ->
  ~ (year now = 9999 /\ month now = 12) ->
  exists today_end week_start week_end : datetime,
    let tz := tzinfo now in
    let day_start := midnight (year now) (month now) (day now) tz in
    let month_start := midnight (year now) (month now) 1 tz in
    let next_month_start :=
      if month now =? 12 then midnight (year now + 1) 1 1 tz
      else midnight (year now) (month now + 1) 1 tz in
    let prev_month_start :=
      if month now =? 1 then midnight (year now - 1) 12 1 tz
      else midnight (year now) (month now - 1) 1 tz in
    summary_ranges now
    = Ok [ ("today", (day_start, today_end));
           ("week", (week_start, week_end));
           ("month", (month_start, next_month_start));
           ("prev_month", (prev_month_start, month_start)) ] /\
    midnight_of_ordinal today_end (toordinal now + 1) tz /\
    midnight_of_ordinal week_start (toordinal now - weekday now) tz /\
    midnight_of_ordinal week_end (toordinal now - weekday now + 7) tz /\
    check_fields next_month_start = true /\
    check_fields prev_month_start = true.
Proof.
  intros Hnow Hfirst Hlast.
  pose proof (check_fields_spec now Hnow) as (Hy & Hm & Hd & Hh & Hmi & Hs & Hu & Ho).
  pose proof (days_in_month_ge (year now) (month now) Hm) as Hdim.
  pose proof (toordinal_bounds _ _ _ Hy Hm Hd) as Hord.
  pose proof (toordinal_not_last_month _ _ _ Hy Hm Hd Hlast) as Hroom.
  pose proof (weekday_bounds now) as Hwd.
  fold (toordinal now) in Hord, Hroom.
  set (tz := tzinfo now) in *.
  set (day_start := midnight (year now) (month now) (day now) tz).
  assert (Hds : check_fields day_start = true) by (apply check_fields_midnight; auto).
  assert (Hwd_eq : weekday day_start = weekday now) by reflexivity.
  assert (Hord_eq : toordinal day_start = toordinal now) by reflexivity.
  assert (Hweek_range : 1 <= toordinal day_start + - weekday now <= MAXORDINAL).
  { rewrite Hord_eq. unfold weekday in *. unfold MAXORDINAL in *.
    Z.div_mod_to_equations. lia. }
  destruct (datetime_add_days day_start (- weekday now)
              eq_refl eq_refl eq_refl eq_refl Ho Hweek_range)
    as (week_start & Hws & Hws_mid).
  destruct (datetime_add_days day_start 1 eq_refl eq_refl eq_refl eq_refl Ho)
    as (today_end & Hte & Hte_mid).
  { rewrite Hord_eq. unfold MAXORDINAL in *. lia. }
  pose proof Hws_mid as (Hws_cf & Hws_h & Hws_m & Hws_s & Hws_u & Hws_tz & Hws_ord).
  destruct (datetime_add_days week_start 7 Hws_h Hws_m Hws_s Hws_u)
    as (week_end & Hwe & Hwe_mid).
  { rewrite Hws_tz. exact Ho. }
  { rewrite Hws_ord, Hord_eq. unfold MAXORDINAL in *. lia. }
  exists today_end, week_start, week_end. cbv zeta.
  set (month_start := midnight (year now) (month now) 1 tz).
  assert (Hms : check_fields month_start = true)
    by (apply check_fields_midnight; auto; lia).
  assert (Hnext : check_fields
                    (if month now =? 12 then midnight (year now + 1) 1 1 tz
                     else midnight (year now) (month now + 1) 1 tz) = true).
  { destruct (Z.eqb_spec (month now) 12).
    - apply check_fields_midnight; auto; try lia. vm_compute. split; discriminate.
    - apply check_fields_midnight; auto; try lia.
      pose proof (days_in_month_ge (year now) (month now + 1)). lia. }
  assert (Hprev : check_fields
                    (if month now =? 1 then midnight (year now - 1) 12 1 tz
                     else midnight (year now) (month now - 1) 1 tz) = true).
  { destruct (Z.eqb_spec (month now) 1).
    - apply check_fields_midnight; auto; try lia. vm_compute. split; discriminate.
    - apply check_fields_midnight; auto; try lia.
      pose proof (days_in_month_ge (year now) (month now - 1)). lia. }
  split.
  - unfold summary_ranges.
    unfold replace_time. fold tz. fold (midnight (year now) (month now) (day now) tz).
    fold day_start. rewrite (new_datetime_ok day_start Hds). cbn [rbind].
    rewrite Hwd_eq.
    replace (- timedelta_days (weekday now)) with (timedelta_days (- weekday now))
      by (unfold timedelta_days; lia).
    rewrite Hws. cbn [rbind].
    unfold replace_day. cbn [year month day hour minute second microsecond tzinfo day_start midnight].
    fold (midnight (year now) (month now) 1 tz). fold month_start.
    rewrite (new_datetime_ok month_start Hms). cbn [rbind].
    unfold replace_year_month, replace_month.
    cbn [year month day hour minute second microsecond tzinfo month_start midnight].
    fold (midnight (year now - 1) 12 1 tz). fold (midnight (year now) (month now - 1) 1 tz).
    fold (midnight (year now + 1) 1 1 tz). fold (midnight (year now) (month now + 1) 1 tz).
    destruct (Z.eqb_spec (month now) 1) as [E1|E1];
      destruct (Z.eqb_spec (month now) 12) as [E12|E12]; try lia;
      rewrite (new_datetime_ok _ Hprev), (new_datetime_ok _ Hnext); cbn [rbind];
      rewrite Hte, Hwe; reflexivity.
  - pose proof Hwe_mid as (Hwe_cf & Hwe_h & Hwe_m & Hwe_s & Hwe_u & Hwe_tz & Hwe_ord).
    rewrite Hord_eq in *. subst day_start month_start tz.
    split; [exact Hte_mid|].
    split; [replace (toordinal now - weekday now) with (toordinal now + - weekday now)
              by lia; exact Hws_mid|].
    split; [unfold midnight_of_ordinal; rewrite Hws_tz in Hwe_tz;
            rewrite Hws_ord in Hwe_ord;
            replace (toordinal now - weekday now + 7)
              with (toordinal now + - weekday now + 7) by lia; auto 10|].
    split; assumption.
Qed.

(** C4: for a clock reading [now] (any well-formed datetime outside January
    of year 1 and December of year 9999, where the neighbouring month does
    not exist), [get_summary] builds exactly the ranges
    today = [midnight of now's date, that midnight + 1 day),
    week = [that midnight - weekday days (Monday = 0), a Monday, + 7 days),
    month = [first of now's month, first of the next month) with December
    followed by January of the next year, and
    prev_month = [first of the previous month, first of now's month) with
    January preceded by December of the previous year. *)
Theorem summary_ranges_spec (now : datetime) :
  check_fields now = true ->
  ~ (year now = 1 /\ month now = 1) ->
  ~ (year now = 9999 /\ month now = 12) ->
  exists today_end week_start week_end : datetime,
    let tz := tzinfo now in
    let day_start := midnight (year now) (month now) (day now) tz in
    let month_start := midnight (year now) (month now) 1 tz in
    let next_month_start :=
      if month now =? 12 then midnight (year now + 1) 1 1 tz
      else midnight (year now) (month now + 1) 1 tz in
    let prev_month_start :=
      if month now =? 1 then midnight (year now - 1) 12 1 tz
      else midnight (year now) (month now - 1) 1 tz in
    summary_ranges now
    = Ok [ ("today", (day_start, today_end));
           ("week", (week_start, week_end));
           ("month", (month_start, next_month_start));
           ("prev_month", (prev_month_start, month_start)) ] /\
    midnight_of_ordinal today_end (toordinal now + 1) tz /\
    clock_micros today_end = clock_micros day_start + timedelta_days 1 /\
    0 <= weekday now <= 6 /\
    midnight_of_ordinal week_start (toordinal now - weekday now) tz /\
    clock_micros week_start = clock_micros day_start - timedelta_days (weekday now) /\
    weekday week_start = 0 /\
    midnight_of_ordinal week_end (toordinal now - weekday now + 7) tz /\
    clock_micros week_end = clock_micros week_start + timedelta_days 7 /\
    check_fields next_month_start = true /\
    check_fields prev_month_start = true.
Proof.
  intros Hnow Hfirst Hlast.
  destruct (summary_ranges_shape now Hnow Hfirst Hlast)
    as (today_end & week_start & week_end & Hshape).
  cbv zeta in Hshape. destruct Hshape as (Hrs & Hte & Hws & Hwe & Hnext & Hprev).
  exists today_end, week_start, week_end. cbv zeta.
  pose proof Hte as (_ & Hte_h & Hte_m & Hte_s & Hte_u & _ & Hte_ord).
  pose proof Hws as (_ & Hws_h & Hws_m & Hws_s & Hws_u & _ & Hws_ord).
  pose proof Hwe as (_ & Hwe_h & Hwe_m & Hwe_s & Hwe_u & _ & Hwe_ord).
  pose proof (weekday_bounds now) as Hwd.
  assert (Hcm : clock_micros (midnight (year now) (month now) (day now) (tzinfo now))
                = toordinal now * 86400000000)
    by (rewrite clock_micros_midnight; auto).
  split; [exact Hrs|]. split; [exact Hte|].
  split.
  { rewrite (clock_micros_midnight today_end), Hcm, Hte_ord by assumption.
    unfold timedelta_days. lia. }
  split; [exact Hwd|]. split; [exact Hws|].
  split.
  { rewrite (clock_micros_midnight week_start), Hcm, Hws_ord by assumption.
    unfold timedelta_days. lia. }
  split.
  { (* the week starts on a Monday *)
    unfold weekday in *. rewrite Hws_ord. Z.div_mod_to_equations. lia. }
  split; [exact Hwe|].
  split.
  { rewrite (clock_micros_midnight week_end), (clock_micros_midnight week_start)
      by assumption.
    rewrite Hwe_ord, Hws_ord. unfold timedelta_days. lia. }
  split; assumption.
Qed.


(** C5 fails as stated: on Wednesday 2024-03-13 the instant 12:00 lies in
    the today range, in the week range and in the month range. *)
Lemma summary_ranges_overlap_counterexample :
  let now := mk_datetime 2024 3 13 12 0 0 0 UTC in
  check_fields now = true /\
  exists rs, summary_ranges now = Ok rs /\
    in_range (midnight 2024 3 13 UTC, midnight 2024 3 14 UTC) now = true /\
    in_range (midnight 2024 3 11 UTC, midnight 2024 3 18 UTC) now = true /\
    In ("today", (midnight 2024 3 13 UTC, midnight 2024 3 14 UTC)) rs /\
    In ("week", (midnight 2024 3 11 UTC, midnight 2024 3 18 UTC)) rs /\
    ~ pairwise_disjoint rs.
Proof.
  cbv zeta. split; [reflexivity|].
  eexists. split; [vm_compute; reflexivity|].
  split; [reflexivity|]. split; [reflexivity|].
  split; [left; reflexivity|]. split; [right; left; reflexivity|].
  intros Hd.
  apply (Hd "today" (midnight 2024 3 13 UTC, midnight 2024 3 14 UTC)
            "week" (midnight 2024 3 11 UTC, midnight 2024 3 18 UTC)
            (mk_datetime 2024 3 13 12 0 0 0 UTC)).
  - left. reflexivity.
  - right. left. reflexivity.
  - discriminate.
  - reflexivity.
  - reflexivity.
Qed.

Lemma instant_midnight (d : datetime) (n : Z) (tz : option Z) :
  midnight_of_ordinal d n tz -> instant d = n * 86400000000 - default 0 tz.
Proof.
  intros (_ & Hh & Hm & Hs & Hu & Htz & Hord). unfold instant.
  rewrite clock_micros_midnight by assumption. rewrite Htz, Hord. reflexivity.
Qed.

Lemma instant_of_midnight (y m d : Z) (tz : option Z) :
  instant (midnight y m d tz) = ymd2ord y m d * 86400000000 - default 0 tz.
Proof. unfold instant, clock_micros, toordinal. cbn. lia. Qed.

(** C5 (as amended): for a fixed [now] the month and prev_month ranges are
    disjoint, while the today range is contained in the week range and in
    the month range, so a start time in today falls into three ranges. *)
Theorem summary_ranges_nesting (now : datetime) :
  check_fields now = true ->
  ~ (year now = 1 /\ month now = 1) ->
  ~ (year now = 9999 /\ month now = 12) ->
  exists today week month_ prev_month : datetime * datetime,
    summary_ranges now
    = Ok [ ("today", today); ("week", week); ("month", month_);
           ("prev_month", prev_month) ] /\
    (forall t, in_range month_ t = true -> in_range prev_month t = false) /\
    (forall t, in_range today t = true ->
               in_range week t = true /\ in_range month_ t = true).
Proof.
  intros Hnow Hfirst Hlast.
  destruct (summary_ranges_shape now Hnow Hfirst Hlast)
    as (today_end & week_start & week_end & Hspec).
  cbv zeta in Hspec.
  destruct Hspec as (Hrs & Hte & Hws & Hwe & _ & _).
  pose proof (weekday_bounds now) as Hwd.
  pose proof (check_fields_spec now Hnow) as (Hy & Hm & Hd & _).
  eexists _, _, _, _. split; [exact Hrs|].
  split.
  - intros t. unfold in_range. cbn [fst snd].
    intros H. apply andb_prop in H as [H1 _]. apply Z.leb_le in H1.
    apply andb_false_intro2. apply Z.ltb_ge. exact H1.
  - intros t. unfold in_range. cbn [fst snd].
    rewrite (instant_midnight _ _ _ Hte), (instant_midnight _ _ _ Hws),
      (instant_midnight _ _ _ Hwe), !instant_of_midnight.
    fold (toordinal now).
    intros H. apply andb_prop in H as [H1 H2].
    apply Z.leb_le in H1. apply Z.ltb_lt in H2.
    assert (Hlo : ymd2ord (year now) (month now) 1 <= toordinal now)
      by (unfold toordinal; rewrite (ymd2ord_day _ _ (day now)); lia).
    assert (Hhi : toordinal now + 1
                  <= ymd2ord (if month now =? 12 then year now + 1 else year now)
                       (if month now =? 12 then 1 else month now + 1) 1).
    { unfold toordinal. rewrite (ymd2ord_day _ _ (day now)).
      destruct (Z.eqb_spec (month now) 12) as [E|E].
      - rewrite ymd2ord_year_start. rewrite E in *.
        unfold days_in_month in Hd. cbn in Hd. lia.
      - rewrite ymd2ord_month_start by lia. lia. }
    split; apply andb_true_intro; split;
      try (apply Z.leb_le); try (apply Z.ltb_lt); try lia.
    destruct (Z.eqb_spec (month now) 12); rewrite instant_of_midnight; lia.
Qed.

(** ** [get_summary]: the sums *)

Lemma later_refl (w : world) : later w w.
Proof. unfold later. auto. Qed.

Lemma later_trans (a b c : world) : later a b -> later b c -> later a c.
Proof.
  unfold later. intros (H1 & H2 & H3) (H4 & H5 & H6).
  repeat split; try congruence. lia.
Qed.

Lemma later_tick (w : world) : later w (tick w).
Proof. unfold later, tick. cbn. auto. Qed.

(** The range query of [get_summary] selects the entries that start in the
    range. *)
Lemma find_start_time_in (s e : datetime) (coll : list stored) :
  find (start_time_in s e) coll = List.filter (starts_in (s, e)) coll.
Proof.
  unfold find. apply filter_ext. intros st.
  unfold matches, start_time_in, starts_in, lookup_field. cbn.
  destruct (fields st !! "start_time") as [[| | |d|]|]; cbn; try reflexivity.
  unfold in_range, same_type. cbn. rewrite andb_true_r.
  rewrite (Z.compare_antisym (instant s) (instant d)).
  unfold Z.leb, Z.ltb.
  destruct (instant s ?= instant d); destruct (instant d ?= instant e); reflexivity.
Qed.

(** One call on a well-typed entry: it succeeds, is non-negative, and only
    reads the clock. *)
Lemma compute_entry_ok (st : stored) (w : world) :
  well_typed st ->
  (forall t, check_fields (clock w t) = true) ->
  exists m w', compute_entry st w = (Ok m, w') /\ 0 <= m /\ later w w'.
Proof.
  intros ((s & Hs & Hsv) & Hend & (b & Hb)) Hclk. unfold compute_entry.
  unfold get at 1. rewrite Hs, Hb. cbn [default from_option id].
  destruct Hend as [He|(e & He & Hev)]; rewrite He.
  - rewrite (compute_worked_minutes_running s (VInt b) w Hsv (Hclk _)).
    rewrite worked_between_int. eexists _, _. split; [reflexivity|].
    split; [lia|apply later_tick].
  - rewrite (compute_worked_minutes_dates s e (VInt b) w Hsv Hev).
    rewrite worked_between_int. eexists _, _. split; [reflexivity|].
    split; [lia|apply later_refl].
Qed.

(** The inner loop adds up one successful call per entry. *)
Lemma sum_worked_spec (cursor : list stored) :
  forall (total : Z) (w : world),
    Forall well_typed cursor ->
    (forall t, check_fields (clock w t) = true) ->
    exists ms w',
      sum_worked cursor total w = (Ok (total + sum_list ms), w') /\
      later w w' /\
      Forall2 (fun st m => exists wi wi', later w wi /\
                 compute_entry st wi = (Ok m, wi') /\ 0 <= m) cursor ms.
Proof.
  induction cursor as [|st t IH]; intros total w Hwt Hclk.
  - exists [], w. cbn. unfold ret. rewrite Z.add_0_r.
    split; [reflexivity|]. split; [apply later_refl|constructor].
  - apply Forall_cons_iff in Hwt as [Hst Ht].
    destruct (compute_entry_ok st w Hst Hclk) as (m & w1 & Hc & Hm & Hl1).
    assert (Hclk1 : forall t0, check_fields (clock w1 t0) = true).
    { destruct Hl1 as (-> & _). exact Hclk. }
    destruct (IH (total + m) w1 Ht Hclk1) as (ms & w' & Hsum & Hl & Hall).
    exists (m :: ms), w'. split.
    + cbn [sum_worked]. unfold_M. fold (compute_entry st). rewrite Hc.
      rewrite Hsum. cbn [sum_list fold_right]. fold (sum_list ms).
      f_equal. f_equal. lia.
    + split; [eapply later_trans; eassumption|].
      constructor.
      * exists w, w1. split; [apply later_refl|]. split; assumption.
      * eapply Forall2_impl; [exact Hall|].
        intros x y (wi & wi' & Hli & Hci & Hy). exists wi, wi'.
        split; [eapply later_trans; eassumption|]. split; assumption.
Qed.

Lemma sum_list_nonneg (ms : list Z) : Forall (fun m => 0 <= m) ms -> 0 <= sum_list ms.
Proof. induction 1; cbn; [lia|]. fold (sum_list l). lia. Qed.

Lemma Forall_filter_well_typed (f : stored -> bool) (coll : list stored) :
  Forall well_typed coll -> Forall well_typed (List.filter f coll).
Proof.
  intros H. apply Forall_forall. intros x Hx.
  rewrite Forall_forall in H. apply H.
  apply list_elem_of_In. apply list_elem_of_In in Hx.
  apply filter_In in Hx. tauto.
Qed.

(** Each of the four ranges is non-empty, so its start lies in it. *)
Lemma summary_ranges_nonempty (now : datetime) (rs : list (string * (datetime * datetime))) :
  check_fields now = true ->
  ~ (year now = 1 /\ month now = 1) ->
  ~ (year now = 9999 /\ month now = 12) ->
  summary_ranges now = Ok rs ->
  forall key r, In (key, r) rs -> in_range r (fst r) = true.
Proof.
  intros Hnow Hfirst Hlast Hrs key r Hr.
  destruct (summary_ranges_shape now Hnow Hfirst Hlast)
    as (today_end & week_start & week_end & Hspec).
  cbv zeta in Hspec.
  destruct Hspec as (Hrs' & Hte & Hws & Hwe & _ & _).
  pose proof (weekday_bounds now) as Hwd.
  pose proof (check_fields_spec now Hnow) as (Hy & Hm & Hd & _).
  rewrite Hrs in Hrs'. inversion Hrs' as [Heq]. clear Hrs'. subst rs.
  assert (Hgoal : instant (fst r) < instant (snd r)).
  { cbn [In] in Hr.
    destruct Hr as [Hr|[Hr|[Hr|[Hr|[]]]]]; inversion Hr; subst key r; cbn [fst snd].
    - rewrite (instant_midnight _ _ _ Hte), instant_of_midnight.
      fold (toordinal now). lia.
    - rewrite (instant_midnight _ _ _ Hws), (instant_midnight _ _ _ Hwe). lia.
    - destruct (Z.eqb_spec (month now) 12) as [E|E]; rewrite !instant_of_midnight.
      + rewrite ymd2ord_year_start, E. lia.
      + rewrite ymd2ord_month_start by lia.
        pose proof (days_in_month_ge (year now) (month now) Hm). lia.
    - destruct (Z.eqb_spec (month now) 1) as [E|E]; rewrite !instant_of_midnight.
      + rewrite E. replace (year now) with (year now - 1 + 1) at 2 by lia.
        rewrite ymd2ord_year_start. lia.
      + replace (month now) with (month now - 1 + 1) at 2 by lia.
        rewrite ymd2ord_month_start by lia.
        pose proof (days_in_month_ge (year now) (month now - 1) ltac:(lia)). lia. }
  unfold in_range. apply andb_true_intro. split.
  - apply Z.leb_refl.
  - apply Z.ltb_lt. exact Hgoal.
Qed.

Lemma db_find_run (q : query) (w : world) (coll : list stored) :
  db w = Some coll -> db_find q w = (Ok (find q coll), w).
Proof. intros H. unfold db_find, timeentry. unfold_M. rewrite H. reflexivity. Qed.

(** The outer loop: every range gets the sum over the entries that start
    in it; other keys of the accumulator are left alone. *)
Lemma summary_loop_spec (coll : list stored) (rs : list (string * (datetime * datetime))) :
  forall (acc : gmap string Z) (w : world),
    db w = Some coll ->
    (forall t, check_fields (clock w t) = true) ->
    Forall well_typed coll ->
    NoDup (List.map fst rs) ->
    exists res w',
      summary_loop rs acc w = (Ok res, w') /\ later w w' /\
      (forall k, ~ In k (List.map fst rs) -> res !! k = acc !! k) /\
      (forall key r, In (key, r) rs ->
         exists ms, res !! key = Some (sum_list ms) /\
           Forall2 (fun st m => exists wi wi', later w wi /\
                      compute_entry st wi = (Ok m, wi') /\ 0 <= m)
             (List.filter (starts_in r) coll) ms).
Proof.
  induction rs as [|[key [s e]] t IH]; intros acc w Hdb Hclk Hwt Hnd.
  - exists acc, w. cbn. unfold ret.
    split; [reflexivity|]. split; [apply later_refl|]. split; [reflexivity|].
    intros ? ? [].
  - cbn [List.map fst] in Hnd. apply NoDup_cons in Hnd as [Hkey Hnd].
    rewrite list_elem_of_In in Hkey.
    pose proof (Forall_filter_well_typed (starts_in (s, e)) coll Hwt) as Hwt'.
    destruct (sum_worked_spec (List.filter (starts_in (s, e)) coll) 0 w Hwt' Hclk)
      as (ms & w1 & Hsum & Hl1 & Hall).
    pose proof Hl1 as (Hc1 & Hd1 & _).
    assert (Hdb1 : db w1 = Some coll) by congruence.
    assert (Hclk1 : forall t0, check_fields (clock w1 t0) = true)
      by (rewrite Hc1; exact Hclk).
    destruct (IH (<[key := 0 + sum_list ms]> acc) w1 Hdb1 Hclk1 Hwt Hnd)
      as (res & w' & Hloop & Hl & Hother & Hin).
    exists res, w'. split.
    + cbn [summary_loop]. unfold_M. rewrite (db_find_run _ w coll Hdb).
      rewrite find_start_time_in. rewrite Hsum. exact Hloop.
    + split; [eapply later_trans; eassumption|]. split.
      * intros k Hk. cbn [List.map fst In] in Hk.
        rewrite Hother by tauto. apply lookup_insert_ne. intros ->. tauto.
      * intros key' r [Heq|Hr].
        -- inversion Heq; subst key' r. exists ms. split.
           ++ rewrite (Hother key Hkey). rewrite lookup_insert_eq. reflexivity.
           ++ exact Hall.
        -- destruct (Hin key' r Hr) as (ms' & Hres & Hall').
           exists ms'. split; [exact Hres|].
           eapply Forall2_impl; [exact Hall'|].
           intros x y (wi & wi' & Hli & Hci & Hy). exists wi, wi'.
           split; [eapply later_trans; eassumption|]. split; assumption.
Qed.

(** C3: on an available store of well-typed entries [get_summary] returns
    a mapping with exactly the keys today, week, month and prev_month;
    each value is the sum of [compute_worked_minutes] on the entries whose
    [start_time] lies in the half-open range (its start included, its end
    excluded), and is non-negative; the store is only read. *)
Theorem get_summary_sums (w : world) (coll : list stored) :
  db w = Some coll ->
  (forall t, check_fields (clock w t) = true) ->
  ~ (year (clock w (ticks w)) = 1 /\ month (clock w (ticks w)) = 1) ->
  ~ (year (clock w (ticks w)) = 9999 /\ month (clock w (ticks w)) = 12) ->
  Forall well_typed coll ->
  exists (result : gmap string Z) (w' : world)
         (rs : list (string * (datetime * datetime))),
    get_summary w = (Ok result, w') /\
    summary_ranges (clock w (ticks w)) = Ok rs /\
    db w' = Some coll /\
    (forall k, is_Some (result !! k) <-> In k ["today"; "week"; "month"; "prev_month"]) /\
    (forall key r, In (key, r) rs ->
       in_range r (fst r) = true /\ in_range r (snd r) = false /\
       exists ms,
         result !! key = Some (sum_list ms) /\ 0 <= sum_list ms /\
         Forall2 (fun st m => exists wi wi', later w wi /\
                    compute_entry st wi = (Ok m, wi') /\ 0 <= m)
           (List.filter (starts_in r) coll) ms).
Proof.
  intros Hdb Hclk Hfirst Hlast Hwt.
  destruct (summary_ranges_shape _ (Hclk (ticks w)) Hfirst Hlast)
    as (today_end & week_start & week_end & Hspec).
  cbv zeta in Hspec. destruct Hspec as (Hrs & _).
  match type of Hrs with _ = Ok ?l => set (rs := l) in * end.
  assert (Hnd : NoDup (List.map fst rs)).
  { cbn. repeat (constructor; [rewrite list_elem_of_In; cbn; intuition discriminate|]).
    constructor. }
  assert (Hdbt : db (tick w) = Some coll) by exact Hdb.
  destruct (summary_loop_spec coll rs ∅ (tick w) Hdbt Hclk Hwt Hnd)
    as (res & w' & Hloop & Hl & Hother & Hin).
  exists res, w', rs. split.
  - unfold get_summary, require_db, now_utc. unfold_M. rewrite Hdb.
    fold (tick w). rewrite Hrs. exact Hloop.
  - split; [exact Hrs|]. split.
    { destruct Hl as (_ & -> & _). exact Hdb. }
    split.
    + intros k. split.
      * intros Hk. destruct (in_dec string_dec k (List.map fst rs)) as [Hi|Hi].
        -- exact Hi.
        -- rewrite (Hother k Hi), lookup_empty in Hk. destruct Hk as [? Hk]. discriminate.
      * intros Hk. change (In k (List.map fst rs)) in Hk.
        apply in_map_iff in Hk as ([key r] & <- & Hr).
        cbn [fst]. destruct (Hin key r Hr) as (ms & -> & _). eauto.
    + intros key r Hr.
      split; [exact (summary_ranges_nonempty _ rs (Hclk (ticks w)) Hfirst Hlast Hrs key r Hr)|].
      split.
      * unfold in_range. apply andb_false_intro2. apply Z.ltb_irrefl.
      * destruct (Hin key r Hr) as (ms & Hres & Hall).
        exists ms. split; [exact Hres|].
        assert (Hall' : Forall2 (fun st m => exists wi wi', later w wi /\
                           compute_entry st wi = (Ok m, wi') /\ 0 <= m)
                          (List.filter (starts_in r) coll) ms).
        { eapply Forall2_impl; [exact Hall|].
          intros x y (wi & wi' & Hli & Hci & Hy). exists wi, wi'.
          split; [eapply later_trans; [apply later_tick|exact Hli]|].
          split; assumption. }
        split; [|exact Hall'].
        clear -Hall'. induction Hall' as [|x y l l' (wi & wi' & _ & _ & Hy) _ IH];
          cbn; [lia|]. fold (sum_list l'). lia.
Qed.

(** ** [punch_stop] *)

Lemma matches_running (st : stored) :
  matches [("end_time", CEq VNone)] st = is_running st.
Proof.
  unfold matches, is_running, lookup_field. cbn.
  destruct (fields st !! "end_time") as [[]|]; reflexivity.
Qed.

Lemma find_running (coll : list stored) :
  find [("end_time", CEq VNone)] coll = List.filter is_running coll.
Proof. unfold find. apply filter_ext. exact matches_running. Qed.

Lemma string_compare_eq (a b : string) : is_eq (String.compare a b) = true <-> a = b.
Proof.
  split.
  - intros H. apply String.compare_eq_iff. destruct (String.compare a b); [reflexivity|discriminate..].
  - intros <-. pose proof (String.compare_antisym a a) as H.
    destruct (String.compare a a); [reflexivity|discriminate..].
Qed.

Lemma matches_by_id (i : string) (st : stored) :
  matches (by_id i) st = if decide (oid st = i) then true else false.
Proof.
  unfold matches, by_id, lookup_field. cbn. rewrite andb_true_r.
  destruct (decide (oid st = i)) as [E|E].
  - apply string_compare_eq. exact E.
  - destruct (is_eq (String.compare (oid st) i)) eqn:H; [|reflexivity].
    apply string_compare_eq in H. contradiction.
Qed.

(** With distinct ids, [update_one] by id rewrites the entry with that id
    and nothing else. *)
Lemma update_one_by_id (upd : doc) (i : string) (coll : list stored) :
  NoDup (List.map oid coll) ->
  update_one (by_id i) upd coll
  = List.map (fun x => if decide (oid x = i) then mk_stored (oid x) (upd ∪ fields x) else x)
      coll.
Proof.
  induction coll as [|st t IH]; intros Hnd; [reflexivity|].
  cbn [List.map] in Hnd. apply NoDup_cons in Hnd as [Hst Hnd].
  cbn [update_one List.map]. rewrite matches_by_id.
  destruct (decide (oid st = i)) as [E|E].
  - f_equal. symmetry. rewrite <- (map_id t) at 2. apply map_ext_in.
    intros x Hx. destruct (decide (oid x = i)) as [E'|]; [|reflexivity].
    exfalso. apply Hst. rewrite E, <- E'. apply list_elem_of_In.
    apply in_map. exact Hx.
  - f_equal. apply IH. exact Hnd.
Qed.

Lemma find_one_by_id_map (f : stored -> stored) (i : string) (coll : list stored) (st : stored) :
  In st coll -> oid st = i ->
  NoDup (List.map oid coll) ->
  (forall x, oid (f x) = oid x) ->
  find_one (by_id i) (List.map f coll) = Some (f st).
Proof.
  intros Hin Hi Hnd Hf. unfold find_one, find.
  induction coll as [|x t IH]; [destruct Hin|].
  cbn [List.map] in Hnd. apply NoDup_cons in Hnd as [Hx Hnd].
  cbn [List.map List.filter]. rewrite matches_by_id, Hf.
  destruct Hin as [->|Hin].
  - rewrite decide_True by exact Hi. reflexivity.
  - destruct (decide (oid x = i)) as [E|E].
    + exfalso. apply Hx. rewrite E, <- Hi. apply list_elem_of_In.
      apply in_map. exact Hin.
    + apply IH; assumption.
Qed.

(** On entries whose [start_time] is a date, [first_max] returns an entry
    with the latest start instant. *)
Lemma first_max_latest (l : list stored) :
  Forall (fun st => exists s, fields st !! "start_time" = Some (VDate s)) l ->
  l <> [] ->
  exists m s,
    first_max "start_time" l = Some m /\ In m l /\
    fields m !! "start_time" = Some (VDate s) /\
    forall x s', In x l -> fields x !! "start_time" = Some (VDate s') ->
                 instant s' <= instant s.
Proof.
  induction l as [|d t IH]; intros Hall Hne; [contradiction|].
  apply Forall_cons_iff in Hall as [(sd & Hd) Ht].
  destruct t as [|d' t'].
  - exists d, sd. cbn. split; [reflexivity|]. split; [auto|]. split; [exact Hd|].
    intros x s' [<-|[]] Hx. rewrite Hd in Hx. inversion Hx. lia.
  - destruct (IH Ht ltac:(discriminate)) as (m & sm & Hfm & Hin & Hm & Hmax).
    cbn [first_max]. cbn [first_max] in Hfm. rewrite Hfm.
    unfold lookup_field. cbn [String.eqb Ascii.eqb Bool.eqb].
    change (String.eqb "start_time" "_id") with false. cbn iota.
    rewrite Hm, Hd. cbn [default from_option id bson_compare].
    destruct (instant sm ?= instant sd) eqn:C; cbn [is_gt].
    + apply Z.compare_eq in C. exists d, sd.
      split; [reflexivity|]. split; [left; reflexivity|]. split; [exact Hd|].
      intros x s' [<-|Hx] Hs'.
      * rewrite Hd in Hs'. inversion Hs'. lia.
      * specialize (Hmax x s' Hx Hs'). lia.
    + rewrite Z.compare_lt_iff in C. exists d, sd.
      split; [reflexivity|]. split; [left; reflexivity|]. split; [exact Hd|].
      intros x s' [<-|Hx] Hs'.
      * rewrite Hd in Hs'. inversion Hs'. lia.
      * specialize (Hmax x s' Hx Hs'). lia.
    + rewrite Z.compare_gt_iff in C. exists m, sm.
      split; [reflexivity|]. split; [right; exact Hin|]. split; [exact Hm|].
      intros x s' [<-|Hx] Hs'.
      * rewrite Hd in Hs'. inversion Hs'. subst. lia.
      * exact (Hmax x s' Hx Hs').
Qed.

Lemma stop_update_fields (now : datetime) (worked : Z) (m : doc) :
  (<["end_time" := VDate now]> {[ "worked_minutes" := VInt worked ]} : doc) ∪ m
  = <["end_time" := VDate now]> (<["worked_minutes" := VInt worked]> m).
Proof.
  rewrite <- insert_union_l. f_equal. symmetry. apply insert_union_singleton_l.
Qed.

(** C6: with no running entry the stop action fails with "No running
    timer" and writes nothing; otherwise it stops one running entry whose
    start is the latest among the running entries, and every other entry
    (running or not) is left as it was. *)
Theorem punch_stop_spec (w : world) (coll : list stored) :
  db w = Some coll ->
  check_fields (clock w (ticks w)) = true ->
  Forall well_typed coll ->
  NoDup (List.map oid coll) ->
  match List.filter is_running coll with
  | [] => punch_stop w = (Raise (HTTPException 404 "No running timer"), w)
  | _ :: _ =>
      exists (st : stored) (s : datetime) (worked : Z),
        In st coll /\ is_running st = true /\
        fields st !! "start_time" = Some (VDate s) /\
        (forall st' s', In st' coll -> is_running st' = true ->
           fields st' !! "start_time" = Some (VDate s') -> instant s' <= instant s) /\
        compute_worked_minutes (VDate s) (VDate (clock w (ticks w)))
          (get_default (fields st) "break_minutes" (VInt 0)) (tick w)
        = (Ok worked, tick w) /\
        punch_stop w
        = (Ok (<["worked_minutes" := VInt worked]>
                 (<["_id" := VStr (oid st)]>
                    (fields (stopped st (clock w (ticks w)) worked)))),
           mk_world (clock w) (S (ticks w))
             (Some (List.map (fun x => if decide (oid x = oid st)
                                       then stopped x (clock w (ticks w)) worked
                                       else x) coll)))
  end.
Proof.
  intros Hdb Hnow Hwt Hnd.
  assert (Hfind : db_find_one_sorted_desc [("end_time", CEq VNone)] "start_time" w
                  = (Ok (first_max "start_time" (List.filter is_running coll)), w)).
  { unfold db_find_one_sorted_desc, timeentry, find_one_sorted_desc. unfold_M.
    rewrite Hdb, find_running. reflexivity. }
  destruct (List.filter is_running coll) as [|r0 rt] eqn:Hrun.
  - unfold punch_stop, require_db. unfold_M. rewrite Hdb.
    unfold_M. rewrite Hfind. reflexivity.
  - assert (Hdates : Forall (fun st => exists s, fields st !! "start_time" = Some (VDate s))
                       (r0 :: rt)).
    { rewrite <- Hrun. apply Forall_forall. intros x Hx.
      apply list_elem_of_In, filter_In in Hx as [Hx _].
      rewrite Forall_forall in Hwt. apply list_elem_of_In in Hx.
      destruct (Hwt x Hx) as ((s & Hs & _) & _). eauto. }
    destruct (first_max_latest (r0 :: rt) Hdates ltac:(discriminate))
      as (st & s & Hfm & Hin & Hs & Hmax).
    rewrite <- Hrun in Hin, Hmax. apply filter_In in Hin as [Hin Hst].
    assert (Hwst : well_typed st).
    { rewrite Forall_forall in Hwt. apply Hwt. apply list_elem_of_In. exact Hin. }
    destruct Hwst as ((s0 & Hs0 & Hsv) & _ & (b & Hb)).
    rewrite Hs in Hs0. inversion Hs0; subst s0.
    pose proof (compute_worked_minutes_dates s (clock w (ticks w)) (VInt b) (tick w)
                  Hsv Hnow) as Hc.
    rewrite worked_between_int in Hc.
    set (worked := Z.max 0 _) in Hc.
    exists st, s, worked.
    split; [exact Hin|]. split; [exact Hst|]. split; [exact Hs|].
    split.
    { intros st' s' Hin' Hr' Hs'. apply (Hmax st' s'); [|exact Hs'].
      apply filter_In. split; assumption. }
    split; [rewrite Hb; exact Hc|].
    unfold punch_stop, require_db. unfold_M. rewrite Hdb.
    unfold_M. rewrite Hfind, Hfm.
    unfold now_utc. fold (tick w).
    unfold get at 1. rewrite Hs, Hb. cbn [default from_option id].
    rewrite Hc.
    unfold db_update_one, timeentry, set_timeentry. unfold_M.
    cbn [db tick clock ticks]. rewrite Hdb.
    unfold db_find_one, timeentry. unfold_M. cbn [db clock ticks].
    rewrite (update_one_by_id _ (oid st) coll Hnd).
    assert (Hmap : List.map
                     (fun x => if decide (oid x = oid st)
                               then mk_stored (oid x)
                                      ((<["end_time" := VDate (clock w (ticks w))]>
                                          {[ "worked_minutes" := VInt worked ]} : doc)
                                       ∪ fields x)
                               else x) coll
                   = List.map (fun x => if decide (oid x = oid st)
                                        then stopped x (clock w (ticks w)) worked
                                        else x) coll).
    { apply map_ext. intros x. destruct (decide (oid x = oid st)); [|reflexivity].
      unfold stopped. rewrite stop_update_fields. reflexivity. }
    rewrite Hmap.
    rewrite (find_one_by_id_map _ (oid st) coll st Hin eq_refl Hnd).
    + rewrite decide_True by reflexivity. reflexivity.
    + intros x. destruct (decide (oid x = oid st)); reflexivity.
Qed.

(** ** [update_time_entry] *)

Lemma sanitize_lookup (payload : doc) (k : string) :
  (filter (fun kv => fst kv ∈ allowed) payload : doc) !! k
  = if decide (k ∈ allowed) then payload !! k else None.
Proof.
  destruct (decide (k ∈ allowed)) as [Hk|Hk].
  - destruct (payload !! k) as [v|] eqn:E.
    + apply map_lookup_filter_Some. split; [exact E|exact Hk].
    + apply map_lookup_filter_None. left. exact E.
  - apply map_lookup_filter_None. right. intros v _. exact Hk.
Qed.

Lemma sanitize_idempotent (payload : doc) :
  (filter (fun kv => fst kv ∈ allowed)
     (filter (fun kv => fst kv ∈ allowed) payload : doc) : doc)
  = filter (fun kv => fst kv ∈ allowed) payload.
Proof.
  apply map_eq. intros k. rewrite !sanitize_lookup.
  destruct (decide (k ∈ allowed)); reflexivity.
Qed.

(** C10: a payload with none of the allowed fields is rejected with
    "No valid fields to update" before the identifier is looked at and
    before any write, so the store is unchanged; and fields outside the
    allowed set never reach the store: the request behaves as the one with
    the payload restricted to the allowed fields. *)
Theorem update_time_entry_sanitizes
  (entry_id : string) (payload : doc) (w : world) (coll : list stored) :
  db w = Some coll ->
  ((forall k, k ∈ allowed -> payload !! k = None) ->
   update_time_entry entry_id payload w
   = (Raise (HTTPException 400 "No valid fields to update"), w)) /\
  update_time_entry entry_id payload w
  = update_time_entry entry_id (filter (fun kv => fst kv ∈ allowed) payload) w /\
  (forall k, k ∉ allowed ->
     (filter (fun kv => fst kv ∈ allowed) payload : doc) !! k = None).
Proof.
  intros Hdb. split; [|split].
  - intros Hnone. unfold update_time_entry, require_db. unfold_M. rewrite Hdb.
    destruct (decide (filter (fun kv => fst kv ∈ allowed) payload = ∅)) as [_|Hne].
    + reflexivity.
    + exfalso. apply Hne. apply map_eq. intros k.
      rewrite sanitize_lookup, lookup_empty.
      destruct (decide (k ∈ allowed)); auto.
  - unfold update_time_entry. rewrite sanitize_idempotent. reflexivity.
  - intros k Hk. rewrite sanitize_lookup. rewrite decide_False by exact Hk. reflexivity.
Qed.

Lemma NoDup_map_oid (f : stored -> stored) (coll : list stored) :
  (forall x, oid (f x) = oid x) ->
  NoDup (List.map oid coll) -> NoDup (List.map oid (List.map f coll)).
Proof.
  intros Hf H. rewrite List.map_map.
  erewrite map_ext; [exact H|]. intros x. apply Hf.
Qed.

(** When the entry is well typed after the update, the recomputed minutes
    are written back together with the change. *)
Lemma update_time_entry_recomputes
  (entry_id i : string) (payload : doc) (w : world) (coll : list stored) (st : stored) :
  db w = Some coll ->
  NoDup (List.map oid coll) ->
  to_object_id entry_id = Ok i ->
  In st coll -> oid st = i ->
  (filter (fun kv => fst kv ∈ allowed) payload : doc) <> ∅ ->
  well_typed (mk_stored i ((filter (fun kv => fst kv ∈ allowed) payload : doc) ∪ fields st)) ->
  (forall t, check_fields (clock w t) = true) ->
  exists (worked : Z) (w1 : world),
    compute_entry
      (mk_stored i ((filter (fun kv => fst kv ∈ allowed) payload : doc) ∪ fields st)) w
    = (Ok worked, w1) /\
    update_time_entry entry_id payload w
    = (Ok (<["worked_minutes" := VInt worked]>
             (<["_id" := VStr i]>
                ((filter (fun kv => fst kv ∈ allowed) payload : doc) ∪ fields st))),
       mk_world (clock w) (ticks w1)
         (Some (List.map
                  (fun x => if decide (oid x = i)
                            then mk_stored (oid x)
                                   (({[ "worked_minutes" := VInt worked ]} : doc)
                                    ∪ ((filter (fun kv => fst kv ∈ allowed) payload : doc)
                                       ∪ fields x))
                            else x) coll))).
Proof.
  intros Hdb Hnd Hid Hin Hoid Hne Hwt Hclk.
  set (update := (filter (fun kv => fst kv ∈ allowed) payload : doc)) in *.
  set (f := fun x => if decide (oid x = i)
                     then mk_stored (oid x) (update ∪ fields x) else x).
  assert (Hf : forall x, oid (f x) = oid x).
  { intros x. unfold f. destruct (decide (oid x = i)); reflexivity. }
  set (w0 := mk_world (clock w) (ticks w) (Some (List.map f coll))).
  assert (Hclk0 : forall t, check_fields (clock w0 t) = true) by exact Hclk.
  destruct (compute_entry_ok _ w0 Hwt Hclk0) as (worked & w1 & Hc & _ & Hl).
  destruct Hl as (Hc1 & Hd1 & _).
  assert (Hcw : compute_entry (mk_stored i (update ∪ fields st)) w
                = (Ok worked, mk_world (clock w) (ticks w1) (db w))).
  { destruct Hwt as ((s & Hs & Hsv) & Hend & (b & Hb)).
    unfold compute_entry in *. cbn [fields] in *.
    unfold get at 1 in Hc. unfold get at 1. rewrite Hs, Hb in *.
    cbn [default from_option id] in *.
    destruct Hend as [He|(e & He & Hev)]; rewrite He in *.
    - rewrite (compute_worked_minutes_running s (VInt b) w0 Hsv (Hclk0 _)) in Hc.
      rewrite (compute_worked_minutes_running s (VInt b) w Hsv (Hclk _)).
      inversion Hc. reflexivity.
    - rewrite (compute_worked_minutes_dates s e (VInt b) w0 Hsv Hev) in Hc.
      rewrite (compute_worked_minutes_dates s e (VInt b) w Hsv Hev).
      inversion Hc. subst w1. destruct w. reflexivity. }
  exists worked, (mk_world (clock w) (ticks w1) (db w)).
  split; [exact Hcw|].
  unfold update_time_entry, require_db. unfold_M. rewrite Hdb.
  fold update. rewrite decide_False by exact Hne.
  unfold_M. rewrite Hid.
  unfold db_update_one, db_find_one, timeentry, set_timeentry. unfold_M.
  rewrite Hdb. cbn [db clock ticks].
  rewrite (update_one_by_id update i coll Hnd). fold f.
  rewrite (find_one_by_id_map f i coll st Hin Hoid Hnd Hf).
  assert (Hfst : f st = mk_stored i (update ∪ fields st)).
  { unfold f. rewrite decide_True by exact Hoid. rewrite Hoid. reflexivity. }
  rewrite Hfst. cbn [fields oid].
  unfold compute_entry in Hc. cbn [fields] in Hc. unfold w0 in Hc. rewrite Hc.
  replace (db w1) with (Some (List.map f coll)) by (rewrite Hd1; reflexivity).
  rewrite (update_one_by_id _ i (List.map f coll) (NoDup_map_oid f coll Hf Hnd)).
  rewrite Hc1. cbn [clock w0 ticks]. f_equal. f_equal. f_equal.
  rewrite List.map_map. apply map_ext. intros x. unfold f.
  destruct (decide (oid x = i)) as [E|E]; cbn [oid fields].
  - rewrite decide_True by exact E. reflexivity.
  - rewrite decide_False by exact E. reflexivity.
Qed.

(** C7 on the update path: a PATCH that sets [start_time] carries a JSON
    string; the string is written to the entry, [compute_worked_minutes]
    then raises on it, and the entry keeps its previous [worked_minutes]
    (450) next to the changed [start_time]. *)
Theorem update_time_entry_stale_worked_minutes :
  let payload : doc := {[ "start_time" := VStr "2024-03-01T10:00:00Z" ]} in
  fst (update_time_entry "65f0a1b2c3d4e5f601234567" payload sample_store)
  = Raise AttributeError /\
  db (snd (update_time_entry "65f0a1b2c3d4e5f601234567" payload sample_store))
  = Some [ mk_stored "65f0a1b2c3d4e5f601234567"
             (<["start_time" := VStr "2024-03-01T10:00:00Z"]> (fields sample_entry)) ] /\
  fields sample_entry !! "worked_minutes" = Some (VInt 450) /\
  (<["start_time" := VStr "2024-03-01T10:00:00Z"]> (fields sample_entry) : doc)
    !! "worked_minutes" = Some (VInt 450).
Proof.
  cbv zeta. split; [vm_compute; reflexivity|].
  split; [vm_compute; reflexivity|].
  split; vm_compute; reflexivity.
Qed.

(** ** [list_time_entries] *)

Lemma compute_worked_minutes_later (a b c : value) (w : world) :
  later w (snd (compute_worked_minutes a b c w)).
Proof.
  unfold compute_worked_minutes, now_utc. unfold_M.
  destruct b; cbn -[normalize_utc py_sub_dates int_minus];
    repeat match goal with
           | |- context [normalize_utc ?v] =>
               destruct (normalize_utc v); cbn -[normalize_utc py_sub_dates int_minus]
           | |- context [py_sub_dates ?x ?y] =>
               destruct (py_sub_dates x y); cbn -[normalize_utc py_sub_dates int_minus]
           | |- context [int_minus ?x ?y] =>
               destruct (int_minus x y); cbn -[normalize_utc py_sub_dates int_minus]
           end;
    try apply later_refl; try apply later_tick.
Qed.

Lemma get_view (st : stored) (k : string) :
  k <> "_id" -> get (<["_id" := VStr (oid st)]> (fields st)) k = get (fields st) k.
Proof. intros H. unfold get. rewrite lookup_insert_ne by congruence. reflexivity. Qed.

Lemma get_default_view (st : stored) (k : string) (v : value) :
  k <> "_id" ->
  get_default (<["_id" := VStr (oid st)]> (fields st)) k v = get_default (fields st) k v.
Proof. intros H. unfold get_default. rewrite lookup_insert_ne by congruence. reflexivity. Qed.

(** One pass of the loop: the live value when the computation succeeds,
    the stored [worked_minutes] (0 by default) when it raises. *)
Lemma live_entry_spec (st : stored) (w : world) :
  exists (worked : value) (w' : world),
    live_entry st w = (Ok (entry_view st worked), w') /\ later w w' /\
    ((exists m, compute_entry st w = (Ok m, w') /\ worked = VInt m) \/
     (exists e, compute_entry st w = (Raise e, w') /\
                worked = get_default (fields st) "worked_minutes" (VInt 0))).
Proof.
  unfold live_entry, entry_view. unfold_M.
  rewrite !get_view, !get_default_view by discriminate.
  fold (compute_entry st).
  pose proof (compute_worked_minutes_later (get (fields st) "start_time")
                (get (fields st) "end_time")
                (get_default (fields st) "break_minutes" (VInt 0)) w) as Hl.
  fold (compute_entry st) in Hl.
  destruct (compute_entry st w) as [[m|e] w'] eqn:Hc; cbn [snd] in Hl.
  - exists (VInt m), w'. split; [reflexivity|]. split; [exact Hl|]. left. eauto.
  - eexists _, w'. split; [reflexivity|]. split; [exact Hl|]. right. eauto.
Qed.

Lemma mapM_live_entry_spec (l : list stored) :
  forall w : world,
  exists (docs : list doc) (w' : world),
    mapM live_entry l w = (Ok docs, w') /\ later w w' /\
    Forall2 (fun st d => exists worked wi wi',
               d = entry_view st worked /\ later w wi /\
               ((exists m, compute_entry st wi = (Ok m, wi') /\ worked = VInt m) \/
                (exists e, compute_entry st wi = (Raise e, wi') /\
                           worked = get_default (fields st) "worked_minutes" (VInt 0))))
      l docs.
Proof.
  induction l as [|st t IH]; intros w.
  - exists [], w. split; [reflexivity|]. split; [apply later_refl|constructor].
  - destruct (live_entry_spec st w) as (worked & w1 & Hlive & Hl1 & Hw).
    destruct (IH w1) as (docs & w' & Hmap & Hl & Hall).
    exists (entry_view st worked :: docs), w'. split.
    + cbn [mapM]. unfold_M. rewrite Hlive, Hmap. reflexivity.
    + split; [eapply later_trans; eassumption|]. constructor.
      * exists worked, w, w1. split; [reflexivity|]. split; [apply later_refl|exact Hw].
      * eapply Forall2_impl; [exact Hall|].
        intros x y (wk & wi & wi' & Hy & Hli & Hc). exists wk, wi, wi'.
        split; [exact Hy|]. split; [eapply later_trans; eassumption|exact Hc].
Qed.

(** *** The sort *)

Section Sort.
Context {A : Type} (key : A -> value) (aware : bool).

Lemma py_lt_same_class (dx dy : datetime) :
  (if aware then is_Some (tzinfo dx) else tzinfo dx = None) ->
  (if aware then is_Some (tzinfo dy) else tzinfo dy = None) ->
  py_lt (VDate dx) (VDate dy) = Ok (instant dx <? instant dy).
Proof.
  cbn [py_lt]. destruct aware.
  - intros [ox ->] [oy ->]. reflexivity.
  - intros -> ->. reflexivity.
Qed.

Lemma insert_reverse_sorted (x : A) (l : list A) :
  key_class aware key x -> Forall (key_class aware key) l ->
  StronglySorted (key_ge key) l ->
  exists l', insert_reverse key x l = Ok l' /\ Permutation (x :: l) l' /\
             StronglySorted (key_ge key) l'.
Proof.
  intros (dx & Hx & Hxc). induction l as [|y t IH]; intros Hall Hs.
  - exists [x]. split; [reflexivity|]. split; [reflexivity|].
    repeat constructor.
  - apply Forall_cons_iff in Hall as [(dy & Hy & Hyc) Ht].
    apply StronglySorted_inv in Hs as [Hst Hyt].
    cbn [insert_reverse]. rewrite Hx, Hy.
    rewrite (py_lt_same_class dx dy Hxc Hyc).
    destruct (Z.ltb_spec (instant dx) (instant dy)) as [Hlt|Hge].
    + destruct (IH Ht Hst) as (t' & -> & Hperm & Hs').
      exists (y :: t'). split; [reflexivity|]. split.
      * rewrite perm_swap. constructor. exact Hperm.
      * constructor; [exact Hs'|].
        eapply Permutation_Forall; [exact Hperm|].
        constructor; [|exact Hyt].
        exists dy, dx. repeat split; try assumption. lia.
    + exists (x :: y :: t). split; [reflexivity|]. split; [reflexivity|].
      constructor; [constructor; assumption|].
      constructor.
      * exists dx, dy. repeat split; try assumption.
      * eapply Forall_impl; [exact Hyt|].
        intros z (ka & kb & Hka & Hkb & Hle). rewrite Hy in Hka. inversion Hka; subst ka.
        exists dx, kb. repeat split; try assumption. lia.
Qed.

Lemma list_sort_reverse_sorted (l : list A) :
  Forall (key_class aware key) l ->
  exists l', list_sort_reverse key l = Ok l' /\ Permutation l l' /\
             StronglySorted (key_ge key) l'.
Proof.
  induction l as [|x t IH]; intros Hall.
  - exists []. split; [reflexivity|]. split; [reflexivity|constructor].
  - apply Forall_cons_iff in Hall as [Hx Ht].
    destruct (IH Ht) as (t' & Hsort & Hperm & Hs).
    assert (Ht' : Forall (key_class aware key) t')
      by (eapply Permutation_Forall; eassumption).
    destruct (insert_reverse_sorted x t' Hx Ht' Hs) as (l' & Hins & Hperm' & Hs').
    exists l'. split; [cbn [list_sort_reverse]; rewrite Hsort; exact Hins|].
    split; [|exact Hs'].
    etransitivity; [|exact Hperm']. constructor. exact Hperm.
Qed.
End Sort.

Lemma start_time_key_view (st : stored) (worked : value) :
  start_time_key (entry_view st worked)
  = get_default (fields st) "start_time" (VDate datetime_min).
Proof.
  unfold start_time_key, entry_view, get_default.
  rewrite !lookup_insert_ne by discriminate. reflexivity.
Qed.

Lemma key_class_view (aware : bool) (st : stored) (worked : value) :
  start_class aware st -> key_class aware start_time_key (entry_view st worked).
Proof.
  intros H. unfold key_class. rewrite start_time_key_view. unfold get_default.
  destruct aware; cbn in H.
  - destruct H as (s & -> & Hs). exists s. split; [reflexivity|exact Hs].
  - destruct H as [->|(s & -> & Hs)]; cbn.
    + exists datetime_min. split; reflexivity.
    + exists s. split; [reflexivity|exact Hs].
Qed.

Lemma StronglySorted_suffix {A} (R : A -> A -> Prop) (l1 l2 : list A) :
  StronglySorted R (l1 ++ l2) -> StronglySorted R l2.
Proof.
  induction l1 as [|x t IH]; intros H; [exact H|].
  apply IH. apply StronglySorted_inv in H. tauto.
Qed.

(** C9 fails as stated: an entry without [start_time] is returned with the
    stored [worked_minutes], whatever it holds (7 or 8 here), because the
    live computation raises on it. *)
Lemma list_time_entries_fallback_counterexample :
  fst (list_time_entries None None (orphan_store 7))
  = Ok [ entry_view (orphan_entry 7) (VInt 7) ] /\
  fst (list_time_entries None None (orphan_store 8))
  = Ok [ entry_view (orphan_entry 8) (VInt 8) ] /\
  fst (compute_entry (orphan_entry 7) (orphan_store 7)) = Raise AttributeError /\
  fst (compute_entry (orphan_entry 8) (orphan_store 8)) = Raise AttributeError.
Proof. repeat split; vm_compute; reflexivity. Qed.

(** C9 (as amended): for a filter that parses, on a store whose start
    times sort together (all naive datetimes or missing, or all
    offset-aware datetimes), the listing returns one document
    per matching entry, sorted by [start_time] in descending order with the
    entries lacking a [start_time] keyed by [datetime.min] and therefore
    last; [worked_minutes] is recomputed live where
    [compute_worked_minutes] succeeds and is the stored [worked_minutes]
    (0 when absent) where it raises; the store is only read. *)
Theorem list_time_entries_spec
  (month client_id : option string) (flt : query) (w : world) (coll : list stored)
  (aware : bool) :
  db w = Some coll ->
  build_filter month client_id = Ok flt ->
  Forall (start_class aware) coll ->
  exists (docs out : list doc) (w' : world),
    list_time_entries month client_id w = (Ok out, w') /\
    db w' = Some coll /\
    Forall2 (fun st d => exists worked wi wi',
               d = entry_view st worked /\ later w wi /\
               ((exists m, compute_entry st wi = (Ok m, wi') /\ worked = VInt m) \/
                (exists e, compute_entry st wi = (Raise e, wi') /\
                           worked = get_default (fields st) "worked_minutes" (VInt 0))))
      (find flt coll) docs /\
    Permutation docs out /\
    StronglySorted (key_ge start_time_key) out /\
    (forall l1 a l2, out = l1 ++ a :: l2 -> a !! "start_time" = None ->
       Forall (fun b => exists kb, start_time_key b = VDate kb /\
                          instant kb <= instant datetime_min) l2).
Proof.
  intros Hdb Hflt Hnaive.
  destruct (mapM_live_entry_spec (find flt coll) w) as (docs & w' & Hmap & Hl & Hall).
  assert (Hkeys : Forall (key_class aware start_time_key) docs).
  { assert (Hn : Forall (start_class aware) (find flt coll)).
    { apply Forall_forall. intros x Hx. rewrite Forall_forall in Hnaive.
      apply Hnaive. apply list_elem_of_In. apply list_elem_of_In in Hx.
      unfold find in Hx. apply filter_In in Hx. tauto. }
    clear -Hall Hn. induction Hall as [|st d l l' (wk & wi & wi' & -> & _) _ IH].
    - constructor.
    - apply Forall_cons_iff in Hn as [Hst Hn]. constructor; [|apply IH; exact Hn].
      apply key_class_view. exact Hst. }
  destruct (list_sort_reverse_sorted start_time_key aware docs Hkeys)
    as (out & Hsort & Hperm & Hsorted).
  exists docs, out, w'. split.
  - unfold list_time_entries, get_documents. unfold_M. rewrite Hflt, Hdb, Hmap, Hsort.
    reflexivity.
  - split; [destruct Hl as (_ & -> & _); exact Hdb|].
    split; [exact Hall|]. split; [exact Hperm|]. split; [exact Hsorted|].
    intros l1 a l2 -> Ha.
    apply StronglySorted_suffix in Hsorted.
    apply StronglySorted_inv in Hsorted as [_ Hlast].
    eapply Forall_impl; [exact Hlast|].
    intros b (ka & kb & Hka & Hkb & Hle). exists kb. split; [exact Hkb|].
    unfold start_time_key, get_default in Hka. rewrite Ha in Hka. cbn in Hka.
    inversion Hka; subst ka. exact Hle.
Qed.

(** ** Worked examples *)

(** A running entry started at 09:00, read at 09:10. *)
Example compute_worked_minutes_running_example :
  compute_worked_minutes (VDate (mk_datetime 2024 3 1 9 0 0 0 UTC)) VNone (VInt 0)
    sample_world
  = (Ok 10, tick sample_world).
Proof. vm_compute. reflexivity. Qed.

(** A naive start against an aware end: the naive one is read as UTC. *)
Example compute_worked_minutes_mixed_example :
  fst (compute_worked_minutes (VDate (mk_datetime 2024 3 1 9 0 0 0 None))
         (VDate (mk_datetime 2024 3 1 12 0 0 0 (Some 7200000000))) (VInt 0)
         sample_world)
  = Ok 60.
Proof. vm_compute. reflexivity. Qed.

(** The ranges on 2024-01-15: the previous month is December 2023. *)
Example summary_ranges_january :
  summary_ranges (mk_datetime 2024 1 15 13 5 6 7 UTC)
  = Ok [ ("today", (midnight 2024 1 15 UTC, midnight 2024 1 16 UTC));
         ("week", (midnight 2024 1 15 UTC, midnight 2024 1 22 UTC));
         ("month", (midnight 2024 1 1 UTC, midnight 2024 2 1 UTC));
         ("prev_month", (midnight 2023 12 1 UTC, midnight 2024 1 1 UTC)) ].
Proof. vm_compute. reflexivity. Qed.

(** On Wednesday 2024-03-13 the week runs from Monday to Monday, whatever
    the time of day. *)
Example summary_ranges_wednesday :
  forall h, In h [0; 12; 23] ->
    exists rs, summary_ranges (mk_datetime 2024 3 13 h 30 0 0 UTC) = Ok rs /\
               In ("week", (midnight 2024 3 11 UTC, midnight 2024 3 18 UTC)) rs.
Proof.
  intros h [<-|[<-|[<-|[]]]]; eexists; (split; [vm_compute; reflexivity|]);
    right; left; reflexivity.
Qed.

(** In January of year 1 there is no previous month, in December of year
    9999 no next month: the constructor raises. *)
Example summary_ranges_first_month :
  summary_ranges (mk_datetime 1 1 15 12 0 0 0 UTC) = Raise ValueError.
Proof. vm_compute. reflexivity. Qed.

Example summary_ranges_last_month :
  summary_ranges (mk_datetime 9999 12 15 12 0 0 0 UTC) = Raise ValueError.
Proof. vm_compute. reflexivity. Qed.

(** The [month] parameter. *)
Example month_range_december :
  month_range "2024-12" = Ok (midnight 2024 12 1 UTC, midnight 2025 1 1 UTC).
Proof. vm_compute. reflexivity. Qed.

Example month_range_invalid :
  month_range "2024-13" = Raise invalid_month /\
  month_range "2024" = Raise invalid_month /\
  month_range "2024-03-01" = Raise invalid_month.
Proof. repeat split; vm_compute; reflexivity. Qed.

(** Of the two running entries the one started at 09:05 is stopped. *)
Example punch_stop_latest_example :
  db (snd (punch_stop running_store))
  = Some [ running_0900; stopped running_0905 sample_now 5 ].
Proof. vm_compute. reflexivity. Qed.

(** Without a database object every guarded endpoint answers 500. *)
Example punch_stop_without_db :
  fst (punch_stop (mk_world (fun _ => sample_now) 0 None))
  = Raise (HTTPException 500 "Database not available").
Proof. vm_compute. reflexivity. Qed.

(** A change of [break_minutes] alone is stored with the recomputed
    minutes. *)
Example update_time_entry_break_example :
  db (snd (update_time_entry "65f0a1b2c3d4e5f601234567" {[ "break_minutes" := VInt 60 ]}
             sample_store))
  = Some [ mk_stored "65f0a1b2c3d4e5f601234567"
             (<["worked_minutes" := VInt 420]>
                (<["break_minutes" := VInt 60]> (fields sample_entry))) ].
Proof. vm_compute. reflexivity. Qed.

(** ** The theorems at sample inputs *)

Lemma compute_worked_minutes_normalizes_witness :
  exists (s' e' : datetime) (td : Z),
    normalize_utc (VDate (mk_datetime 2024 3 1 9 0 0 0 None)) = Ok (VDate s') /\
    normalize_utc (VDate (default (clock sample_world (ticks sample_world)) None))
    = Ok (VDate e') /\
    same_clock_fields (mk_datetime 2024 3 1 9 0 0 0 None) s' /\
    same_clock_fields (default (clock sample_world (ticks sample_world)) None) e' /\
    (tzinfo (mk_datetime 2024 3 1 9 0 0 0 None) = None -> tzinfo s' = UTC) /\
    (tzinfo (default (clock sample_world (ticks sample_world)) None) = None ->
     tzinfo e' = UTC) /\
    (is_Some (tzinfo (mk_datetime 2024 3 1 9 0 0 0 None)) ->
     s' = mk_datetime 2024 3 1 9 0 0 0 None) /\
    (is_Some (tzinfo (default (clock sample_world (ticks sample_world)) None)) ->
     e' = default (clock sample_world (ticks sample_world)) None) /\
    is_Some (tzinfo s') /\ is_Some (tzinfo e') /\
    datetime_sub e' s' = Ok td /\
    fst (compute_worked_minutes (VDate (mk_datetime 2024 3 1 9 0 0 0 None))
           (opt_date None) (VInt 0) sample_world)
    = match int_minus (float_floordiv_int (total_seconds td) 60) (or_zero (VInt 0)) with
      | Ok r => Ok (Z.max 0 r)
      | Raise x => Raise x
      end.
Proof.
  apply (compute_worked_minutes_normalizes
           (mk_datetime 2024 3 1 9 0 0 0 None) None (VInt 0) sample_world).
  - vm_compute. reflexivity.
  - vm_compute. reflexivity.
Defined.

Lemma summary_ranges_spec_witness :
  exists today_end week_start week_end : datetime,
    summary_ranges sample_now
    = Ok [ ("today", (midnight 2024 3 1 UTC, today_end));
           ("week", (week_start, week_end));
           ("month", (midnight 2024 3 1 UTC, midnight 2024 4 1 UTC));
           ("prev_month", (midnight 2024 2 1 UTC, midnight 2024 3 1 UTC)) ] /\
    midnight_of_ordinal today_end (toordinal sample_now + 1) UTC /\
    midnight_of_ordinal week_start (toordinal sample_now - weekday sample_now) UTC /\
    weekday week_start = 0 /\
    midnight_of_ordinal week_end (toordinal sample_now - weekday sample_now + 7) UTC.
Proof.
  destruct (summary_ranges_spec sample_now) as (te & ws & we & H).
  - vm_compute. reflexivity.
  - vm_compute. intros [H _]. discriminate H.
  - vm_compute. intros [H _]. discriminate H.
  - exists te, ws, we. cbv zeta in H.
    destruct H as (H1 & H2 & _ & _ & H5 & _ & H7 & H8 & _).
    split; [exact H1|]. split; [exact H2|]. split; [exact H5|].
    split; [exact H7|exact H8].
Defined.

Lemma summary_ranges_nesting_witness :
  exists today week month_ prev_month : datetime * datetime,
    summary_ranges sample_now
    = Ok [ ("today", today); ("week", week); ("month", month_);
           ("prev_month", prev_month) ] /\
    (forall t, in_range month_ t = true -> in_range prev_month t = false) /\
    (forall t, in_range today t = true ->
               in_range week t = true /\ in_range month_ t = true).
Proof.
  apply (summary_ranges_nesting sample_now).
  - vm_compute. reflexivity.
  - vm_compute. intros [H _]. discriminate H.
  - vm_compute. intros [H _]. discriminate H.
Defined.

Lemma sample_entry_well_typed : well_typed sample_entry.
Proof.
  split; [|split].
  - exists (mk_datetime 2024 3 1 9 0 0 0 None). split; vm_compute; reflexivity.
  - right. exists (mk_datetime 2024 3 1 17 0 0 0 None). split; vm_compute; reflexivity.
  - exists 30. vm_compute. reflexivity.
Defined.

Lemma get_summary_sums_witness :
  exists (result : gmap string Z) (w' : world)
         (rs : list (string * (datetime * datetime))),
    get_summary sample_store = (Ok result, w') /\
    summary_ranges (clock sample_store (ticks sample_store)) = Ok rs /\
    db w' = Some [sample_entry] /\
    (forall k, is_Some (result !! k) <-> In k ["today"; "week"; "month"; "prev_month"]) /\
    (forall key r, In (key, r) rs ->
       in_range r (fst r) = true /\ in_range r (snd r) = false /\
       exists ms,
         result !! key = Some (sum_list ms) /\ 0 <= sum_list ms /\
         Forall2 (fun st m => exists wi wi', later sample_store wi /\
                    compute_entry st wi = (Ok m, wi') /\ 0 <= m)
           (List.filter (starts_in r) [sample_entry]) ms).
Proof.
  apply (get_summary_sums sample_store [sample_entry]).
  - reflexivity.
  - intros t. vm_compute. reflexivity.
  - vm_compute. intros [H _]. discriminate H.
  - vm_compute. intros [H _]. discriminate H.
  - constructor; [exact sample_entry_well_typed|constructor].
Defined.

Lemma running_store_well_typed : Forall well_typed [running_0900; running_0905].
Proof.
  constructor; [|constructor; [|constructor]].
  - split; [|split].
    + exists (mk_datetime 2024 3 1 9 0 0 0 None). split; vm_compute; reflexivity.
    + left. vm_compute. reflexivity.
    + exists 0. vm_compute. reflexivity.
  - split; [|split].
    + exists (mk_datetime 2024 3 1 9 5 0 0 None). split; vm_compute; reflexivity.
    + left. vm_compute. reflexivity.
    + exists 0. vm_compute. reflexivity.
Defined.

Lemma running_store_ids : NoDup (List.map oid [running_0900; running_0905]).
Proof.
  constructor; [|constructor; [|constructor]].
  - intros H. apply list_elem_of_In in H. destruct H as [H|[]]. discriminate H.
  - intros H. apply list_elem_of_In in H. destruct H.
Defined.

Lemma punch_stop_spec_witness :
  exists (st : stored) (s : datetime) (worked : Z),
    In st [running_0900; running_0905] /\ is_running st = true /\
    fields st !! "start_time" = Some (VDate s) /\
    (forall st' s', In st' [running_0900; running_0905] -> is_running st' = true ->
       fields st' !! "start_time" = Some (VDate s') -> instant s' <= instant s) /\
    compute_worked_minutes (VDate s) (VDate (clock running_store (ticks running_store)))
      (get_default (fields st) "break_minutes" (VInt 0)) (tick running_store)
    = (Ok worked, tick running_store) /\
    punch_stop running_store
    = (Ok (<["worked_minutes" := VInt worked]>
             (<["_id" := VStr (oid st)]>
                (fields (stopped st (clock running_store (ticks running_store)) worked)))),
       mk_world (clock running_store) (S (ticks running_store))
         (Some (List.map (fun x => if decide (oid x = oid st)
                                   then stopped x (clock running_store (ticks running_store))
                                          worked
                                   else x) [running_0900; running_0905]))).
Proof.
  apply (punch_stop_spec running_store [running_0900; running_0905]).
  - reflexivity.
  - vm_compute. reflexivity.
  - exact running_store_well_typed.
  - exact running_store_ids.
Defined.

Lemma update_time_entry_sanitizes_witness :
  ((forall k, k ∈ allowed -> ({[ "worked_minutes" := VInt 1 ]} : doc) !! k = None) ->
   update_time_entry "not-an-id" {[ "worked_minutes" := VInt 1 ]} sample_store
   = (Raise (HTTPException 400 "No valid fields to update"), sample_store)) /\
  update_time_entry "not-an-id" {[ "worked_minutes" := VInt 1 ]} sample_store
  = update_time_entry "not-an-id"
      (filter (fun kv => fst kv ∈ allowed) ({[ "worked_minutes" := VInt 1 ]} : doc))
      sample_store /\
  (forall k, k ∉ allowed ->
     (filter (fun kv => fst kv ∈ allowed) ({[ "worked_minutes" := VInt 1 ]} : doc) : doc)
       !! k = None).
Proof.
  apply (update_time_entry_sanitizes "not-an-id" {[ "worked_minutes" := VInt 1 ]}
           sample_store [sample_entry]).
  reflexivity.
Defined.

Lemma list_time_entries_spec_witness :
  exists (docs out : list doc) (w' : world),
    list_time_entries None None sample_store = (Ok out, w') /\
    db w' = Some [sample_entry] /\
    Forall2 (fun st d => exists worked wi wi',
               d = entry_view st worked /\ later sample_store wi /\
               ((exists m, compute_entry st wi = (Ok m, wi') /\ worked = VInt m) \/
                (exists e, compute_entry st wi = (Raise e, wi') /\
                           worked = get_default (fields st) "worked_minutes" (VInt 0))))
      (find [] [sample_entry]) docs /\
    Permutation docs out /\
    StronglySorted (key_ge start_time_key) out /\
    (forall l1 a l2, out = l1 ++ a :: l2 -> a !! "start_time" = None ->
       Forall (fun b => exists kb, start_time_key b = VDate kb /\
                          instant kb <= instant datetime_min) l2).
Proof.
  apply (list_time_entries_spec None None [] sample_store [sample_entry] false).
  - reflexivity.
  - reflexivity.
  - constructor; [|constructor].
    right. exists (mk_datetime 2024 3 1 9 0 0 0 None). split; vm_compute; reflexivity.
Defined.
(** * Further properties of the helpers and endpoints *)

(** ** [to_object_id] *)








(** ** [compute_worked_minutes] *)

(** X2: whatever the arguments and whether or not it raises,
    [compute_worked_minutes] leaves the store as it is; it reads the clock
    exactly once when the end is [None] and not at all otherwise. *)
Theorem compute_worked_minutes_effects (start end_ break_minutes : value) (w : world) :
  snd (compute_worked_minutes start end_ break_minutes w)
  = match end_ with VNone => tick w | _ => w end.
Proof.
  unfold compute_worked_minutes, now_utc, tick. unfold_M.
  destruct end_; cbn -[normalize_utc py_sub_dates int_minus];
    repeat match goal with
           | |- context [normalize_utc ?v] =>
               destruct (normalize_utc v); cbn -[normalize_utc py_sub_dates int_minus]
           | |- context [py_sub_dates ?x ?y] =>
               destruct (py_sub_dates x y); cbn -[normalize_utc py_sub_dates int_minus]
           | |- context [int_minus ?x ?y] =>
               destruct (int_minus x y); cbn -[normalize_utc py_sub_dates int_minus]
           end;
    try reflexivity; destruct w; reflexivity.
Qed.

(** X3: on well-formed datetimes over the whole range of the calendar the
    result is within one minute of the exact formula: it lies between
    [max(0, floor(seconds / 60) - break)] and that value plus one. *)
Theorem compute_worked_minutes_within_a_minute
  (s : datetime) (eo : option datetime) (b : Z) (w : world) :
  check_fields s = true ->
  check_fields (default (clock w (ticks w)) eo) = true ->
  exists r : Z,
    fst (compute_worked_minutes (VDate s) (opt_date eo) (VInt b) w) = Ok r /\
    Z.max 0 (elapsed_whole_minutes s (default (clock w (ticks w)) eo) - b) <= r /\
    r <= Z.max 0 (elapsed_whole_minutes s (default (clock w (ticks w)) eo) + 1 - b).
Proof.
  intros Hs He.
  rewrite (compute_worked_minutes_resolved s eo (VInt b) w Hs He).
  rewrite worked_between_int. cbn [fst].
  set (e := default (clock w (ticks w)) eo) in *.
  eexists. split; [reflexivity|].
  pose proof (float_minutes_bounds (instant e - instant s)
                (instant_diff_bound e s He Hs)) as Hf.
  unfold elapsed_whole_minutes. lia.
Qed.

(** X4: for spans below 2^34 seconds the result never decreases when the
    end moves later, so the minutes of a running entry never go backwards
    between two readings of a clock that does not go backwards. *)
Theorem compute_worked_minutes_monotone
  (s e1 e2 : datetime) (b : Z) (w1 w2 : world) :
  check_fields s = true -> check_fields e1 = true -> check_fields e2 = true ->
  instant e1 <= instant e2 ->
  Z.abs (instant e1 - instant s) < 2 ^ 34 * 1000000 ->
  Z.abs (instant e2 - instant s) < 2 ^ 34 * 1000000 ->
  exists r1 r2 : Z,
    compute_worked_minutes (VDate s) (VDate e1) (VInt b) w1 = (Ok r1, w1) /\
    compute_worked_minutes (VDate s) (VDate e2) (VInt b) w2 = (Ok r2, w2) /\
    r1 <= r2.
Proof.
  intros Hs H1 H2 Hle Hb1 Hb2.
  rewrite !compute_worked_minutes_dates, !worked_between_int by assumption.
  rewrite !float_minutes_exact by assumption.
  do 2 eexists. split; [reflexivity|]. split; [reflexivity|].
  assert ((instant e1 - instant s) / 60000000 <= (instant e2 - instant s) / 60000000)
    by (apply Z.div_le_mono; lia).
  lia.
Qed.

(** X5: the result depends on the two datetimes only through the
    instants they denote, a naive datetime being read as UTC: the same
    instants written in other time zones give the same result. *)
Theorem compute_worked_minutes_instant_only
  (s s' e e' : datetime) (bv : value) (w : world) :
  check_fields s = true -> check_fields s' = true ->
  check_fields e = true -> check_fields e' = true ->
  instant s = instant s' -> instant e = instant e' ->
  compute_worked_minutes (VDate s) (VDate e) bv w
  = compute_worked_minutes (VDate s') (VDate e') bv w.
Proof.
  intros Hs Hs' He He' Es Ee.
  rewrite !compute_worked_minutes_dates by assumption.
  unfold worked_between. rewrite Es, Ee. reflexivity.
Qed.


(** ** [list_time_entries]: the filter *)

Lemma matches_cond_range (s e : datetime) (st : stored) :
  matches_cond (CRange (VDate s) (VDate e)) (lookup_field st "start_time")
  = starts_in (s, e) st.
Proof.
  unfold starts_in, lookup_field. cbn.
  destruct (fields st !! "start_time") as [[| | |d|]|]; cbn; try reflexivity.
  unfold in_range, same_type. cbn.
  rewrite (Z.compare_antisym (instant s) (instant d)).
  unfold Z.leb, Z.ltb.
  destruct (instant s ?= instant d); destruct (instant d ?= instant e); reflexivity.
Qed.

Lemma matches_cond_client (c : string) (st : stored) :
  matches_cond (CEq (VStr c)) (lookup_field st "client_id")
  = bool_decide (fields st !! "client_id" = Some (VStr c)).
Proof.
  unfold lookup_field. cbn.
  destruct (fields st !! "client_id") as [[| |c'| |]|]; cbn;
    try (symmetry; apply bool_decide_eq_false; congruence).
  unfold same_type. cbn.
  destruct (is_eq (String.compare c' c)) eqn:E.
  - apply string_compare_eq in E. subst. symmetry. apply bool_decide_eq_true. reflexivity.
  - symmetry. apply bool_decide_eq_false. intros H. injection H as ->.
    assert (is_eq (String.compare c c) = true) by (apply string_compare_eq; reflexivity).
    congruence.
Qed.

(** X7: an accepted [month] is "Y-M" for ints [1 <= Y <= 9999] and
    [1 <= M <= 12] other than 9999-12; its range starts at midnight UTC on
    the first of that month, ends at midnight UTC on the first of the
    following month (January of the next year after December), and spans
    exactly the days of the month. *)
Theorem month_range_spec (m : string) (s e : datetime) :
  month_range m = Ok (s, e) ->
  exists y mon : Z,
    List.map py_int (split_on "-" m) = [Some y; Some mon] /\
    1 <= y <= 9999 /\ 1 <= mon <= 12 /\ ~ (y = 9999 /\ mon = 12) /\
    s = midnight y mon 1 UTC /\
    e = (if mon =? 12 then midnight (y + 1) 1 1 UTC else midnight y (mon + 1) 1 UTC) /\
    check_fields s = true /\ check_fields e = true /\
    instant e - instant s = timedelta_days (days_in_month y mon).
Proof.
  unfold month_range. intros H.
  destruct (List.map py_int (split_on "-" m)) as [|[y|] [|[mon|] [|? ?]]] eqn:E;
    try discriminate.
  unfold new_datetime in H.
  destruct (check_fields (mk_datetime y mon 1 0 0 0 0 UTC)) eqn:C1; [|discriminate].
  destruct (check_fields _) eqn:C2 in H; [|discriminate].
  injection H as <- <-.
  exists y, mon. split; [reflexivity|].
  pose proof (check_fields_spec _ C1) as (Hy & Hm & _). cbn in Hy, Hm.
  pose proof (check_fields_spec _ C2) as (Hy2 & _). cbn in Hy2.
  split; [lia|]. split; [lia|]. split.
  { intros [-> ->]. cbn in Hy2. lia. }
  split; [reflexivity|].
  assert (Hi : forall a b c, instant (mk_datetime a b c 0 0 0 0 UTC)
                             = ymd2ord a b c * 86400000000 - 0).
  { intros a b c. exact (instant_of_midnight a b c UTC). }
  destruct (Z.eqb_spec mon 12) as [Heq|Hne].
  - split; [reflexivity|]. split; [exact C1|]. split; [exact C2|].
    rewrite !Hi. subst mon. rewrite ymd2ord_year_start.
    unfold timedelta_days.
    replace (days_in_month y 12) with 31 by reflexivity. lia.
  - rewrite Z.add_0_r in *.
    split; [reflexivity|]. split; [exact C1|]. split; [exact C2|].
    rewrite !Hi.
    rewrite ymd2ord_month_start by lia. unfold timedelta_days. lia.
Qed.

Lemma month_range_raises (m : string) (e : exn) :
  month_range m = Raise e -> e = invalid_month.
Proof.
  unfold month_range.
  destruct (List.map py_int (split_on "-" m)) as [|[y|] [|[mon|] [|? ?]]];
    try (intros [= <-]; reflexivity).
  destruct (new_datetime _); [|intros [= <-]; reflexivity].
  destruct (new_datetime _); [discriminate|intros [= <-]; reflexivity].
Qed.

Lemma build_filter_raises (month client_id : option string) (e : exn) :
  build_filter month client_id = Raise e ->
  e = invalid_month /\ exists m, month = Some m /\ month_range m = Raise invalid_month.
Proof.
  unfold build_filter. destruct month as [m|]; [|discriminate].
  destruct (String.eqb m EmptyString); [discriminate|].
  destruct (month_range m) as [r|e'] eqn:E; cbn; [discriminate|].
  intros [= <-]. pose proof (month_range_raises _ _ E) as ->. eauto.
Qed.

(** X8: a [month] that is not accepted gives HTTP 400 "Invalid month
    format; expected YYYY-MM" and no other exception; the request fails
    before the store is consulted (also when the store is unavailable) and
    the world is unchanged. *)
Theorem list_time_entries_invalid_month
  (month client_id : option string) (e : exn) (w : world) :
  build_filter month client_id = Raise e ->
  e = invalid_month /\
  list_time_entries month client_id w = (Raise invalid_month, w).
Proof.
  intros H. pose proof (build_filter_raises _ _ _ H) as [-> _].
  split; [reflexivity|].
  unfold list_time_entries. unfold_M. rewrite H. reflexivity.
Qed.

(** X9: the filter selects exactly the entries of the given client that
    start in the given month; an absent or empty parameter does not
    restrict the selection. *)
Theorem build_filter_selects
  (month client_id : option string) (flt : query) (st : stored) :
  build_filter month client_id = Ok flt ->
  matches flt st = client_selects client_id st && month_selects month st.
Proof.
  unfold build_filter, client_selects, month_selects. intros H.
  assert (Hc : forall c, matches [("client_id", CEq (VStr c))] st
                         = bool_decide (fields st !! "client_id" = Some (VStr c))).
  { intros c. unfold matches. cbn [forallb fst snd].
    rewrite matches_cond_client, andb_true_r. reflexivity. }
  assert (Happ : forall q r, matches (q ++ [("start_time", CRange (VDate (fst r)) (VDate (snd r)))]) st
                         = matches q st && starts_in r st).
  { intros q r. unfold matches. rewrite forallb_app. cbn [forallb fst snd].
    rewrite matches_cond_range, andb_true_r. destruct r; reflexivity. }
  destruct month as [m|].
  - destruct (String.eqb m EmptyString).
    + injection H as <-. rewrite andb_true_r.
      destruct client_id as [c|]; [|reflexivity].
      destruct (String.eqb c EmptyString); [reflexivity|apply Hc].
    + destruct (month_range m) as [r|]; cbn in H; [|discriminate].
      injection H as <-. rewrite Happ. f_equal.
      destruct client_id as [c|]; [|reflexivity].
      destruct (String.eqb c EmptyString); [reflexivity|apply Hc].
  - injection H as <-. rewrite andb_true_r.
    destruct client_id as [c|]; [|reflexivity].
    destruct (String.eqb c EmptyString); [reflexivity|apply Hc].
Qed.

(** ** [list_time_entries]: effects and order *)

(** X10: the listing never writes: whatever the parameters and the stored
    documents, and whether or not it raises, the store and the clock
    function are unchanged. *)
Theorem list_time_entries_read_only (month client_id : option string) (w : world) :
  later w (snd (list_time_entries month client_id w)).
Proof.
  unfold list_time_entries, get_documents. unfold_M.
  destruct (build_filter month client_id) as [flt|]; [|apply later_refl].
  destruct (db w) as [coll|]; [|apply later_refl].
  destruct (mapM_live_entry_spec (find flt coll) w) as (docs & w' & Hm & Hl & _).
  rewrite Hm. destruct (list_sort_reverse start_time_key docs); exact Hl.
Qed.

Section Stable.
Context {A : Type} (key : A -> value) (k : value).



End Stable.


(** ** [update_time_entry] *)

Lemma world_eta (w : world) (coll : list stored) :
  db w = Some coll -> mk_world (clock w) (ticks w) (Some coll) = w.
Proof. destruct w. cbn. intros ->. reflexivity. Qed.

Lemma update_one_no_match (q : query) (upd : doc) (coll : list stored) :
  find q coll = [] -> update_one q upd coll = coll.
Proof.
  unfold find. induction coll as [|st t IH]; [reflexivity|].
  cbn [List.filter update_one]. destruct (matches q st); [discriminate|].
  intros H. rewrite (IH H). reflexivity.
Qed.

Lemma find_by_id_absent (i : string) (coll : list stored) :
  (forall st, In st coll -> oid st <> i) -> find (by_id i) coll = [].
Proof.
  unfold find. induction coll as [|st t IH]; intros H; [reflexivity|].
  cbn [List.filter]. rewrite matches_by_id.
  rewrite decide_False by (apply H; left; reflexivity).
  apply IH. intros x Hx. apply H. right. exact Hx.
Qed.


(** X13: with a valid field in the payload and a well-formed identifier
    that no stored entry has, the answer is HTTP 404 "Time entry not found"
    and the world is unchanged. *)
Theorem update_time_entry_not_found
  (entry_id i : string) (payload : doc) (w : world) (coll : list stored) :
  db w = Some coll ->
  (filter (fun kv => fst kv ∈ allowed) payload : doc) <> ∅ ->
  to_object_id entry_id = Ok i ->
  (forall st, In st coll -> oid st <> i) ->
  update_time_entry entry_id payload w
  = (Raise (HTTPException 404 "Time entry not found"), w).
Proof.
  intros Hdb Hne Hid Habs.
  unfold update_time_entry, require_db. unfold_M. rewrite Hdb.
  rewrite decide_False by exact Hne. unfold_M. rewrite Hid.
  unfold db_update_one, db_find_one, timeentry, set_timeentry. unfold_M.
  rewrite Hdb. cbn [db clock ticks].
  rewrite (update_one_no_match _ _ _ (find_by_id_absent i coll Habs)).
  unfold find_one. rewrite (find_by_id_absent i coll Habs). cbn [head].
  rewrite (world_eta w coll Hdb). reflexivity.
Qed.

Lemma Forall2_same {A} (R : A -> A -> Prop) (l : list A) :
  (forall a, R a a) -> Forall2 R l l.
Proof. intros H. induction l; constructor; auto. Qed.

Lemma Forall2_compose {A} (P Q R : A -> A -> Prop) (l1 l2 l3 : list A) :
  (forall a b c, P a b -> Q b c -> R a c) ->
  Forall2 P l1 l2 -> Forall2 Q l2 l3 -> Forall2 R l1 l3.
Proof.
  intros H H12. revert l3. induction H12; intros l3 H23; inversion H23; subst;
    constructor; eauto.
Qed.

Lemma update_one_frame (i : string) (upd : doc) (coll : list stored) :
  Forall2 (fun a b => oid b = oid a /\ (oid a <> i -> b = a) /\
                      (forall k, upd !! k = None -> fields b !! k = fields a !! k))
    coll (update_one (by_id i) upd coll).
Proof.
  induction coll as [|st t IH]; [constructor|].
  cbn [update_one]. rewrite matches_by_id.
  destruct (decide (oid st = i)) as [E|E].
  - constructor.
    + cbn [oid fields]. split; [reflexivity|]. split; [congruence|].
      intros k Hk. apply lookup_union_r. exact Hk.
    + apply Forall2_same. auto.
  - constructor; [auto|exact IH].
Qed.

(** X14: whatever the identifier and the payload, and whether the call
    succeeds or fails at any step, the collection keeps its entries in
    place with their ids; an entry with another id is untouched, and in the
    addressed entry only the allowed fields and [worked_minutes] can
    change.  The clock is never set. *)
Theorem update_time_entry_frame
  (entry_id : string) (payload : doc) (w : world) (coll : list stored) :
  db w = Some coll ->
  exists coll' : list stored,
    db (snd (update_time_entry entry_id payload w)) = Some coll' /\
    clock (snd (update_time_entry entry_id payload w)) = clock w /\
    Forall2 (fun a b =>
               oid b = oid a /\
               (to_object_id entry_id <> Ok (oid a) -> b = a) /\
               (forall k, k ∉ allowed -> k <> "worked_minutes" ->
                          fields b !! k = fields a !! k))
      coll coll'.
Proof.
  intros Hdb.
  set (R := fun a b : stored =>
              oid b = oid a /\
              (to_object_id entry_id <> Ok (oid a) -> b = a) /\
              (forall k, k ∉ allowed -> k <> "worked_minutes" ->
                         fields b !! k = fields a !! k)).
  assert (Hrefl : Forall2 R coll coll) by (apply Forall2_same; unfold R; auto).
  unfold update_time_entry, require_db. unfold_M. rewrite Hdb.
  set (update := (filter (fun kv => fst kv ∈ allowed) payload : doc)).
  destruct (decide (update = ∅)) as [|Hne]; [exists coll; cbn [snd]; auto|].
  unfold_M. destruct (to_object_id entry_id) as [i|] eqn:Hid;
    [|exists coll; cbn [snd]; auto].
  unfold db_update_one, db_find_one, timeentry, set_timeentry. unfold_M.
  rewrite Hdb. cbn [db clock ticks].
  set (c1 := update_one (by_id i) update coll).
  assert (H1 : Forall2 R coll c1).
  { eapply Forall2_impl; [apply update_one_frame|].
    intros a b (Ho & Hother & Hk). split; [exact Ho|]. split.
    - intros Hn. apply Hother. congruence.
    - intros k Hk1 _. apply Hk. unfold update. rewrite sanitize_lookup.
      rewrite decide_False by exact Hk1. reflexivity. }
  destruct (find_one (by_id i) c1) as [st|]; [|exists c1; cbn [snd db clock]; auto].
  set (w0 := mk_world (clock w) (ticks w) (Some c1)).
  pose proof (compute_worked_minutes_later (get (fields st) "start_time")
                (get (fields st) "end_time")
                (get_default (fields st) "break_minutes" (VInt 0)) w0) as Hl.
  destruct (compute_worked_minutes _ _ _ w0) as [[worked|e] w2]; cbn [snd] in Hl;
    destruct Hl as (Hc & Hd & _); cbn [clock db w0] in Hc, Hd.
  - rewrite Hd. cbn [snd db clock].
    eexists. split; [reflexivity|]. split; [exact Hc|].
    eapply Forall2_compose; [|exact H1|apply update_one_frame].
    intros a b c (Ho & Hother & Hk) (Ho' & Hother' & Hk').
    split; [congruence|]. split.
    + intros Hn. rewrite <- (Hother Hn). apply Hother'. rewrite Ho. congruence.
    + intros k Hk1 Hk2. rewrite <- (Hk k Hk1 Hk2). apply Hk'.
      apply lookup_singleton_ne. congruence.
  - exists c1. cbn [snd]. auto.
Qed.

(** X15: when the addressed entry is well typed after the change, the
    call succeeds and the store holds, for that entry, the changed fields
    together with a [worked_minutes] that is the value
    [compute_worked_minutes] gives on the entry as stored; the response
    carries the same number. *)
Theorem update_time_entry_stores_recomputed
  (entry_id i : string) (payload : doc) (w : world) (coll : list stored) (st : stored) :
  db w = Some coll ->
  NoDup (List.map oid coll) ->
  to_object_id entry_id = Ok i ->
  In st coll -> oid st = i ->
  (filter (fun kv => fst kv ∈ allowed) payload : doc) <> ∅ ->
  well_typed (mk_stored i ((filter (fun kv => fst kv ∈ allowed) payload : doc) ∪ fields st)) ->
  (forall t, check_fields (clock w t) = true) ->
  exists (worked : Z) (w1 w' : world) (coll' : list stored) (st' : stored) (out : doc),
    update_time_entry entry_id payload w = (Ok out, w') /\
    db w' = Some coll' /\ In st' coll' /\ oid st' = i /\
    fields st' !! "worked_minutes" = Some (VInt worked) /\
    out !! "worked_minutes" = Some (VInt worked) /\
    out !! "_id" = Some (VStr i) /\
    compute_entry st' w = (Ok worked, w1) /\
    (forall k v, k ∈ allowed -> payload !! k = Some v ->
                 fields st' !! k = Some v /\ out !! k = Some v) /\
    (forall k, k ∉ allowed -> k <> "worked_minutes" -> fields st' !! k = fields st !! k).
Proof.
  intros Hdb Hnd Hid Hin Hoid Hne Hwt Hclk.
  destruct (update_time_entry_recomputes entry_id i payload w coll st
              Hdb Hnd Hid Hin Hoid Hne Hwt Hclk) as (worked & w1 & Hc & Hu).
  set (update := (filter (fun kv => fst kv ∈ allowed) payload : doc)) in *.
  set (st' := mk_stored i (({[ "worked_minutes" := VInt worked ]} : doc)
                           ∪ (update ∪ fields st))).
  assert (Hk : forall k, k <> "worked_minutes" ->
                         fields st' !! k = (update ∪ fields st) !! k).
  { intros k Hk. cbn [st' fields]. apply lookup_union_r.
    apply lookup_singleton_ne. congruence. }
  assert (Hall : forall k, k ∈ allowed -> k <> "worked_minutes" /\ k <> "_id").
  { intros k Hk'. split; intros ->; revert Hk'; vm_compute; discriminate. }
  exists worked, w1. eexists _, _, st', _.
  split; [exact Hu|]. split; [reflexivity|]. split.
  { apply in_map_iff. exists st. split; [|exact Hin].
    rewrite decide_True by exact Hoid. rewrite Hoid. reflexivity. }
  split; [reflexivity|]. split.
  { cbn [st' fields]. apply lookup_union_Some_l. apply lookup_singleton_eq. }
  split; [apply lookup_insert_eq|].
  split; [rewrite lookup_insert_ne by discriminate; apply lookup_insert_eq|].
  split.
  { unfold compute_entry in *. cbn [fields] in *. unfold get, get_default in *.
    rewrite !Hk by discriminate. exact Hc. }
  split.
  - intros k v Hk1 Hk2. destruct (Hall k Hk1) as [Hn1 Hn2].
    assert (Hu' : (update ∪ fields st) !! k = Some v).
    { apply lookup_union_Some_l. unfold update. rewrite sanitize_lookup.
      rewrite decide_True by exact Hk1. exact Hk2. }
    split; [rewrite Hk by exact Hn1; exact Hu'|].
    rewrite !lookup_insert_ne by congruence. exact Hu'.
  - intros k Hk1 Hk2. rewrite Hk by exact Hk2. apply lookup_union_r.
    unfold update. rewrite sanitize_lookup. rewrite decide_False by exact Hk1. reflexivity.
Qed.

(** ** [punch_stop]: the state after a stop *)

Lemma punch_stop_idle (w : world) (coll : list stored) :
  db w = Some coll -> List.filter is_running coll = [] ->
  punch_stop w = (Raise (HTTPException 404 "No running timer"), w).
Proof.
  intros Hdb Hrun.
  unfold punch_stop, require_db. unfold_M. rewrite Hdb. unfold_M.
  unfold db_find_one_sorted_desc, timeentry, find_one_sorted_desc. unfold_M.
  rewrite Hdb, find_running, Hrun. reflexivity.
Qed.

(** A stop on a store with a running entry: the entry that is stopped, its
    start, its break and the minutes that are stored. *)
Lemma punch_stop_run (w : world) (coll : list stored) :
  db w = Some coll ->
  check_fields (clock w (ticks w)) = true ->
  Forall well_typed coll ->
  NoDup (List.map oid coll) ->
  List.filter is_running coll <> [] ->
  exists (st : stored) (s : datetime) (b worked : Z),
    In st coll /\ is_running st = true /\
    fields st !! "start_time" = Some (VDate s) /\ check_fields s = true /\
    get_default (fields st) "break_minutes" (VInt 0) = VInt b /\
    worked_between s (clock w (ticks w)) (VInt b) = Ok worked /\
    punch_stop w
    = (Ok (<["worked_minutes" := VInt worked]>
             (<["_id" := VStr (oid st)]>
                (fields (stopped st (clock w (ticks w)) worked)))),
       mk_world (clock w) (S (ticks w))
         (Some (List.map (fun x => if decide (oid x = oid st)
                                   then stopped x (clock w (ticks w)) worked
                                   else x) coll))).
Proof.
  intros Hdb Hnow Hwt Hnd Hne.
  assert (Hfind : db_find_one_sorted_desc [("end_time", CEq VNone)] "start_time" w
                  = (Ok (first_max "start_time" (List.filter is_running coll)), w)).
  { unfold db_find_one_sorted_desc, timeentry, find_one_sorted_desc. unfold_M.
    rewrite Hdb, find_running. reflexivity. }
  assert (Hdates : Forall (fun st => exists s, fields st !! "start_time" = Some (VDate s))
                     (List.filter is_running coll)).
  { apply Forall_forall. intros x Hx.
    apply list_elem_of_In, filter_In in Hx as [Hx _].
    rewrite Forall_forall in Hwt. apply list_elem_of_In in Hx.
    destruct (Hwt x Hx) as ((s & Hs & _) & _). eauto. }
  destruct (first_max_latest _ Hdates Hne) as (st & s & Hfm & Hin & Hs & _).
  apply filter_In in Hin as [Hin Hst].
  assert (Hwst : well_typed st).
  { rewrite Forall_forall in Hwt. apply Hwt. apply list_elem_of_In. exact Hin. }
  destruct Hwst as ((s0 & Hs0 & Hsv) & _ & (b & Hb)).
  rewrite Hs in Hs0. inversion Hs0; subst s0.
  pose proof (compute_worked_minutes_dates s (clock w (ticks w)) (VInt b) (tick w)
                Hsv Hnow) as Hc.
  pose proof (worked_between_int s (clock w (ticks w)) b) as Hwb.
  rewrite Hwb in Hc.
  set (worked := Z.max 0 _) in *.
  exists st, s, b, worked.
  split; [exact Hin|]. split; [exact Hst|]. split; [exact Hs|]. split; [exact Hsv|].
  split; [exact Hb|]. split; [exact Hwb|].
  unfold punch_stop, require_db. unfold_M. rewrite Hdb.
  unfold_M. rewrite Hfind, Hfm.
  unfold now_utc. fold (tick w).
  unfold get at 1. rewrite Hs, Hb. cbn [default from_option id].
  rewrite Hc.
  unfold db_update_one, timeentry, set_timeentry. unfold_M.
  cbn [db tick clock ticks]. rewrite Hdb.
  unfold db_find_one, timeentry. unfold_M. cbn [db clock ticks].
  rewrite (update_one_by_id _ (oid st) coll Hnd).
  assert (Hmap : List.map
                   (fun x => if decide (oid x = oid st)
                             then mk_stored (oid x)
                                    ((<["end_time" := VDate (clock w (ticks w))]>
                                        {[ "worked_minutes" := VInt worked ]} : doc)
                                     ∪ fields x)
                             else x) coll
                 = List.map (fun x => if decide (oid x = oid st)
                                      then stopped x (clock w (ticks w)) worked
                                      else x) coll).
  { apply map_ext. intros x. destruct (decide (oid x = oid st)); [|reflexivity].
    unfold stopped. rewrite stop_update_fields. reflexivity. }
  rewrite Hmap.
  rewrite (find_one_by_id_map _ (oid st) coll st Hin eq_refl Hnd).
  + rewrite decide_True by reflexivity. reflexivity.
  + intros x. destruct (decide (oid x = oid st)); reflexivity.
Qed.

Lemma stopped_not_running (st : stored) (now : datetime) (worked : Z) :
  is_running (stopped st now worked) = false.
Proof. unfold is_running, stopped. cbn [fields]. rewrite lookup_insert_eq. reflexivity. Qed.

Lemma stopped_well_typed (st : stored) (now : datetime) (worked : Z) :
  check_fields now = true -> well_typed st -> well_typed (stopped st now worked).
Proof.
  intros Hnow ((s & Hs & Hsv) & _ & (b & Hb)).
  unfold well_typed, stopped, get, get_default in *. cbn [fields].
  split; [|split].
  - exists s. rewrite !lookup_insert_ne by discriminate. auto.
  - right. exists now. rewrite lookup_insert_eq. auto.
  - exists b. rewrite !lookup_insert_ne by discriminate. exact Hb.
Qed.

Lemma oid_unique (coll : list stored) (a b : stored) :
  NoDup (List.map oid coll) -> In a coll -> In b coll -> oid a = oid b -> a = b.
Proof.
  induction coll as [|x t IH]; intros Hnd Ha Hb Hab; [destruct Ha|].
  cbn [List.map] in Hnd. apply NoDup_cons in Hnd as [Hx Hnd].
  assert (Hin : forall y, In y t -> oid y ∈ List.map oid t).
  { intros y Hy. apply list_elem_of_In. apply in_map. exact Hy. }
  destruct Ha as [<-|Ha], Hb as [<-|Hb]; [reflexivity| | |auto].
  - exfalso. apply Hx. rewrite Hab. auto.
  - exfalso. apply Hx. rewrite <- Hab. auto.
Qed.

Lemma map_other_ids (f : stored -> stored) (i : string) (t : list stored) :
  (forall x, oid x <> i -> f x = x) ->
  (forall x, In x t -> oid x <> i) -> List.map f t = t.
Proof.
  intros Hf H. rewrite <- (map_id t) at 2. apply map_ext_in.
  intros x Hx. apply Hf. apply H. exact Hx.
Qed.

Lemma running_count_stopped (coll : list stored) (st : stored) (now : datetime) (worked : Z) :
  NoDup (List.map oid coll) -> In st coll -> is_running st = true ->
  (running_count (List.map (fun x => if decide (oid x = oid st)
                                     then stopped x now worked else x) coll) + 1)%nat
  = running_count coll.
Proof.
  unfold running_count.
  set (f := fun x => if decide (oid x = oid st) then stopped x now worked else x).
  induction coll as [|x t IH]; intros Hnd Hin Hrun; [destruct Hin|].
  pose proof Hnd as Hnd0.
  cbn [List.map] in Hnd. apply NoDup_cons in Hnd as [Hx Hnd].
  cbn [List.map List.filter]. unfold f at 1.
  destruct (decide (oid x = oid st)) as [E|E].
  - assert (x = st) as ->.
    { apply (oid_unique (x :: t)); [exact Hnd0|left; reflexivity|exact Hin|exact E]. }
    rewrite stopped_not_running, Hrun.
    rewrite (map_other_ids f (oid st) t).
    + cbn [List.length]. lia.
    + intros y Hy. unfold f. rewrite decide_False by exact Hy. reflexivity.
    + intros y Hy Hoid. apply Hx. rewrite <- Hoid.
      apply list_elem_of_In. apply in_map. exact Hy.
  - destruct Hin as [->|Hin]; [congruence|].
    specialize (IH Hnd Hin Hrun).
    destruct (is_running x); cbn [List.length]; lia.
Qed.

(** X16: a successful stop ends exactly one running entry: the number of
    running entries drops by one, the ids and their order are kept, and the
    collection stays well typed. *)
Theorem punch_stop_stops_one (w : world) (coll : list stored) :
  db w = Some coll ->
  check_fields (clock w (ticks w)) = true ->
  Forall well_typed coll ->
  NoDup (List.map oid coll) ->
  List.filter is_running coll <> [] ->
  exists (d : doc) (w' : world) (coll' : list stored),
    punch_stop w = (Ok d, w') /\ w' = mk_world (clock w) (S (ticks w)) (Some coll') /\
    (running_count coll' + 1)%nat = running_count coll /\
    List.map oid coll' = List.map oid coll /\
    Forall well_typed coll'.
Proof.
  intros Hdb Hnow Hwt Hnd Hne.
  destruct (punch_stop_run w coll Hdb Hnow Hwt Hnd Hne)
    as (st & s & b & worked & Hin & Hrun & _ & _ & _ & _ & Hp).
  eexists _, _, _. split; [exact Hp|]. split; [reflexivity|]. split.
  - apply running_count_stopped; assumption.
  - split.
    + rewrite List.map_map. apply map_ext. intros x.
      destruct (decide (oid x = oid st)); reflexivity.
    + rewrite Forall_forall in Hwt. apply Forall_forall. intros y Hy.
      apply list_elem_of_In, in_map_iff in Hy as (x & <- & Hx).
      apply list_elem_of_In in Hx.
      destruct (decide (oid x = oid st)); [apply stopped_well_typed|]; auto.
Qed.

(** X17: with exactly one running entry, a stop succeeds and the next
    stop answers HTTP 404 "No running timer" without changing anything. *)
Theorem punch_stop_twice (w : world) (coll : list stored) :
  db w = Some coll ->
  check_fields (clock w (ticks w)) = true ->
  Forall well_typed coll ->
  NoDup (List.map oid coll) ->
  running_count coll = 1%nat ->
  exists (d : doc) (w' : world),
    punch_stop w = (Ok d, w') /\
    punch_stop w' = (Raise (HTTPException 404 "No running timer"), w').
Proof.
  intros Hdb Hnow Hwt Hnd Hone.
  assert (Hne : List.filter is_running coll <> []).
  { unfold running_count in Hone. destruct (List.filter is_running coll); [discriminate|].
    discriminate. }
  destruct (punch_stop_run w coll Hdb Hnow Hwt Hnd Hne)
    as (st & s & b & worked & Hin & Hrun & _ & _ & _ & _ & Hp).
  pose proof (running_count_stopped coll st (clock w (ticks w)) worked Hnd Hin Hrun) as Hcount.
  eexists _, _. split; [exact Hp|].
  eapply punch_stop_idle; [reflexivity|].
  unfold running_count in Hcount, Hone.
  destruct (List.filter is_running (List.map _ coll)); [reflexivity|].
  cbn [List.length] in Hcount. lia.
Qed.


(** ** [get_summary]: effects, and the totals of finished entries *)

Lemma sum_worked_later (cursor : list stored) :
  forall (total : Z) (w : world), later w (snd (sum_worked cursor total w)).
Proof.
  induction cursor as [|st t IH]; intros total w; [apply later_refl|].
  cbn [sum_worked]. unfold_M.
  pose proof (compute_worked_minutes_later (get (fields st) "start_time")
                (get (fields st) "end_time")
                (get_default (fields st) "break_minutes" (VInt 0)) w) as Hl.
  destruct (compute_worked_minutes _ _ _ w) as [[m|e] w1]; cbn [snd] in *.
  - eapply later_trans; [exact Hl|apply IH].
  - exact Hl.
Qed.

Lemma summary_loop_later (rs : list (string * (datetime * datetime))) :
  forall (acc : gmap string Z) (w : world), later w (snd (summary_loop rs acc w)).
Proof.
  induction rs as [|[key [s e]] t IH]; intros acc w; [apply later_refl|].
  cbn [summary_loop]. unfold db_find, timeentry. unfold_M.
  destruct (db w) as [coll|]; [|apply later_refl].
  pose proof (sum_worked_later (find (start_time_in s e) coll) 0 w) as Hl.
  destruct (sum_worked _ 0 w) as [[total|x] w1]; cbn [snd] in *.
  - eapply later_trans; [exact Hl|apply IH].
  - exact Hl.
Qed.

(** X19: the summary never writes: whatever the stored documents and
    whether or not it raises, the store and the clock function are
    unchanged. *)
Theorem get_summary_read_only (w : world) : later w (snd (get_summary w)).
Proof.
  unfold get_summary, require_db, now_utc. unfold_M.
  destruct (db w) eqn:Hdb; [|apply later_refl].
  fold (tick w).
  destruct (summary_ranges (clock w (ticks w))) as [rs|].
  - eapply later_trans; [apply later_tick|apply summary_loop_later].
  - apply later_tick.
Qed.

Lemma finished_minutes_nonneg (st : stored) : 0 <= finished_minutes st.
Proof.
  unfold finished_minutes, worked_between.
  destruct (fields st !! "start_time") as [[| | |s|]|]; try lia.
  destruct (fields st !! "end_time") as [[| | |e|]|]; try lia.
  destruct (int_minus _ _); lia.
Qed.

Lemma compute_entry_finished (st : stored) (w : world) :
  finished st -> compute_entry st w = (Ok (finished_minutes st), w).
Proof.
  intros ((s & Hs & Hsv) & (e & He & Hev) & (b & Hb)).
  unfold compute_entry, finished_minutes, get. rewrite Hs, He, Hb.
  cbn [default from_option id].
  rewrite (compute_worked_minutes_dates s e (VInt b) w Hsv Hev).
  rewrite worked_between_int. reflexivity.
Qed.

Lemma sum_worked_finished (cursor : list stored) :
  forall (total : Z) (w : world),
    Forall finished cursor ->
    sum_worked cursor total w
    = (Ok (total + sum_list (List.map finished_minutes cursor)), w).
Proof.
  induction cursor as [|st t IH]; intros total w Hf.
  - cbn. unfold ret. rewrite Z.add_0_r. reflexivity.
  - apply Forall_cons_iff in Hf as [Hst Ht].
    cbn [sum_worked]. unfold_M. fold (compute_entry st).
    rewrite (compute_entry_finished st w Hst). rewrite (IH _ _ Ht).
    cbn [List.map sum_list fold_right]. fold (sum_list (List.map finished_minutes t)).
    f_equal. f_equal. lia.
Qed.

Lemma Forall_filter_finished (f : stored -> bool) (coll : list stored) :
  Forall finished coll -> Forall finished (List.filter f coll).
Proof.
  intros H. apply Forall_forall. intros x Hx.
  apply list_elem_of_In, filter_In in Hx as [Hx _].
  rewrite Forall_forall in H. apply H. apply list_elem_of_In. exact Hx.
Qed.

Lemma range_total_mono (p q : datetime * datetime) (coll : list stored) :
  (forall st, starts_in p st = true -> starts_in q st = true) ->
  0 <= range_total p coll <= range_total q coll.
Proof.
  intros H. unfold range_total.
  induction coll as [|x t IH]; cbn [List.filter]; [cbn; lia|].
  pose proof (finished_minutes_nonneg x) as Hx.
  destruct (starts_in p x) eqn:Ep.
  - rewrite (H x Ep). cbn [List.map sum_list fold_right].
    fold (sum_list (List.map finished_minutes (List.filter (starts_in p) t))).
    fold (sum_list (List.map finished_minutes (List.filter (starts_in q) t))). lia.
  - destruct (starts_in q x); [|exact IH].
    cbn [List.map sum_list fold_right].
    fold (sum_list (List.map finished_minutes (List.filter (starts_in q) t))). lia.
Qed.

Lemma starts_in_mono (p q : datetime * datetime) (st : stored) :
  (forall t, in_range p t = true -> in_range q t = true) ->
  starts_in p st = true -> starts_in q st = true.
Proof.
  intros H. unfold starts_in.
  destruct (fields st !! "start_time") as [[| | |d|]|]; try discriminate. apply H.
Qed.

(** The today range lies within the week range and within the month
    range. *)
Lemma summary_ranges_today_within (now : datetime) :
  check_fields now = true ->
  ~ (year now = 1 /\ month now = 1) ->
  ~ (year now = 9999 /\ month now = 12) ->
  exists today week month_ prev_month : datetime * datetime,
    summary_ranges now
    = Ok [ ("today", today); ("week", week); ("month", month_);
           ("prev_month", prev_month) ] /\
    (forall t, in_range today t = true -> in_range week t = true) /\
    (forall t, in_range today t = true -> in_range month_ t = true).
Proof.
  intros Hnow Hfirst Hlast.
  destruct (summary_ranges_shape now Hnow Hfirst Hlast)
    as (today_end & week_start & week_end & Hspec).
  cbv zeta in Hspec.
  destruct Hspec as (Hrs & Hte & Hws & Hwe & _ & _).
  pose proof (weekday_bounds now) as Hwd.
  pose proof (check_fields_spec now Hnow) as (Hy & Hm & Hd & _).
  eexists _, _, _, _. split; [exact Hrs|].
  assert (Hlo : ymd2ord (year now) (month now) 1 <= toordinal now)
    by (unfold toordinal; rewrite (ymd2ord_day _ _ (day now)); lia).
  assert (Hhi : toordinal now + 1
                <= ymd2ord (if month now =? 12 then year now + 1 else year now)
                     (if month now =? 12 then 1 else month now + 1) 1).
  { unfold toordinal. rewrite (ymd2ord_day _ _ (day now)).
    destruct (Z.eqb_spec (month now) 12) as [E|E].
    - rewrite ymd2ord_year_start. rewrite E in *.
      unfold days_in_month in Hd. cbn in Hd. lia.
    - rewrite ymd2ord_month_start by lia. lia. }
  split; intros t; unfold in_range; cbn [fst snd];
    rewrite ?(instant_midnight _ _ _ Hte), ?(instant_midnight _ _ _ Hws),
      ?(instant_midnight _ _ _ Hwe), !instant_of_midnight;
    fold (toordinal now);
    intros H; apply andb_prop in H as [H1 H2];
    apply Z.leb_le in H1; apply Z.ltb_lt in H2;
    apply andb_true_intro; split;
      try (apply Z.leb_le); try (apply Z.ltb_lt); try lia.
  destruct (Z.eqb_spec (month now) 12); rewrite instant_of_midnight; lia.
Qed.

(** X20: when every stored entry is finished, the summary reads the clock
    once and is a function of that reading and of the store: each key holds
    the total of the stored-field minutes of the entries that start in its
    range.  The totals are non-negative, and today's total is at most the
    week's and at most the month's. *)
Theorem get_summary_finished (w : world) (coll : list stored) :
  db w = Some coll ->
  check_fields (clock w (ticks w)) = true ->
  ~ (year (clock w (ticks w)) = 1 /\ month (clock w (ticks w)) = 1) ->
  ~ (year (clock w (ticks w)) = 9999 /\ month (clock w (ticks w)) = 12) ->
  Forall finished coll ->
  exists today week month_ prev_month : datetime * datetime,
    summary_ranges (clock w (ticks w))
    = Ok [ ("today", today); ("week", week); ("month", month_);
           ("prev_month", prev_month) ] /\
    get_summary w
    = (Ok (<["prev_month" := range_total prev_month coll]>
             (<["month" := range_total month_ coll]>
                (<["week" := range_total week coll]>
                   (<["today" := range_total today coll]> ∅)))),
       tick w) /\
    0 <= range_total today coll <= range_total week coll /\
    range_total today coll <= range_total month_ coll /\
    0 <= range_total prev_month coll.
Proof.
  intros Hdb Hnow Hfirst Hlast Hfin.
  destruct (summary_ranges_today_within _ Hnow Hfirst Hlast)
    as ([ts te] & [ws we] & [ms me] & [ps pe] & Hrs & Hweek & Hmonth).
  exists (ts, te), (ws, we), (ms, me), (ps, pe).
  split; [exact Hrs|]. split.
  - unfold get_summary, require_db, now_utc. unfold_M. rewrite Hdb.
    fold (tick w). rewrite Hrs.
    assert (Hdb' : db (tick w) = Some coll) by exact Hdb.
    cbn [summary_loop]. unfold_M.
    rewrite !(db_find_run _ (tick w) coll Hdb'), !find_start_time_in.
    rewrite !sum_worked_finished by (apply Forall_filter_finished; exact Hfin).
    rewrite (db_find_run _ (tick w) coll Hdb'), find_start_time_in.
    rewrite !sum_worked_finished by (apply Forall_filter_finished; exact Hfin).
    rewrite (db_find_run _ (tick w) coll Hdb'), find_start_time_in.
    rewrite !sum_worked_finished by (apply Forall_filter_finished; exact Hfin).
    rewrite (db_find_run _ (tick w) coll Hdb'), find_start_time_in.
    rewrite !sum_worked_finished by (apply Forall_filter_finished; exact Hfin).
    unfold range_total. rewrite !Z.add_0_l. reflexivity.
  - pose proof (range_total_mono (ts, te) (ws, we) coll
                  (fun st => starts_in_mono _ _ st Hweek)) as H1.
    pose proof (range_total_mono (ts, te) (ms, me) coll
                  (fun st => starts_in_mono _ _ st Hmonth)) as H2.
    pose proof (range_total_mono (ps, pe) (ps, pe) coll (fun st H => H)) as H3.
    lia.
Qed.

(** ** [update_time_entry]: repeating a request *)

Lemma union_absorb (upd f : doc) (m : Z) (k : string) :
  k <> "worked_minutes" ->
  (upd ∪ (({[ "worked_minutes" := VInt m ]} : doc) ∪ (upd ∪ f))) !! k = (upd ∪ f) !! k.
Proof.
  intros Hk. destruct (upd !! k) as [v|] eqn:E.
  - rewrite (lookup_union_Some_l upd _ k v E).
    rewrite (lookup_union_Some_l upd f k v E). reflexivity.
  - rewrite (lookup_union_r upd _ k E).
    apply lookup_union_r. apply lookup_singleton_ne. congruence.
Qed.

Lemma finished_ext (a b : stored) :
  (forall k, k <> "worked_minutes" -> fields b !! k = fields a !! k) ->
  finished a -> finished b /\ finished_minutes b = finished_minutes a.
Proof.
  intros H ((s & Hs & Hsv) & (e & He & Hev) & (x & Hx)).
  unfold finished, finished_minutes, get_default in *.
  rewrite !H by discriminate. rewrite Hs, He, Hx. eauto 10.
Qed.

(** An update that leaves the entry finished: no clock reading is made,
    and the minutes written back are those of the changed entry. *)
Lemma update_time_entry_finished
  (entry_id i : string) (payload : doc) (w : world) (coll : list stored) (st : stored) :
  db w = Some coll ->
  NoDup (List.map oid coll) ->
  to_object_id entry_id = Ok i ->
  In st coll -> oid st = i ->
  (filter (fun kv => fst kv ∈ allowed) payload : doc) <> ∅ ->
  finished (mk_stored i ((filter (fun kv => fst kv ∈ allowed) payload : doc) ∪ fields st)) ->
  update_time_entry entry_id payload w
  = (Ok (<["worked_minutes" :=
             VInt (finished_minutes
                     (mk_stored i ((filter (fun kv => fst kv ∈ allowed) payload : doc)
                                   ∪ fields st)))]>
           (<["_id" := VStr i]>
              ((filter (fun kv => fst kv ∈ allowed) payload : doc) ∪ fields st))),
     mk_world (clock w) (ticks w)
       (Some (List.map
                (fun x => if decide (oid x = i)
                          then mk_stored (oid x)
                                 (({[ "worked_minutes" :=
                                        VInt (finished_minutes
                                                (mk_stored i
                                                   ((filter (fun kv => fst kv ∈ allowed)
                                                       payload : doc) ∪ fields st))) ]} : doc)
                                  ∪ ((filter (fun kv => fst kv ∈ allowed) payload : doc)
                                     ∪ fields x))
                          else x) coll))).
Proof.
  intros Hdb Hnd Hid Hin Hoid Hne Hfin.
  set (update := (filter (fun kv => fst kv ∈ allowed) payload : doc)) in *.
  set (f := fun x => if decide (oid x = i)
                     then mk_stored (oid x) (update ∪ fields x) else x).
  assert (Hf : forall x, oid (f x) = oid x).
  { intros x. unfold f. destruct (decide (oid x = i)); reflexivity. }
  unfold update_time_entry, require_db. unfold_M. rewrite Hdb.
  fold update. rewrite decide_False by exact Hne.
  unfold_M. rewrite Hid.
  unfold db_update_one, db_find_one, timeentry, set_timeentry. unfold_M.
  rewrite Hdb. cbn [db clock ticks].
  rewrite (update_one_by_id update i coll Hnd). fold f.
  rewrite (find_one_by_id_map f i coll st Hin Hoid Hnd Hf).
  assert (Hfst : f st = mk_stored i (update ∪ fields st)).
  { unfold f. rewrite decide_True by exact Hoid. rewrite Hoid. reflexivity. }
  rewrite Hfst. cbn [fields oid].
  pose proof (compute_entry_finished _ (mk_world (clock w) (ticks w) (Some (List.map f coll)))
                Hfin) as Hc.
  unfold compute_entry in Hc. cbn [fields] in Hc. rewrite Hc.
  cbn [db clock ticks].
  rewrite (update_one_by_id _ i (List.map f coll) (NoDup_map_oid f coll Hf Hnd)).
  f_equal. f_equal. f_equal.
  rewrite List.map_map. apply map_ext. intros x. unfold f.
  destruct (decide (oid x = i)) as [E|E]; cbn [oid fields].
  - rewrite decide_True by exact E. reflexivity.
  - rewrite decide_False by exact E. reflexivity.
Qed.

(** X21: an update that leaves the entry finished is idempotent: sending
    the same request again gives the same response and leaves the world as
    the first request left it. *)
Theorem update_time_entry_idempotent
  (entry_id i : string) (payload : doc) (w : world) (coll : list stored) (st : stored) :
  db w = Some coll ->
  NoDup (List.map oid coll) ->
  to_object_id entry_id = Ok i ->
  In st coll -> oid st = i ->
  (filter (fun kv => fst kv ∈ allowed) payload : doc) <> ∅ ->
  finished (mk_stored i ((filter (fun kv => fst kv ∈ allowed) payload : doc) ∪ fields st)) ->
  exists (out : doc) (w' : world),
    update_time_entry entry_id payload w = (Ok out, w') /\
    update_time_entry entry_id payload w' = (Ok out, w').
Proof.
  intros Hdb Hnd Hid Hin Hoid Hne Hfin.
  pose proof (update_time_entry_finished entry_id i payload w coll st
                Hdb Hnd Hid Hin Hoid Hne Hfin) as H1.
  set (update := (filter (fun kv => fst kv ∈ allowed) payload : doc)) in *.
  set (m := finished_minutes (mk_stored i (update ∪ fields st))) in *.
  set (g := fun x => if decide (oid x = i)
                     then mk_stored (oid x)
                            (({[ "worked_minutes" := VInt m ]} : doc) ∪ (update ∪ fields x))
                     else x) in *.
  assert (Hg : forall x, oid (g x) = oid x).
  { intros x. unfold g. destruct (decide (oid x = i)); reflexivity. }
  set (w' := mk_world (clock w) (ticks w) (Some (List.map g coll))) in *.
  set (st' := mk_stored i (({[ "worked_minutes" := VInt m ]} : doc) ∪ (update ∪ fields st))).
  assert (Hin' : In st' (List.map g coll)).
  { apply in_map_iff. exists st. split; [|exact Hin].
    unfold g. rewrite decide_True by exact Hoid. rewrite Hoid. reflexivity. }
  destruct (finished_ext (mk_stored i (update ∪ fields st))
              (mk_stored i (update ∪ fields st'))) as [Hfin' Hm'].
  { intros k Hk. cbn [fields st']. apply union_absorb. exact Hk. }
  { exact Hfin. }
  pose proof (update_time_entry_finished entry_id i payload w' (List.map g coll) st'
                eq_refl (NoDup_map_oid g coll Hg Hnd) Hid Hin' eq_refl Hne Hfin') as H2.
  fold update in H2. rewrite Hm' in H2. fold m in H2.
  eexists _, w'. split; [exact H1|].
  rewrite H2. f_equal.
  - f_equal. apply map_eq. intros k.
    destruct (decide (k = "worked_minutes")) as [->|Hk1];
      [rewrite !lookup_insert_eq; reflexivity|].
    rewrite !(lookup_insert_ne _ "worked_minutes") by congruence.
    destruct (decide (k = "_id")) as [->|Hk2];
      [rewrite !lookup_insert_eq; reflexivity|].
    rewrite !(lookup_insert_ne _ "_id") by congruence.
    cbn [st' fields]. apply union_absorb. exact Hk1.
  - unfold w'. cbn [clock ticks]. f_equal. f_equal.
    rewrite List.map_map. apply map_ext. intros x. unfold g.
    destruct (decide (oid x = i)) as [E|E]; cbn [oid fields].
    + rewrite decide_True by exact E. f_equal. apply map_eq. intros k.
      destruct (decide (k = "worked_minutes")) as [->|Hk1].
      * rewrite !(lookup_union_Some_l _ _ _ (VInt m)) by apply lookup_singleton_eq.
        reflexivity.
      * rewrite !(lookup_union_r ({[ "worked_minutes" := VInt m ]} : doc))
          by (apply lookup_singleton_ne; congruence).
        apply union_absorb. exact Hk1.
    + rewrite decide_False by exact E. reflexivity.
Qed.

(** ** [create_time_entry] and [punch_start] *)

Lemma count_documents_absent (i : string) (coll : list stored) :
  (forall st, In st coll -> oid st <> i) -> (count_documents (by_id i) coll =? 0) = true.
Proof.
  intros H. unfold count_documents. rewrite (find_by_id_absent i coll H). reflexivity.
Qed.

Lemma count_documents_present (i : string) (coll : list stored) (st : stored) :
  In st coll -> oid st = i -> (count_documents (by_id i) coll =? 0) = false.
Proof.
  intros Hin Hoid. unfold count_documents.
  assert (Hf : In st (find (by_id i) coll)).
  { unfold find. apply filter_In. split; [exact Hin|].
    rewrite matches_by_id. rewrite decide_True by exact Hoid. reflexivity. }
  destruct (find (by_id i) coll); [destruct Hf|]. reflexivity.
Qed.

Section CreateProperties.
Context (create_document : string -> doc -> M string) (client project : list stored).

(** With resolving references the endpoint is the computation of the
    minutes followed by [create_document]. *)
Lemma create_time_entry_run (payload : TimeEntryIn.t) (w : world) (coll : list stored) :
  db w = Some coll ->
  references_ok client project (TimeEntryIn.client_id payload)
    (TimeEntryIn.project_id payload) ->
  create_time_entry create_document client project payload w
  = match compute_worked_minutes (VDate (TimeEntryIn.start_time payload))
            (opt_date (TimeEntryIn.end_time payload))
            (VInt (TimeEntryIn.break_minutes payload)) w with
    | (Ok worked, w1) =>
        created_response
          (create_document "timeentry"
             (<["worked_minutes" := VInt worked]> (TimeEntryIn.model_dump payload)) w1) worked
    | (Raise e, w1) => (Raise e, w1)
    end.
Proof.
  intros Hdb ((i & c & Hid & Hc & Hoid) & Hproj).
  assert (Hor : or_zero (VInt (TimeEntryIn.break_minutes payload))
                = VInt (TimeEntryIn.break_minutes payload)).
  { unfold or_zero. cbn [truthy].
    destruct (Z.eqb_spec (TimeEntryIn.break_minutes payload) 0) as [->|]; reflexivity. }
  unfold create_time_entry, require_db. unfold_M. rewrite Hdb.
  unfold_M. rewrite Hid. rewrite (count_documents_present i client c Hc Hoid).
  rewrite Hor.
  assert (Hrest : forall k : M doc,
             (match
                match TimeEntryIn.project_id payload with
                | Some p =>
                    if String.eqb p EmptyString then fun w0 : world => (Ok (), w0)
                    else
                      fun w0 : world =>
                        match to_object_id p with
                        | Ok a =>
                            (if count_documents (by_id a) project =? 0
                             then fun w1 : world =>
                                    (Raise (HTTPException 404 "Project not found"), w1)
                             else fun w1 : world => (Ok (), w1)) w0
                        | Raise e => (Raise e, w0)
                        end
                | None => fun w0 : world => (Ok (), w0)
                end w
              with
              | (Ok _, w') => k w'
              | (Raise e, w') => (Raise e, w')
              end) = k w).
  { intros k. destruct (TimeEntryIn.project_id payload) as [p|]; [|reflexivity].
    destruct Hproj as [->|(j & pr & Hj & Hpr & Hoj)]; [reflexivity|].
    destruct (String.eqb p EmptyString); [reflexivity|].
    rewrite Hj, (count_documents_present j project pr Hpr Hoj). reflexivity. }
  rewrite Hrest.
  destruct (compute_worked_minutes _ _ _ w) as [[worked|e] w1]; [|reflexivity].
  unfold created_response.
  destruct (create_document _ _ w1) as [[new_id|e] w2]; reflexivity.
Qed.

(** X22: the references are checked before anything is computed or
    created.  A [client_id] that is a well-formed id of no stored client
    gives HTTP 404 "Client not found"; with a stored client, a non-empty
    [project_id] that is a well-formed id of no stored project gives HTTP
    404 "Project not found".  In both cases the world is unchanged,
    whatever [create_document] is. *)
Theorem create_time_entry_checks_references
  (payload : TimeEntryIn.t) (w : world) (coll : list stored) (i : string) :
  db w = Some coll ->
  to_object_id (TimeEntryIn.client_id payload) = Ok i ->
  ((forall st, In st client -> oid st <> i) ->
   create_time_entry create_document client project payload w
   = (Raise (HTTPException 404 "Client not found"), w)) /\
  (forall (c : stored) (p j : string),
     In c client -> oid c = i ->
     TimeEntryIn.project_id payload = Some p -> p <> EmptyString ->
     to_object_id p = Ok j ->
     (forall st, In st project -> oid st <> j) ->
     create_time_entry create_document client project payload w
     = (Raise (HTTPException 404 "Project not found"), w)).
Proof.
  intros Hdb Hid. split.
  - intros Habs. unfold create_time_entry, require_db. unfold_M. rewrite Hdb.
    unfold_M. rewrite Hid, (count_documents_absent i client Habs). reflexivity.
  - intros c p j Hc Hoid Hp Hne Hj Habs.
    unfold create_time_entry, require_db. unfold_M. rewrite Hdb.
    unfold_M. rewrite Hid, (count_documents_present i client c Hc Hoid).
    rewrite Hp. destruct (String.eqb_spec p EmptyString) as [|_]; [contradiction|].
    rewrite Hj, (count_documents_absent j project Habs). reflexivity.
Qed.

(** X23: with resolving references and well-formed datetimes the
    endpoint hands [create_document] the fields of the payload together
    with the [worked_minutes] that [compute_worked_minutes] gives on the
    payload's start, end and break, and answers with the new id and that
    same number; the number is not negative. *)
Theorem create_time_entry_stores_computed
  (payload : TimeEntryIn.t) (w : world) (coll : list stored) :
  db w = Some coll ->
  references_ok client project (TimeEntryIn.client_id payload)
    (TimeEntryIn.project_id payload) ->
  check_fields (TimeEntryIn.start_time payload) = true ->
  check_fields (default (clock w (ticks w)) (TimeEntryIn.end_time payload)) = true ->
  exists (worked : Z) (w1 : world) (data : doc),
    compute_worked_minutes (VDate (TimeEntryIn.start_time payload))
      (opt_date (TimeEntryIn.end_time payload))
      (VInt (TimeEntryIn.break_minutes payload)) w = (Ok worked, w1) /\
    0 <= worked /\
    create_time_entry create_document client project payload w
    = created_response (create_document "timeentry" data w1) worked /\
    data !! "worked_minutes" = Some (VInt worked) /\
    data !! "client_id" = Some (VStr (TimeEntryIn.client_id payload)) /\
    data !! "start_time" = Some (VDate (TimeEntryIn.start_time payload)) /\
    data !! "end_time" = Some (opt_date (TimeEntryIn.end_time payload)) /\
    data !! "break_minutes" = Some (VInt (TimeEntryIn.break_minutes payload)).
Proof.
  intros Hdb Href Hs He.
  pose proof (create_time_entry_run payload w coll Hdb Href) as Hrun.
  rewrite (compute_worked_minutes_resolved _ _ _ w Hs He) in *.
  rewrite worked_between_int in *.
  eexists _, _, _. split; [reflexivity|]. split; [lia|]. split; [exact Hrun|].
  split; [apply lookup_insert_eq|].
  unfold TimeEntryIn.model_dump.
  repeat (split; [repeat (rewrite lookup_insert_ne by discriminate);
                  apply lookup_insert_eq|]).
  repeat (rewrite lookup_insert_ne by discriminate). apply lookup_insert_eq.
Qed.

(** X24: a start hands [create_document] a running entry: its [start_time]
    is the clock reading, its [end_time] is [None] and its break is 0.  The
    [worked_minutes] stored with it come from a second reading of the
    clock, and are 0 when that reading is less than a minute after the
    first. *)
Theorem punch_start_running
  (client_id : string) (project_id notes : option string) (w : world) (coll : list stored) :
  db w = Some coll ->
  references_ok client project client_id project_id ->
  check_fields (clock w (ticks w)) = true ->
  check_fields (clock w (S (ticks w))) = true ->
  exists (worked : Z) (data : doc),
    punch_start create_document client project client_id project_id notes w
    = created_response (create_document "timeentry" data (tick (tick w))) worked /\
    data !! "start_time" = Some (VDate (clock w (ticks w))) /\
    data !! "end_time" = Some VNone /\
    (forall i, is_running (mk_stored i data) = true) /\
    data !! "break_minutes" = Some (VInt 0) /\
    data !! "worked_minutes" = Some (VInt worked) /\
    data !! "client_id" = Some (VStr client_id) /\
    0 <= worked /\
    (instant (clock w (ticks w)) <= instant (clock w (S (ticks w)))
     < instant (clock w (ticks w)) + 60000000 -> worked = 0).
Proof.
  intros Hdb Href H0 H1.
  unfold punch_start, now_utc. unfold_M. fold (tick w).
  set (payload := TimeEntryIn.mk client_id project_id (clock w (ticks w)) None 0 notes).
  assert (Hdb' : db (tick w) = Some coll) by exact Hdb.
  rewrite (create_time_entry_run payload (tick w) coll Hdb' Href).
  cbn [payload TimeEntryIn.start_time TimeEntryIn.end_time TimeEntryIn.break_minutes
         opt_date].
  rewrite (compute_worked_minutes_running _ _ (tick w) H0 H1).
  rewrite worked_between_int. cbn [tick clock ticks].
  eexists _, _. split; [reflexivity|].
  unfold TimeEntryIn.model_dump.
  cbn [payload TimeEntryIn.start_time TimeEntryIn.end_time TimeEntryIn.break_minutes
         TimeEntryIn.client_id TimeEntryIn.project_id TimeEntryIn.notes opt_date].
  split; [repeat (rewrite lookup_insert_ne by discriminate); apply lookup_insert_eq|].
  split; [repeat (rewrite lookup_insert_ne by discriminate); apply lookup_insert_eq|].
  split.
  { intros i. unfold is_running. cbn [fields].
    repeat (rewrite lookup_insert_ne by discriminate). rewrite lookup_insert_eq.
    reflexivity. }
  split; [repeat (rewrite lookup_insert_ne by discriminate); apply lookup_insert_eq|].
  split; [apply lookup_insert_eq|].
  split; [repeat (rewrite lookup_insert_ne by discriminate); apply lookup_insert_eq|].
  split; [lia|].
  intros Hspan. rewrite float_minutes_exact by lia.
  rewrite Z.div_small by lia. reflexivity.
Qed.

(** X25: a project is only created for a stored client: a well-formed
    [client_id] of no stored client gives HTTP 404 "Client not found" with
    the world unchanged and nothing created; with a stored client the
    payload is handed to [create_document] as it is and the answer is the
    new id, or the exception of [create_document]. *)
Theorem create_project_checks_client
  (payload : ProjectIn.t) (w : world) (coll : list stored) (i : string) :
  db w = Some coll ->
  to_object_id (ProjectIn.client_id payload) = Ok i ->
  ((forall st, In st client -> oid st <> i) ->
   create_project create_document client payload w
   = (Raise (HTTPException 404 "Client not found"), w)) /\
  (forall c : stored,
     In c client -> oid c = i ->
     create_project create_document client payload w
     = match create_document "project" (ProjectIn.model_dump payload) w with
       | (Ok new_id, w') => (Ok {[ "_id" := VStr new_id ]}, w')
       | (Raise e, w') => (Raise e, w')
       end).
Proof.
  intros Hdb Hid. split.
  - intros Habs. unfold create_project, require_db. unfold_M. rewrite Hdb.
    unfold_M. rewrite Hid, (count_documents_absent i client Habs). reflexivity.
  - intros c Hc Hoid. unfold create_project, require_db. unfold_M. rewrite Hdb.
    unfold_M. rewrite Hid, (count_documents_present i client c Hc Hoid). reflexivity.
Qed.

End CreateProperties.

(** ** The availability check *)

(** X26: when the database object is not initialised the guarded
    endpoints answer HTTP 500 "Database not available" before anything
    else is looked at: [update_time_entry] for any id and payload,
    [punch_stop], [get_summary] and [create_time_entry] leave the world
    unchanged; [punch_start], which calls [create_time_entry], has read
    the clock once. *)
Theorem endpoints_require_db
  (create_document : string -> doc -> M string) (client project : list stored)
  (w : world) :
  db w = None ->
  (forall entry_id payload,
     update_time_entry entry_id payload w
     = (Raise (HTTPException 500 "Database not available"), w)) /\
  punch_stop w = (Raise (HTTPException 500 "Database not available"), w) /\
  get_summary w = (Raise (HTTPException 500 "Database not available"), w) /\
  (forall payload,
     create_time_entry create_document client project payload w
     = (Raise (HTTPException 500 "Database not available"), w)) /\
  (forall client_id project_id notes,
     punch_start create_document client project client_id project_id notes w
     = (Raise (HTTPException 500 "Database not available"), tick w)).
Proof.
  intros Hdb. repeat apply conj.
  - intros entry_id payload. unfold update_time_entry, require_db. unfold_M.
    rewrite Hdb. reflexivity.
  - unfold punch_stop, require_db. unfold_M. rewrite Hdb. reflexivity.
  - unfold get_summary, require_db. unfold_M. rewrite Hdb. reflexivity.
  - intros payload. unfold create_time_entry, require_db. unfold_M.
    rewrite Hdb. reflexivity.
  - intros client_id project_id notes.
    unfold punch_start, create_time_entry, require_db, now_utc, tick. unfold_M.
    cbn [db]. rewrite Hdb. reflexivity.
Qed.

(** ** The further properties at sample inputs *)

Lemma compute_worked_minutes_within_a_minute_witness :
  exists r : Z,
    fst (compute_worked_minutes (VDate sample_start) (opt_date (Some sample_end))
           (VInt 30) sample_world) = Ok r /\
    Z.max 0 (elapsed_whole_minutes sample_start
               (default (clock sample_world (ticks sample_world)) (Some sample_end)) - 30)
    <= r /\
    r <= Z.max 0 (elapsed_whole_minutes sample_start
                    (default (clock sample_world (ticks sample_world)) (Some sample_end))
                  + 1 - 30).
Proof.
  apply (compute_worked_minutes_within_a_minute sample_start (Some sample_end) 30
           sample_world); vm_compute; reflexivity.
Defined.

Lemma compute_worked_minutes_monotone_witness :
  exists r1 r2 : Z,
    compute_worked_minutes (VDate sample_start) (VDate sample_end) (VInt 30) sample_world
    = (Ok r1, sample_world) /\
    compute_worked_minutes (VDate sample_start) (VDate sample_end_later) (VInt 30)
      sample_world
    = (Ok r2, sample_world) /\
    r1 <= r2.
Proof.
  apply (compute_worked_minutes_monotone sample_start sample_end sample_end_later 30
           sample_world sample_world);
    try (vm_compute; reflexivity).
  vm_compute. intros H. discriminate H.
Defined.

Lemma compute_worked_minutes_instant_only_witness :
  compute_worked_minutes (VDate sample_start) (VDate sample_end) (VInt 30) sample_world
  = compute_worked_minutes (VDate sample_start_cet)
      (VDate (mk_datetime 2024 3 1 17 0 0 0 None)) (VInt 30) sample_world.
Proof.
  apply (compute_worked_minutes_instant_only sample_start sample_start_cet sample_end
           (mk_datetime 2024 3 1 17 0 0 0 None) (VInt 30) sample_world);
    vm_compute; reflexivity.
Defined.


Lemma month_range_spec_witness :
  exists y mon : Z,
    List.map py_int (split_on "-" "2024-12") = [Some y; Some mon] /\
    1 <= y <= 9999 /\ 1 <= mon <= 12 /\ ~ (y = 9999 /\ mon = 12) /\
    midnight 2024 12 1 UTC = midnight y mon 1 UTC /\
    midnight 2025 1 1 UTC
    = (if mon =? 12 then midnight (y + 1) 1 1 UTC else midnight y (mon + 1) 1 UTC) /\
    check_fields (midnight 2024 12 1 UTC) = true /\
    check_fields (midnight 2025 1 1 UTC) = true /\
    instant (midnight 2025 1 1 UTC) - instant (midnight 2024 12 1 UTC)
    = timedelta_days (days_in_month y mon).
Proof.
  apply (month_range_spec "2024-12" (midnight 2024 12 1 UTC) (midnight 2025 1 1 UTC)).
  vm_compute. reflexivity.
Defined.

Lemma list_time_entries_invalid_month_witness :
  invalid_month = invalid_month /\
  list_time_entries (Some "2024-13") None no_db_world = (Raise invalid_month, no_db_world).
Proof.
  apply (list_time_entries_invalid_month (Some "2024-13") None invalid_month no_db_world).
  vm_compute. reflexivity.
Defined.

Lemma build_filter_selects_witness :
  matches [ ("client_id", CEq (VStr "65f0a1b2c3d4e5f601234560"));
            ("start_time", CRange (VDate (midnight 2024 3 1 UTC))
                             (VDate (midnight 2024 4 1 UTC))) ] acme_entry
  = client_selects (Some "65f0a1b2c3d4e5f601234560") acme_entry
    && month_selects (Some "2024-03") acme_entry.
Proof.
  apply (build_filter_selects (Some "2024-03") (Some "65f0a1b2c3d4e5f601234560")).
  vm_compute. reflexivity.
Defined.


Lemma sample_store_ids : NoDup (List.map oid [sample_entry]).
Proof.
  constructor; [|constructor].
  intros H. apply list_elem_of_In in H. destruct H.
Defined.

Lemma break_update_nonempty :
  (filter (fun kv => fst kv ∈ allowed) ({[ "break_minutes" := VInt 60 ]} : doc) : doc) <> ∅.
Proof.
  intros H. apply (f_equal (fun m : doc => m !! "break_minutes")) in H.
  vm_compute in H. discriminate H.
Defined.


Lemma update_time_entry_not_found_witness :
  update_time_entry "65F0A1B2C3D4E5F601234599" {[ "break_minutes" := VInt 60 ]} sample_store
  = (Raise (HTTPException 404 "Time entry not found"), sample_store).
Proof.
  apply (update_time_entry_not_found "65F0A1B2C3D4E5F601234599" "65f0a1b2c3d4e5f601234599"
           {[ "break_minutes" := VInt 60 ]} sample_store [sample_entry]).
  - reflexivity.
  - exact break_update_nonempty.
  - vm_compute. reflexivity.
  - intros st [<-|[]] H. vm_compute in H. discriminate H.
Defined.

Lemma update_time_entry_frame_witness :
  exists coll' : list stored,
    db (snd (update_time_entry "65f0a1b2c3d4e5f601234567"
               {[ "break_minutes" := VInt 60 ]} sample_store)) = Some coll' /\
    clock (snd (update_time_entry "65f0a1b2c3d4e5f601234567"
                  {[ "break_minutes" := VInt 60 ]} sample_store)) = clock sample_store /\
    Forall2 (fun a b =>
               oid b = oid a /\
               (to_object_id "65f0a1b2c3d4e5f601234567" <> Ok (oid a) -> b = a) /\
               (forall k, k ∉ allowed -> k <> "worked_minutes" ->
                          fields b !! k = fields a !! k))
      [sample_entry] coll'.
Proof.
  apply (update_time_entry_frame "65f0a1b2c3d4e5f601234567"
           {[ "break_minutes" := VInt 60 ]} sample_store [sample_entry]).
  reflexivity.
Defined.

Lemma break_update_well_typed :
  well_typed
    (mk_stored "65f0a1b2c3d4e5f601234567"
       ((filter (fun kv => fst kv ∈ allowed) ({[ "break_minutes" := VInt 60 ]} : doc) : doc)
        ∪ fields sample_entry)).
Proof.
  split; [|split].
  - exists (mk_datetime 2024 3 1 9 0 0 0 None). split; vm_compute; reflexivity.
  - right. exists (mk_datetime 2024 3 1 17 0 0 0 None). split; vm_compute; reflexivity.
  - exists 60. vm_compute. reflexivity.
Defined.

Lemma update_time_entry_stores_recomputed_witness :
  exists (worked : Z) (w1 w' : world) (coll' : list stored) (st' : stored) (out : doc),
    update_time_entry "65f0a1b2c3d4e5f601234567" {[ "break_minutes" := VInt 60 ]}
      sample_store = (Ok out, w') /\
    db w' = Some coll' /\ In st' coll' /\ oid st' = "65f0a1b2c3d4e5f601234567" /\
    fields st' !! "worked_minutes" = Some (VInt worked) /\
    out !! "worked_minutes" = Some (VInt worked) /\
    out !! "_id" = Some (VStr "65f0a1b2c3d4e5f601234567") /\
    compute_entry st' sample_store = (Ok worked, w1) /\
    (forall k v, k ∈ allowed -> ({[ "break_minutes" := VInt 60 ]} : doc) !! k = Some v ->
                 fields st' !! k = Some v /\ out !! k = Some v) /\
    (forall k, k ∉ allowed -> k <> "worked_minutes" ->
               fields st' !! k = fields sample_entry !! k).
Proof.
  apply (update_time_entry_stores_recomputed "65f0a1b2c3d4e5f601234567"
           "65f0a1b2c3d4e5f601234567" {[ "break_minutes" := VInt 60 ]} sample_store
           [sample_entry] sample_entry).
  - reflexivity.
  - exact sample_store_ids.
  - vm_compute. reflexivity.
  - left. reflexivity.
  - reflexivity.
  - exact break_update_nonempty.
  - exact break_update_well_typed.
  - intros t. vm_compute. reflexivity.
Defined.

Lemma running_store_running : List.filter is_running [running_0900; running_0905] <> [].
Proof. intros H. vm_compute in H. discriminate H. Defined.

Lemma punch_stop_stops_one_witness :
  exists (d : doc) (w' : world) (coll' : list stored),
    punch_stop running_store = (Ok d, w') /\
    w' = mk_world (clock running_store) (S (ticks running_store)) (Some coll') /\
    (running_count coll' + 1)%nat = running_count [running_0900; running_0905] /\
    List.map oid coll' = List.map oid [running_0900; running_0905] /\
    Forall well_typed coll'.
Proof.
  apply (punch_stop_stops_one running_store [running_0900; running_0905]).
  - reflexivity.
  - vm_compute. reflexivity.
  - exact running_store_well_typed.
  - exact running_store_ids.
  - exact running_store_running.
Defined.

Lemma one_running_store_well_typed : Forall well_typed [sample_entry; running_0905].
Proof.
  constructor; [exact sample_entry_well_typed|].
  constructor; [|constructor].
  split; [|split].
  - exists (mk_datetime 2024 3 1 9 5 0 0 None). split; vm_compute; reflexivity.
  - left. vm_compute. reflexivity.
  - exists 0. vm_compute. reflexivity.
Defined.

Lemma one_running_store_ids : NoDup (List.map oid [sample_entry; running_0905]).
Proof.
  constructor; [|constructor; [|constructor]].
  - intros H. apply list_elem_of_In in H. destruct H as [H|[]]. discriminate H.
  - intros H. apply list_elem_of_In in H. destruct H.
Defined.

Lemma punch_stop_twice_witness :
  exists (d : doc) (w' : world),
    punch_stop one_running_store = (Ok d, w') /\
    punch_stop w' = (Raise (HTTPException 404 "No running timer"), w').
Proof.
  apply (punch_stop_twice one_running_store [sample_entry; running_0905]).
  - reflexivity.
  - vm_compute. reflexivity.
  - exact one_running_store_well_typed.
  - exact one_running_store_ids.
  - vm_compute. reflexivity.
Defined.


Lemma sample_entry_finished : finished sample_entry.
Proof.
  split; [|split].
  - exists (mk_datetime 2024 3 1 9 0 0 0 None). split; vm_compute; reflexivity.
  - exists (mk_datetime 2024 3 1 17 0 0 0 None). split; vm_compute; reflexivity.
  - exists 30. vm_compute. reflexivity.
Defined.

Lemma get_summary_finished_witness :
  exists today week month_ prev_month : datetime * datetime,
    summary_ranges (clock sample_store (ticks sample_store))
    = Ok [ ("today", today); ("week", week); ("month", month_);
           ("prev_month", prev_month) ] /\
    get_summary sample_store
    = (Ok (<["prev_month" := range_total prev_month [sample_entry]]>
             (<["month" := range_total month_ [sample_entry]]>
                (<["week" := range_total week [sample_entry]]>
                   (<["today" := range_total today [sample_entry]]> ∅)))),
       tick sample_store) /\
    0 <= range_total today [sample_entry] <= range_total week [sample_entry] /\
    range_total today [sample_entry] <= range_total month_ [sample_entry] /\
    0 <= range_total prev_month [sample_entry].
Proof.
  apply (get_summary_finished sample_store [sample_entry]).
  - reflexivity.
  - vm_compute. reflexivity.
  - vm_compute. intros [H _]. discriminate H.
  - vm_compute. intros [H _]. discriminate H.
  - constructor; [exact sample_entry_finished|constructor].
Defined.

Lemma break_update_finished :
  finished
    (mk_stored "65f0a1b2c3d4e5f601234567"
       ((filter (fun kv => fst kv ∈ allowed) ({[ "break_minutes" := VInt 60 ]} : doc) : doc)
        ∪ fields sample_entry)).
Proof.
  split; [|split].
  - exists (mk_datetime 2024 3 1 9 0 0 0 None). split; vm_compute; reflexivity.
  - exists (mk_datetime 2024 3 1 17 0 0 0 None). split; vm_compute; reflexivity.
  - exists 60. vm_compute. reflexivity.
Defined.

Lemma update_time_entry_idempotent_witness :
  exists (out : doc) (w' : world),
    update_time_entry "65f0a1b2c3d4e5f601234567" {[ "break_minutes" := VInt 60 ]}
      sample_store = (Ok out, w') /\
    update_time_entry "65f0a1b2c3d4e5f601234567" {[ "break_minutes" := VInt 60 ]} w'
    = (Ok out, w').
Proof.
  apply (update_time_entry_idempotent "65f0a1b2c3d4e5f601234567"
           "65f0a1b2c3d4e5f601234567" {[ "break_minutes" := VInt 60 ]} sample_store
           [sample_entry] sample_entry).
  - reflexivity.
  - exact sample_store_ids.
  - vm_compute. reflexivity.
  - left. reflexivity.
  - reflexivity.
  - exact break_update_nonempty.
  - exact break_update_finished.
Defined.

Lemma create_time_entry_checks_references_witness :
  let payload :=
    TimeEntryIn.mk "65f0a1b2c3d4e5f601234560" (Some "65f0a1b2c3d4e5f601234577")
      sample_start (Some sample_end) 30 None in
  ((forall st, In st [sample_client] -> oid st <> "65f0a1b2c3d4e5f601234560") ->
   create_time_entry append_document [sample_client] [] payload sample_store
   = (Raise (HTTPException 404 "Client not found"), sample_store)) /\
  (forall (c : stored) (p j : string),
     In c [sample_client] -> oid c = "65f0a1b2c3d4e5f601234560" ->
     TimeEntryIn.project_id payload = Some p -> p <> EmptyString ->
     to_object_id p = Ok j ->
     (forall st, In st [] -> oid st <> j) ->
     create_time_entry append_document [sample_client] [] payload sample_store
     = (Raise (HTTPException 404 "Project not found"), sample_store)).
Proof.
  apply (create_time_entry_checks_references append_document [sample_client] []
           (TimeEntryIn.mk "65f0a1b2c3d4e5f601234560" (Some "65f0a1b2c3d4e5f601234577")
              sample_start (Some sample_end) 30 None)
           sample_store [sample_entry] "65f0a1b2c3d4e5f601234560").
  - reflexivity.
  - vm_compute. reflexivity.
Defined.

Lemma sample_references_ok :
  references_ok [sample_client] [] "65f0a1b2c3d4e5f601234560" None.
Proof.
  split; [|exact I].
  exists "65f0a1b2c3d4e5f601234560", sample_client.
  split; [vm_compute; reflexivity|]. split; [left; reflexivity|reflexivity].
Defined.

Lemma create_time_entry_stores_computed_witness :
  exists (worked : Z) (w1 : world) (data : doc),
    compute_worked_minutes (VDate (TimeEntryIn.start_time sample_payload))
      (opt_date (TimeEntryIn.end_time sample_payload))
      (VInt (TimeEntryIn.break_minutes sample_payload)) sample_store = (Ok worked, w1) /\
    0 <= worked /\
    create_time_entry append_document [sample_client] [] sample_payload sample_store
    = created_response (append_document "timeentry" data w1) worked /\
    data !! "worked_minutes" = Some (VInt worked) /\
    data !! "client_id" = Some (VStr (TimeEntryIn.client_id sample_payload)) /\
    data !! "start_time" = Some (VDate (TimeEntryIn.start_time sample_payload)) /\
    data !! "end_time" = Some (opt_date (TimeEntryIn.end_time sample_payload)) /\
    data !! "break_minutes" = Some (VInt (TimeEntryIn.break_minutes sample_payload)).
Proof.
  apply (create_time_entry_stores_computed append_document [sample_client] []
           sample_payload sample_store [sample_entry]).
  - reflexivity.
  - exact sample_references_ok.
  - vm_compute. reflexivity.
  - vm_compute. reflexivity.
Defined.

Lemma punch_start_running_witness :
  exists (worked : Z) (data : doc),
    punch_start append_document [sample_client] [] "65f0a1b2c3d4e5f601234560" None None
      sample_store
    = created_response (append_document "timeentry" data (tick (tick sample_store))) worked /\
    data !! "start_time" = Some (VDate (clock sample_store (ticks sample_store))) /\
    data !! "end_time" = Some VNone /\
    (forall i, is_running (mk_stored i data) = true) /\
    data !! "break_minutes" = Some (VInt 0) /\
    data !! "worked_minutes" = Some (VInt worked) /\
    data !! "client_id" = Some (VStr "65f0a1b2c3d4e5f601234560") /\
    0 <= worked /\
    (instant (clock sample_store (ticks sample_store))
     <= instant (clock sample_store (S (ticks sample_store)))
     < instant (clock sample_store (ticks sample_store)) + 60000000 -> worked = 0).
Proof.
  apply (punch_start_running append_document [sample_client] []
           "65f0a1b2c3d4e5f601234560" None None sample_store [sample_entry]).
  - reflexivity.
  - exact sample_references_ok.
  - vm_compute. reflexivity.
  - vm_compute. reflexivity.
Defined.

Lemma create_project_checks_client_witness :
  ((forall st, In st [sample_client] -> oid st <> "65f0a1b2c3d4e5f601234560") ->
   create_project append_document [sample_client] sample_project sample_store
   = (Raise (HTTPException 404 "Client not found"), sample_store)) /\
  (forall c : stored,
     In c [sample_client] -> oid c = "65f0a1b2c3d4e5f601234560" ->
     create_project append_document [sample_client] sample_project sample_store
     = match append_document "project" (ProjectIn.model_dump sample_project)
               sample_store with
       | (Ok new_id, w') => (Ok {[ "_id" := VStr new_id ]}, w')
       | (Raise e, w') => (Raise e, w')
       end).
Proof.
  apply (create_project_checks_client append_document [sample_client] sample_project
           sample_store [sample_entry] "65f0a1b2c3d4e5f601234560").
  - reflexivity.
  - vm_compute. reflexivity.
Defined.

Lemma endpoints_require_db_witness :
  (forall entry_id payload,
     update_time_entry entry_id payload no_db_world
     = (Raise (HTTPException 500 "Database not available"), no_db_world)) /\
  punch_stop no_db_world = (Raise (HTTPException 500 "Database not available"), no_db_world) /\
  get_summary no_db_world = (Raise (HTTPException 500 "Database not available"), no_db_world) /\
  (forall payload,
     create_time_entry append_document [sample_client] [] payload no_db_world
     = (Raise (HTTPException 500 "Database not available"), no_db_world)) /\
  (forall client_id project_id notes,
     punch_start append_document [sample_client] [] client_id project_id notes no_db_world
     = (Raise (HTTPException 500 "Database not available"), tick no_db_world)).
Proof.
  apply (endpoints_require_db append_document [sample_client] [] no_db_world).
  reflexivity.
Defined.
